(** * smilepruning: reinitialisation after pruning, mask re-application, reduction report

    A shallow embedding of
      - [src/pruner/l1_pruner.py]: [approximate_isometry_optimize],
        [exact_isometry_based_on_existing_weights], [Pruner.prune];
      - [src/main.py]: [apply_mask_forward], the [train] loop, the epoch loop
        of [finetune], and the reduction report of [main_worker]; the ranks
        of multiprocessing,
        [adjust_learning_rate_v2], [save_model] with the bookkeeping of
        [finetune], the training flag in [validate], the binding of the
        global [mask] in [main_worker], and the orthogonality regulariser of
        [train];
      - [src/tools/iccv21_latex_plots/plot_jsv_acc_v3_ICLR22.py]:
        [one_exp_plot] and the script around it.

    Tensors are a shape with row-major data.  Weights live in exact
    arithmetic (class [WeightArith]); IEEE special values (NaN, infinities,
    signed zeros) are outside the model.  The third-party pieces (Adam's
    update, the loss value, the random draws of the initialisers) are
    parameters of the development: every theorem holds whatever they
    compute. *)

From Stdlib Require Import QArith Qpower Lqa DecimalString.
From Stdlib Require SpecFloat.
From stdpp Require Import base option list strings gmap.

Local Open Scope nat_scope.

(** ** Python exceptions and fallible results *)

Inductive error : Type :=
| NotImplementedError
| KeyError (key : string)
| RuntimeError
| IndexError
| AttributeError
| ZeroDivisionError.

Inductive result (A : Type) : Type :=
| Ok (a : A)
| Err (e : error).
Arguments Ok {A} a.
Arguments Err {A} e.

Definition is_ok {A} (r : result A) : bool :=
  match r with Ok _ => true | Err _ => false end.

(** ** Weight arithmetic *)

(** The two facts about multiplication that masking relies on. *)
Class WeightArith (F : Type) : Type := {
  fzero : F;
  fone : F;
  fmul : F -> F -> F;
  fmul_zero_r : forall x, fmul x fzero = fzero;
  fmul_one_r : forall x, fmul x fone = x
}.

#[export] Instance Z_WeightArith : WeightArith Z := {|
  fzero := 0%Z;
  fone := 1%Z;
  fmul := Z.mul;
  fmul_zero_r := Z.mul_0_r;
  fmul_one_r := Z.mul_1_r
|}.

(** ** Shapes and broadcasting *)

Definition numel (s : list nat) : nat := foldr Nat.mul 1 s.

(** One dimension of torch's broadcasting rule. *)
Definition broadcast_dim (x y : nat) : option nat :=
  if x =? y then Some x
  else if x =? 1 then Some y
  else if y =? 1 then Some x
  else None.

(** Shapes are aligned at the trailing dimension: the recursion runs over the
    reversed shapes. *)
Fixpoint broadcast_rev (a b : list nat) : option (list nat) :=
  match a, b with
  | [], _ => Some b
  | _, [] => Some a
  | x :: a', y :: b' =>
      match broadcast_dim x y, broadcast_rev a' b' with
      | Some d, Some r => Some (d :: r)
      | _, _ => None
      end
  end.

Definition broadcast_shapes (a b : list nat) : option (list nat) :=
  reverse <$> broadcast_rev (reverse a) (reverse b).

(** [broadcasts_to s t]: a tensor of shape [s] can be expanded to shape [t]
    (what an in-place operation on a tensor of shape [t] asks of its other
    operand). *)
Definition broadcasts_to (s t : list nat) : bool :=
  bool_decide (broadcast_shapes t s = Some t).

Section Tensor.
Context {F : Type}.

Record tensor : Type := Tensor { shape : list nat; data : list F }.

Definition wf_tensor (t : tensor) : Prop := length (data t) = numel (shape t).

  (** [chunks k n d]: the first [n] consecutive blocks of [k] entries of [d]. *)
Fixpoint chunks (k n : nat) (d : list F) : list (list F) :=
    match n with
    | 0 => []
    | S n' => take k d :: chunks k n' (drop k d)
    end.

  (** Row-major expansion of data of shape [s] to the shape [t] of the same
      rank: a dimension of equal size is traversed block by block, a
      dimension of size 1 is repeated. *)
Fixpoint expand_aligned (s t : list nat) (d : list F) : list F :=
    match s, t with
    | x :: s', y :: t' =>
        if x =? y
        then concat (map (expand_aligned s' t') (chunks (numel s') x d))
        else concat (replicate y (expand_aligned s' t' d))
    | _, _ => d
    end.

  (** A shape of lower rank is first padded with leading 1s. *)
Definition expand (s t : list nat) (d : list F) : list F :=
    expand_aligned (replicate (length t - length s) 1 ++ s) t d.

  (** [w.view(shape)]: same data, new shape; the element counts must agree. *)
Definition view (t : tensor) (s : list nat) : result tensor :=
    if numel s =? numel (shape t) then Ok (Tensor s (data t)) else Err RuntimeError.

  (** [w.view(w.size(0), -1)]: [w.size(0)] needs a dimension, and the
      inferred dimension needs a non-empty leading one. *)
Definition view_rows (t : tensor) : result tensor :=
    match shape t with
    | [] => Err IndexError
    | n :: rest =>
        if n =? 0 then Err RuntimeError
        else Ok (Tensor [n; numel rest] (data t))
    end.

  (** [dst.copy_(src)]: [src] is broadcast to [dst]'s shape, which stays. *)
Definition copy_ (dst src : tensor) : result tensor :=
    if broadcasts_to (shape src) (shape dst)
    then Ok (Tensor (shape dst) (expand (shape src) (shape dst) (data src)))
    else Err RuntimeError.
End Tensor.
Arguments tensor F : clear implicits.

Section TensorArith.
Context {F : Type} `{WeightArith F}.

  (** [torch.mul(a, b)]: out of place, with broadcasting. *)
Definition torch_mul (a b : tensor F) : result (tensor F) :=
    match broadcast_shapes (shape a) (shape b) with
    | Some r =>
        Ok (Tensor r (zip_with fmul (expand (shape a) r (data a))
                                    (expand (shape b) r (data b))))
    | None => Err RuntimeError
    end.

  (** [a.mul_(b)]: in place, [b] is broadcast to [a]'s shape. *)
Definition mul_ (a b : tensor F) : result (tensor F) :=
    if broadcasts_to (shape b) (shape a)
    then Ok (Tensor (shape a)
               (zip_with fmul (data a) (expand (shape b) (shape a) (data b))))
    else Err RuntimeError.

  (** Every entry of [w] that sits where the mask, expanded to [w]'s shape,
      is 0, is 0. *)
Definition masked_zero (mt w : tensor F) : Prop :=
    forall i x,
      expand (shape mt) (shape w) (data mt) !! i = Some fzero ->
      data w !! i = Some x -> x = fzero.

  (** The mask holds only 0s and 1s. *)
Definition binary (mt : tensor F) : Prop :=
    Forall (fun x => x = fzero \/ x = fone) (data mt).
End TensorArith.

(** ** Models, masks and the trace of observable steps *)

(** What [isinstance] can tell about a module. *)
Inductive kind : Type := Conv2d | Linear | BatchNorm2d | OtherModule.

Record nn_module (F : Type) : Type := Mod {
  kind_of : kind;
  weight : option (tensor F)
}.
Arguments Mod {F} _ _.
Arguments kind_of {F} _.
Arguments weight {F} _.

(** [model.named_modules()]: the modules with their names, in traversal
    order. *)
Abbreviation model F := (list (string * nn_module F)).

(** The mask of unstructured pruning: a dict from layer name to a 0/1 tensor. *)
Abbreviation mask_dict F := (gmap string (tensor F)).

(** [isinstance(m, (nn.Conv2d, nn.Linear))] *)
Definition is_conv_or_linear {F} (m : nn_module F) : bool :=
  match kind_of m with
  | Conv2d | Linear => true
  | _ => false
  end.

Definition set_weight {F} (m : nn_module F) (w : tensor F) : nn_module F :=
  Mod (kind_of m) (Some w).

(** The steps of a run that the properties speak about.  [EvEndIter] and
    [EvForward] are observation points: they record the value a variable has
    at that place of the source. *)
Inductive event (F : Type) : Type :=
| EvOptimStep (name : string) (i : nat) (lr : F)
| EvEndIter (name : string) (i : nat) (w_ : tensor F)
| EvPrintLoss (i n_iter : nat) (name : string) (loss : F)
| EvPrintFinished (routine name : string)
| EvLogprint (msg : string)
| EvForward (m : model F)
| EvOptimizerStep
| EvApplyMask.
Arguments EvOptimStep {F} _ _ _.
Arguments EvEndIter {F} _ _ _.
Arguments EvPrintLoss {F} _ _ _ _.
Arguments EvPrintFinished {F} _ _.
Arguments EvLogprint {F} _.
Arguments EvForward {F} _.
Arguments EvOptimizerStep {F}.
Arguments EvApplyMask {F}.

(** A computation emits events and then returns or raises. *)
Definition M (F A : Type) : Type := list (event F) * result A.

Definition ret {F A} (a : A) : M F A := ([], Ok a).
Definition raise {F A} (e : error) : M F A := ([], Err e).
Definition emit {F} (e : event F) : M F unit := ([e], Ok tt).
Definition lift {F A} (r : result A) : M F A := ([], r).

Definition bind {F A B} (m : M F A) (f : A -> M F B) : M F B :=
  match m with
  | (evs, Ok a) => let '(evs', r) := f a in (evs ++ evs', r)
  | (evs, Err e) => (evs, Err e)
  end.

Notation "'let*' x ':=' m 'in' k" := (bind m (fun x => k))
  (at level 10, x name, m at level 100, k at level 200).
Notation "'do' m 'then' k" := (bind m (fun _ => k))
  (at level 10, m at level 100, k at level 200).

Definition trace {F A} (m : M F A) : list (event F) := fst m.
Definition outcome {F A} (m : M F A) : result A := snd m.

Arguments bind : simpl never.
Arguments ret : simpl never.
Arguments raise : simpl never.
Arguments emit : simpl never.
Arguments lift : simpl never.
Arguments trace : simpl never.
Arguments outcome : simpl never.

(** The [for name, m in model.named_modules()] loops: the body may replace
    the weight of the module it visits. *)
Fixpoint for_modules {F} (body : string -> nn_module F -> M F (nn_module F))
    (mdl : model F) : M F (model F) :=
  match mdl with
  | [] => ret []
  | (name, m) :: rest =>
      let* m' := body name m in
      let* rest' := for_modules body rest in
      ret ((name, m') :: rest')
  end.

(** ** The parts taken as parameters *)

(** torch: what one iteration of the isometry loop computes.  [adam_entry lr
    w_ j] is entry [j] of the variable after [optim.step()], for a fresh Adam
    optimiser over [w_] and the gradient of the Gram-identity loss;
    [gram_loss w_] is [loss.item()]. *)
Class Torch (F : Type) : Type := {
  adam_entry : F -> tensor F -> nat -> F;
  gram_loss : tensor F -> F
}.

(** utils: [orthogonalize_weights] is used as a function from tensor to
    tensor, nothing more is asked of it.  [kaiming_normal_] and [orthogonal_]
    are what the two initialisers leave at entry [j] of the tensor they are
    given; the value may depend on that tensor, so which entries an
    initialiser redraws and which it leaves alone is not fixed here. *)
Class Utils (F : Type) : Type := {
  orthogonalize_weights : tensor F -> tensor F;
  kaiming_normal_ : tensor F -> nat -> F;
  orthogonal_ : tensor F -> nat -> F
}.

(** [args]: the fields of the configuration that the embedded code reads. *)
Record Args (F : Type) : Type := MkArgs {
  reinit : option string;
  wg : string;
  lr_AI : F;
  method : option string;
  orth_reg_iter_ft : bool;
  orth_reg_method : string
}.
Arguments MkArgs {F} _ _ _ _ _ _.
Arguments reinit {F} _.
Arguments wg {F} _.
Arguments lr_AI {F} _.
Arguments method {F} _.
Arguments orth_reg_iter_ft {F} _.
Arguments orth_reg_method {F} _.

(** Python truthiness of a string-valued option: [None] and the empty string
    are falsy. *)
Definition truthy (o : option string) : bool :=
  match o with
  | Some s => negb (String.eqb s EmptyString)
  | None => false
  end.

(** [o == 'lit'] *)
Definition is_str (o : option string) (lit : string) : bool :=
  match o with
  | Some s => String.eqb s lit
  | None => false
  end.

(** The state of a pruner object: [self.model], [self.mask], [self.args]. *)
Record Pruner (F : Type) : Type := MkPruner {
  pr_model : model F;
  pr_mask : mask_dict F;
  pr_args : Args F
}.
Arguments MkPruner {F} _ _ _.
Arguments pr_model {F} _.
Arguments pr_mask {F} _.
Arguments pr_args {F} _.

(** pruner/meta_pruner.py, the base class, is not among the sources: its two
    methods that [prune] calls first are taken as they are used, as steps on
    the pruner object that may raise. *)
Class MetaPruner (F : Type) : Type := {
  _get_kept_wg_L1 : Pruner F -> result (Pruner F);
  _prune_and_build_new_model : Pruner F -> result (Pruner F)
}.

(** ** src/pruner/l1_pruner.py *)

Section L1Pruner.
Context {F : Type} `{WeightArith F} `{Torch F} `{Utils F} `{MetaPruner F}.

(** [optim.step()] writes every entry of the variable in place. *)
Definition adam_step (lr : F) (w_ : tensor F) : tensor F :=
  Tensor (shape w_) (imap (fun j _ => adam_entry lr w_ j) (data w_)).

(** Lines 25-26: [if not isinstance(mask, type(None)): w_ = torch.mul(w_,
    mask[name])]. *)
Definition mask_step (mask : option (mask_dict F)) (name : string)
    (w_ : tensor F) : M F (tensor F) :=
  match mask with
  | None => ret w_
  | Some mk =>
      match mk !! name with
      | None => raise (KeyError name)
      | Some mt => lift (torch_mul w_ mt)
      end
  end.

(** Lines 20-30, the body of [for i in range(n_iter)] run [todo] more times
    from iteration [i].  [w_.t()] takes a tensor of at most two dimensions;
    the optimiser is created anew for every iteration (lines 19 and 28), so
    each step starts from fresh optimiser state. *)
Fixpoint optimize_iters (mask : option (mask_dict F)) (lr : F) (n_iter : nat)
    (name : string) (todo i : nat) (w_ : tensor F) : M F (tensor F) :=
  match todo with
  | 0 => ret w_
  | S todo' =>
      do (if 2 <? length (shape w_) then raise RuntimeError else ret tt) then
      let loss := gram_loss w_ in
      do emit (EvOptimStep name i lr) then
      let* w_ := mask_step mask name (adam_step lr w_) in
      do (if i mod 10 =? 0 then emit (EvPrintLoss i n_iter name loss) else ret tt) then
      do emit (EvEndIter name i w_) then
      optimize_iters mask lr n_iter name todo' (S i) w_
  end.

(** Lines 13-31, the inner function [optimize(w)] with the variables it
    closes over ([mask], [lr], [n_iter], [name], and [m.weight.shape], which
    is the shape of [w]). *)
Definition optimize (mask : option (mask_dict F)) (lr : F) (n_iter : nat)
    (name : string) (w : tensor F) : M F (tensor F) :=
  let* flattened := lift (view_rows w) in
  let* w_ := optimize_iters mask lr n_iter name n_iter 0 flattened in
  lift (view w_ (shape w)).

(** [m.weight] of a module that has none. *)
Definition get_weight (m : nn_module F) : M F (tensor F) :=
  match weight m with
  | Some w => ret w
  | None => raise AttributeError
  end.

(** Lines 34-37, the body of the loop over the modules. *)
Definition approximate_isometry_layer (mask : option (mask_dict F)) (lr : F)
    (n_iter : nat) (name : string) (m : nn_module F) : M F (nn_module F) :=
  if is_conv_or_linear m then
    let* w := get_weight m in
    let* w_ := optimize mask lr n_iter name w in
    let* w' := lift (copy_ w w_) in
    do emit (EvPrintFinished "approximate_isometry_optimize" name) then
    ret (set_weight m w')
  else ret m.

(** Lines 12 and 33-37. *)
Definition approximate_isometry_optimize (mdl : model F)
    (mask : option (mask_dict F)) (lr : F) (n_iter : nat) : M F (model F) :=
  for_modules (approximate_isometry_layer mask lr n_iter) mdl.

(** Lines 41-44, the body of the loop over the modules. *)
Definition exact_isometry_layer (name : string) (m : nn_module F)
    : M F (nn_module F) :=
  if is_conv_or_linear m then
    let* w := get_weight m in
    let w_ := orthogonalize_weights w in
    let* w' := lift (copy_ w w_) in
    do emit (EvPrintFinished "exact_isometry" name) then
    ret (set_weight m w')
  else ret m.

(** Lines 39-44. *)
Definition exact_isometry_based_on_existing_weights (mdl : model F)
    : M F (model F) :=
  for_modules exact_isometry_layer mdl.

(** An initialiser that writes a tensor in place: the shape stays, every
    entry gets the value the initialiser leaves there. *)
Definition fill_ (draw : tensor F -> nat -> F) (w : tensor F) : tensor F :=
  Tensor (shape w) (imap (fun j _ => draw w j) (data w)).

(** Modelled from the spec: [utils._weights_init] is not among the sources.
    Spec 4.5, default: "redraw kept weights from a variance-scaling random
    distribution (deterministic given a seed)", and reinitialisation "never
    changes tensor shape".  It is taken as an in-place write of the Conv/FC
    weight that keeps the shape; the values written are those of [Utils], of
    which nothing is asked. *)
Definition _weights_init (m : nn_module F) : nn_module F :=
  if is_conv_or_linear m then
    match weight m with
    | Some w => set_weight m (fill_ kaiming_normal_ w)
    | None => m
    end
  else m.

(** Modelled from the spec: [utils._weights_init_orthogonal] is not among the
    sources.  Spec 4.5, exact orthogonal, from-scratch init: "draw fresh
    orthogonal-by-construction weights"; taken, as [_weights_init], as an
    in-place write that keeps the shape. *)
Definition _weights_init_orthogonal (m : nn_module F) : nn_module F :=
  if is_conv_or_linear m then
    match weight m with
    | Some w => set_weight m (fill_ orthogonal_ w)
    | None => m
    end
  else m.

(** [model.apply(fn)]: [fn] is called on every module. *)
Definition model_apply (fn : nn_module F -> nn_module F) (mdl : model F)
    : model F :=
  map (fun '(name, m) => (name, fn m)) mdl.

(** The strategy names that [prune] knows. *)
Definition supported_reinit : list string :=
  ["default"; "orth"; "exact_isometry"; "approximate_isometry"].

(** Lines 55-73, the dispatch on [args.reinit]. *)
Definition reinit_dispatch (args : Args F) (mask : option (mask_dict F))
    (mdl : model F) : M F (model F) :=
  if truthy (reinit args) then
    if is_str (reinit args) "default" then
      let mdl := model_apply _weights_init mdl in
      do emit (EvLogprint "==> Reinit model: default ('kaiming_normal' for Conv/FC; 0 mean, 1 std for BN)") then
      ret mdl
    else if is_str (reinit args) "orth" then
      let mdl := model_apply _weights_init_orthogonal mdl in
      do emit (EvLogprint "==> Reinit model: exact_isometry ('orthogonal_' for Conv/FC; 0 mean, 1 std for BN)") then
      ret mdl
    else if is_str (reinit args) "exact_isometry" then
      let* mdl := exact_isometry_based_on_existing_weights mdl in
      do emit (EvLogprint "==> Reinit model: exact_isometry (othogonalize Conv/FC weights based on existing weights)") then
      ret mdl
    else if is_str (reinit args) "approximate_isometry" then
      let* mdl := approximate_isometry_optimize mdl mask (lr_AI args) 10000 in
      do emit (EvLogprint "==> Reinit model: approximate_isometry") then
      ret mdl
    else raise NotImplementedError
  else ret mdl.

(** Lines 53: [mask = self.mask if self.args.wg == 'weight' else None]. *)
Definition prune_mask (self : Pruner F) : option (mask_dict F) :=
  if String.eqb (wg (pr_args self)) "weight" then Some (pr_mask self) else None.

(** Lines 53-75: [prune] from the pruner object as the two base-class calls
    leave it. *)
Definition prune_reinit (self : Pruner F) : M F (model F) :=
  reinit_dispatch (pr_args self) (prune_mask self) (pr_model self).

(** Lines 50-75, [Pruner.prune]. *)
Definition prune (self : Pruner F) : M F (model F) :=
  let* self := lift (_get_kept_wg_L1 self) in
  let* self := lift (_prune_and_build_new_model self) in
  prune_reinit self.

End L1Pruner.

(** ** src/main.py *)

(** The optimiser and the data of finetuning.  [optimizer_entry st b mdl name
    j] is entry [j] of the weight of module [name] after
    [optimizer.zero_grad(); loss.backward(); optimizer.step()] on batch [b];
    [optimizer_next] is the optimiser's own state after that step. *)
Class Training (F : Type) : Type := {
  Batch : Type;
  OptState : Type;
  optimizer_entry : OptState -> Batch -> model F -> string -> nat -> F;
  optimizer_next : OptState -> Batch -> model F -> OptState
}.

Section Main.
Context {F : Type} `{WeightArith F} `{Training F}.

(** Lines 713-717; the global [mask] is passed as an argument. *)
Definition apply_mask_layer (mask : mask_dict F) (name : string)
    (m : nn_module F) : M F (nn_module F) :=
  match mask !! name with
  | Some mt =>
      let* w := get_weight m in
      let* w' := lift (mul_ w mt) in
      ret (set_weight m w')
  | None => ret m
  end.

Definition apply_mask_forward (mask : mask_dict F) (mdl : model F)
    : M F (model F) :=
  for_modules (apply_mask_layer mask) mdl.

(** [optimizer.step()] over [model.parameters()]. *)
Definition optimizer_step (st : OptState) (b : Batch) (mdl : model F)
    : model F :=
  map (fun '(name, m) =>
         match weight m with
         | Some w =>
             (name, set_weight m
                (Tensor (shape w)
                   (imap (fun j _ => optimizer_entry st b mdl name j) (data w))))
         | None => (name, m)
         end) mdl.

(** Lines 592-607: with [args.orth_reg_iter_ft] set, every Conv/FC module is
    visited, and a regularisation method other than CVPR20 and CVPR17 raises
    at the first of them. *)
Definition orth_reg (args : Args F) (mdl : model F) : M F unit :=
  if orth_reg_iter_ft args then
    if existsb (fun '(_, m) => is_conv_or_linear m) mdl then
      if String.eqb (orth_reg_method args) "CVPR20"
         || String.eqb (orth_reg_method args) "CVPR17"
      then ret tt
      else raise NotImplementedError
    else ret tt
  else ret tt.

(** Line 618: [args.method and args.wg == 'weight']. *)
Definition mask_mode (args : Args F) : bool :=
  truthy (method args) && String.eqb (wg args) "weight".

(** Lines 568-619, the loop of [train] over the batches of one epoch: the
    forward pass, the regulariser, the optimiser step and the mask.  The
    learning-rate adjustment of lines 576-579 (under [args.advanced_lr])
    writes no weight and is left out here; it is [adjust_learning_rate_v2]
    further down, and it can raise before the forward pass. *)
Fixpoint train (args : Args F) (mask : mask_dict F) (train_loader : list Batch)
    (st : OptState) (mdl : model F) : M F (OptState * model F) :=
  match train_loader with
  | [] => ret (st, mdl)
  | b :: rest =>
      do emit (EvForward mdl) then
      do orth_reg args mdl then
      do emit EvOptimizerStep then
      let mdl1 := optimizer_step st b mdl in
      let st1 := optimizer_next st b mdl in
      let* mdl2 :=
        if mask_mode args
        then do emit EvApplyMask then apply_mask_forward mask mdl1
        else ret mdl1 in
      train args mask rest st1 mdl2
  end.

(** Lines 655-666 of [validate]: one forward pass per batch, no update. *)
Definition validate (val_loader : list Batch) (mdl : model F) : M F unit :=
  (map (fun _ => EvForward mdl) val_loader, Ok tt).

(** Lines 444-497, the epoch loop of [finetune]: train for one epoch, then
    evaluate on the validation set.  Learning-rate scheduling, logging,
    checkpoints and the optional second evaluation on the training set write
    no weight and are left out. *)
Fixpoint finetune_epochs (args : Args F) (mask : mask_dict F)
    (train_loader val_loader : list Batch) (n_epochs : nat)
    (st : OptState) (mdl : model F) : M F (OptState * model F) :=
  match n_epochs with
  | 0 => ret (st, mdl)
  | S n' =>
      let* r := train args mask train_loader st mdl in
      do validate val_loader (snd r) then
      finetune_epochs args mask train_loader val_loader n' (fst r) (snd r)
  end.

(** [for epoch in range(args.start_epoch, args.epochs)] *)
Definition finetune (args : Args F) (mask : mask_dict F)
    (train_loader val_loader : list Batch) (start_epoch epochs : nat)
    (st : OptState) (mdl : model F) : M F (OptState * model F) :=
  finetune_epochs args mask train_loader val_loader (epochs - start_epoch) st mdl.

End Main.

(** Lines 360-367 of [main_worker], the reduction report, with its
    arithmetic read over the rationals: every operation exact.  Python's [/]
    raises [ZeroDivisionError] on a zero divisor.  [reduction_report_double]
    further down is the same report in the floats of the program. *)
Definition py_div (x y : Q) : result Q :=
  if Qeq_bool y 0 then Err ZeroDivisionError else Ok (x / y)%Q.

Definition count (n : nat) : Q := inject_Z (Z.of_nat n).

Record report : Type := MkReport {
  ratio_param : Q;
  ratio_flops : Q;
  compression_ratio : Q;
  speedup_ratio : Q
}.

Definition result_bind {A B} (r : result A) (f : A -> result B) : result B :=
  match r with
  | Ok a => f a
  | Err e => Err e
  end.

Definition reduction_report
    (n_params_original_v2 n_flops_original_v2 n_params_now_v2 n_flops_now_v2 : nat)
    : result report :=
  result_bind (py_div (count n_params_original_v2 - count n_params_now_v2)
                      (count n_params_original_v2)) (fun ratio_param =>
  result_bind (py_div (count n_flops_original_v2 - count n_flops_now_v2)
                      (count n_flops_original_v2)) (fun ratio_flops =>
  result_bind (py_div 1 (1 - ratio_param)) (fun compression_ratio =>
  result_bind (py_div 1 (1 - ratio_flops)) (fun speedup_ratio =>
  Ok (MkReport ratio_param ratio_flops compression_ratio speedup_ratio))))).

(** ** What the properties are stated with *)

Section Observations.
Context {F : Type} `{WeightArith F}.

(** Every entry of [w] at a position where the mask is 0 is 0 (mask and
    weight read at the same row-major position). *)
Definition pruned_zero (mt w : tensor F) : Prop :=
  forall i x, data mt !! i = Some fzero -> data w !! i = Some x -> x = fzero.

(** The same for every layer of the mask's domain. *)
Definition model_pruned_zero (mask : mask_dict F) (mdl : model F) : Prop :=
  forall name m mt w,
    (name, m) ∈ mdl -> mask !! name = Some mt -> weight m = Some w ->
    pruned_zero mt w.

(** torch's layers: [nn.Linear] and [nn.Conv2d] have a weight, that of
    [nn.Linear] is (out, in), that of [nn.Conv2d] is (out, in, kH, kW); data
    length and shape agree. *)
Definition wf_module (m : nn_module F) : Prop :=
  match weight m with
  | Some w =>
      wf_tensor w /\
      (kind_of m = Linear -> length (shape w) = 2) /\
      (kind_of m = Conv2d -> length (shape w) = 4)
  | None => is_conv_or_linear m = false
  end.

Definition wf_model (mdl : model F) : Prop :=
  forall name m, (name, m) ∈ mdl -> wf_module m.

(** Every Conv/FC layer has at least one output row (the spec's "no layer
    may end with zero output channels"). *)
Definition positive_rows (mdl : model F) : Prop :=
  forall name m w,
    (name, m) ∈ mdl -> is_conv_or_linear m = true -> weight m = Some w ->
    exists k rest, shape w = k :: rest /\ 0 < k.

(** Every mask is a well-formed tensor shaped like the weight of its layer. *)
Definition mask_fits (mask : mask_dict F) (mdl : model F) : Prop :=
  forall name m mt w,
    (name, m) ∈ mdl -> mask !! name = Some mt -> weight m = Some w ->
    shape mt = shape w /\ wf_tensor mt.

Definition binary_mask (mask : mask_dict F) : Prop :=
  forall name mt, mask !! name = Some mt -> binary mt.

(** Two models have the same modules, by name and kind, with weights of the
    same shapes. *)
Definition same_layout (mdl mdl' : model F) : Prop :=
  Forall2 (fun x y =>
             x.1 = y.1 /\ kind_of x.2 = kind_of y.2 /\
             shape <$> weight x.2 = shape <$> weight y.2) mdl mdl'.

Fixpoint count_events (p : event F -> bool) (evs : list (event F)) : nat :=
  match evs with
  | [] => 0
  | e :: evs' => (if p e then 1 else 0) + count_events p evs'
  end.

Definition is_optim_step (e : event F) : bool :=
  match e with EvOptimStep _ _ _ => true | _ => false end.

Definition is_end_iter (e : event F) : bool :=
  match e with EvEndIter _ _ _ => true | _ => false end.

(** The Conv/FC layers of a model. *)
Definition n_conv_linear (mdl : model F) : nat :=
  length (filter (fun x => is_conv_or_linear x.2 = true) mdl).


(** What follows the first optimiser step of a trace. *)
Fixpoint after_first_step (evs : list (event F)) : list (event F) :=
  match evs with
  | [] => []
  | EvOptimizerStep :: rest => rest
  | _ :: rest => after_first_step rest
  end.

(** Every forward pass of the trace reads the pruned entries as 0. *)
Definition forwards_masked (mask : mask_dict F) (evs : list (event F)) : Prop :=
  forall m, EvForward m ∈ evs -> model_pruned_zero mask m.

(** The same torch with another reading of the loss. *)
Definition with_loss (T : Torch F) (loss : tensor F -> F) : Torch F :=
  {| adam_entry := @adam_entry F T; gram_loss := loss |}.

End Observations.

(** ** Concrete inputs *)

(** Integer weights, and for torch the first step of a fresh Adam on the
    Gram-identity loss with its epsilon taken as 0: each entry moves by [lr]
    against the sign of its gradient, which is that of the entry of
    (W W^T - I) W. *)
Definition row (k i : nat) (d : list Z) : list Z := take k (drop (i * k) d).

Definition dot (a b : list Z) : Z := foldr Z.add 0%Z (zip_with Z.mul a b).

Definition gram_residual (k : nat) (d : list Z) (i j : nat) : Z :=
  (dot (row k i d) (row k j d) - (if Nat.eqb i j then 1 else 0))%Z.

Definition gram_grad (n k : nat) (d : list Z) (i c : nat) : Z :=
  foldr Z.add 0%Z
    (map (fun j => (gram_residual k d i j * default 0 (row k j d !! c))%Z)
         (seq 0 n)).

Definition rows_of (w : tensor Z) : nat := hd 0 (shape w).
Definition cols_of (w : tensor Z) : nat := numel (tail (shape w)).

#[export] Instance sign_adam : Torch Z := {|
  adam_entry lr w j :=
    (default 0 (data w !! j)
     - lr * Z.sgn (gram_grad (rows_of w) (cols_of w) (data w)
                     (j / cols_of w) (j mod cols_of w)))%Z;
  gram_loss w :=
    foldr Z.add 0%Z
      (map (fun ij => (gram_residual (cols_of w) (data w) ij.1 ij.2 ^ 2)%Z)
           (list_prod (seq 0 (rows_of w)) (seq 0 (rows_of w))))
|}.

(** Initialisers that draw no zero, and an orthogonaliser that returns a
    tensor of the shape it was given. *)
#[export] Instance demo_utils : Utils Z := {|
  orthogonalize_weights w := w;
  kaiming_normal_ _ j := Z.of_nat (S j);
  orthogonal_ _ j := Z.of_nat (S j)
|}.

(** Base-class steps that leave the pruner object as it is. *)
#[export] Instance demo_meta_pruner : MetaPruner Z := {|
  _get_kept_wg_L1 self := Ok self;
  _prune_and_build_new_model self := Ok self
|}.

(** An optimiser of finetuning that moves every entry. *)
#[export] Instance demo_training : Training Z := {|
  Batch := nat;
  OptState := unit;
  optimizer_entry _ b _ _ j := Z.of_nat (S (b + j));
  optimizer_next st _ _ := st
|}.

(** A fully-connected layer of one row, its second weight pruned. *)
Definition fc_weight : tensor Z := Tensor [1; 2] [1; 3]%Z.
Definition fc_mask : tensor Z := Tensor [1; 2] [1; 0]%Z.
Definition fc_model : model Z := [("fc", Mod Linear (Some fc_weight))].
Definition fc_masks : mask_dict Z := {[ "fc" := fc_mask ]}.

(** A convolution of two 2x2 filters, its mask shaped like its weight. *)
Definition conv_weight : tensor Z := Tensor [2; 1; 2; 2] [1; 2; 3; 4; 5; 6; 7; 8]%Z.
Definition conv_mask : tensor Z := Tensor [2; 1; 2; 2] [1; 0; 1; 0; 1; 1; 0; 0]%Z.
Definition conv_model : model Z := [("conv", Mod Conv2d (Some conv_weight))].
Definition conv_masks : mask_dict Z := {[ "conv" := conv_mask ]}.

Definition demo_args (reinit : option string) (wg : string) (method : option string)
    : Args Z :=
  MkArgs reinit wg 1%Z method false EmptyString.

(** The same layer with the pruned weight already at 0, and after the
    approximate-isometry run. *)
Definition fc_model_zeroed : model Z :=
  [("fc", Mod Linear (Some (Tensor [1; 2] [1; 0]%Z)))].
Definition fc_model_reinit : model Z :=
  [("fc", Mod Linear (Some (Tensor [1; 2] [0; 0]%Z)))].

(** Pruner objects as the base-class calls leave them: the fully-connected
    model with its mask; the same model with a mask that has no entry for
    the layer; the convolution with its mask. *)
Definition fc_pruner (reinit : option string) (wg : string) : Pruner Z :=
  MkPruner fc_model fc_masks (demo_args reinit wg (Some "L1")).
Definition fc_pruner_no_entry : Pruner Z :=
  MkPruner fc_model ∅ (demo_args (Some "approximate_isometry") "weight" (Some "L1")).
Definition conv_pruner : Pruner Z :=
  MkPruner conv_model conv_masks
    (demo_args (Some "approximate_isometry") "weight" (Some "L1")).

(** * The rest of the code *)

(** ** Observations on the events and the models *)

Definition is_forward {F} (e : event F) : bool :=
  match e with EvForward _ => true | _ => false end.

Definition is_optimizer_step {F} (e : event F) : bool :=
  match e with EvOptimizerStep => true | _ => false end.

Definition is_apply_mask {F} (e : event F) : bool :=
  match e with EvApplyMask => true | _ => false end.

(** What [exact_isometry_based_on_existing_weights] leaves in a module whose
    orthogonalised weight has the shape of the weight. *)
Definition orthogonalized {F} {U : Utils F} (m : nn_module F) : nn_module F :=
  if is_conv_or_linear m then
    match weight m with
    | Some w => set_weight m (orthogonalize_weights w)
    | None => m
    end
  else m.

(** A batch-norm layer in front of the fully-connected one. *)
Definition bn_fc_model : model Z :=
  [("bn", Mod BatchNorm2d (Some (Tensor [2] [1; 1]%Z)));
   ("fc", Mod Linear (Some fc_weight))].

(** ** The rest of src/main.py *)

(** The exceptions that the code below raises beside those of [error]. *)
Inductive exception : Type :=
| Builtin (e : error)
| ValueError (msg : string)
| AssertionError
| NameError (name : string)
| UnboundLocalError (name : string)
| TypeError
| OverflowError
| FileNotFoundError (path : string).

Inductive attempt (A : Type) : Type :=
| Returned (a : A)
| Raised (e : exception).
Arguments Returned {A} a.
Arguments Raised {A} e.

Definition returns {A} (r : attempt A) : bool :=
  match r with Returned _ => true | Raised _ => false end.

Definition attempt_bind {A B} (r : attempt A) (f : A -> attempt B) : attempt B :=
  match r with
  | Returned a => f a
  | Raised e => Raised e
  end.

Notation "'let?' x ':=' m 'in' k" := (attempt_bind m (fun x => k))
  (at level 10, x name, m at level 100, k at level 200).

Definition of_result {A} (r : result A) : attempt A :=
  match r with
  | Ok a => Returned a
  | Err e => Raised (Builtin e)
  end.

(** *** Python floats *)

(** A Python float is an IEEE binary64 number: 53 bits of precision,
    exponents below 1024.  [spec_float] of the Standard Library is that
    format with its correctly rounded operations. *)
Abbreviation py_float := SpecFloat.spec_float.







(** *** The reduction report in the floats of the program *)



(** *** Processes and ranks *)

(** Lines 76-79 of [main]: with multiprocessing, [args.world_size] counts
    nodes on entry and processes afterwards. *)
Definition main_world_size (multiprocessing_distributed : bool)
    (ngpus_per_node world_size : Z) : Z :=
  if multiprocessing_distributed then (ngpus_per_node * world_size)%Z
  else world_size.

(** Line 156 of [main_worker]: [args.rank * ngpus_per_node + gpu], where
    [mp.spawn] calls [main_worker] with [gpu] = 0, ..., [ngpus_per_node - 1]. *)
Definition global_rank (rank ngpus_per_node gpu : Z) : Z :=
  (rank * ngpus_per_node + gpu)%Z.

(** Lines 519-520 of [finetune]: [not args.multiprocessing_distributed or
    (args.multiprocessing_distributed and args.rank % ngpus_per_node == 0)].
    Python's [%] takes the sign of the divisor, as [Z.modulo] does. *)
Definition saves_checkpoint (multiprocessing_distributed : bool)
    (rank ngpus_per_node : Z) : result bool :=
  if negb multiprocessing_distributed then Ok true
  else if (ngpus_per_node =? 0)%Z then Err ZeroDivisionError
  else Ok (rank mod ngpus_per_node =? 0)%Z.

(** *** The learning-rate schedule *)

(** [args.advanced_lr]. *)
Record AdvancedLR : Type := MkAdvancedLR {
  warmup_epoch : Z;
  lr_decay : string;
  gamma : Q;
  schedule : list Z
}.

(** The fields of [args] that [adjust_learning_rate_v2] reads;
    [advanced_lr = None] stands for an [args] without the attribute. *)
Record LRArgs : Type := MkLRArgs {
  args_lr : Q;
  args_epochs : Z;
  advanced_lr : option AdvancedLR
}.

(** Python's [math] and the power of two floats, as functions on the
    rationals that floats are; [float_pow] is taken on a non-negative base. *)
Class PyMath : Type := {
  float_pow : Q -> Q -> Q;
  math_pi : Q;
  math_cos : Q -> Q
}.

(** [x / y] *)
Definition true_div (x y : Q) : attempt Q := of_result (py_div x y).

(** Lines 719-746, with the float arithmetic read over the rationals (every
    operation exact).  [param_groups] holds the ['lr'] entry of every
    parameter group of the optimiser; the second component of the result is
    what these entries are on return. *)
Definition adjust_learning_rate_v2 {PM : PyMath} (args : LRArgs)
    (param_groups : list Q) (epoch iteration num_iter : Z)
    : attempt (Q * list Q) :=
  match advanced_lr args with
  | None => Raised AssertionError
  | Some a =>
      let warmup_iter := (warmup_epoch a * num_iter)%Z in
      let current_iter := (iteration + epoch * num_iter)%Z in
      let max_iter := (args_epochs args * num_iter)%Z in
      let? lr :=
        if (epoch <? warmup_epoch a)%Z then
          true_div (args_lr args * inject_Z current_iter) (inject_Z warmup_iter)
        else if String.eqb (lr_decay a) "step" then
          let? frac := true_div (inject_Z (current_iter - warmup_iter))
                                (inject_Z (max_iter - warmup_iter)) in
          Returned (args_lr args * float_pow (gamma a) frac)%Q
        else if String.eqb (lr_decay a) "cos" then
          let? x := true_div (math_pi * inject_Z (current_iter - warmup_iter))
                             (inject_Z (max_iter - warmup_iter)) in
          Returned (args_lr args * (1 + math_cos x) / 2)%Q
        else if String.eqb (lr_decay a) "linear" then
          let? frac := true_div (inject_Z (current_iter - warmup_iter))
                                (inject_Z (max_iter - warmup_iter)) in
          Returned (args_lr args * (1 - frac))%Q
        else if String.eqb (lr_decay a) "schedule" then
          let count := length (filter (fun s => (s <= epoch)%Z) (schedule a)) in
          Returned (args_lr args * gamma a ^ Z.of_nat count)%Q
        else Raised (ValueError ("Unknown lr mode " ++ lr_decay a))
      in
      Returned (lr, map (fun _ => lr) param_groups)
  end.

(** The modes of decay that the schedule knows. *)
Definition lr_decay_modes : list string := ["step"; "cos"; "linear"; "schedule"].

(** A [math] whose values are never looked at by the properties. *)
Definition demo_math : PyMath :=
  {| float_pow := fun _ _ => 1%Q; math_pi := (355 # 113)%Q; math_cos := fun _ => 1%Q |}.

(** *** Checkpoints *)

(** A module-level name that an assignment may or may not have bound yet. *)
Inductive binding (A : Type) : Type :=
| Unbound
| Bound (a : A).
Arguments Unbound {A}.
Arguments Bound {A} a.

Definition read_global {A} (name : string) (g : binding A) : attempt A :=
  match g with
  | Bound a => Returned a
  | Unbound => Raised (NameError name)
  end.

(** [os.path.join] of two components on a POSIX system. *)
Definition starts_with_slash (s : string) : bool :=
  match s with
  | String c _ => String.eqb (String c EmptyString) "/"
  | EmptyString => false
  end.

Fixpoint ends_with_slash (s : string) : bool :=
  match s with
  | EmptyString => false
  | String c EmptyString => String.eqb (String c EmptyString) "/"
  | String _ rest => ends_with_slash rest
  end.

Definition pjoin (a b : string) : string :=
  if starts_with_slash b then b
  else if String.eqb a EmptyString || ends_with_slash a then a ++ b
  else a ++ "/" ++ b.

(** [x > y] and [max(x, y)] on floats; [max] returns its first argument
    unless the second is greater. *)
Definition Qgt_bool (x y : Q) : bool := negb (Qle_bool x y).

Definition py_max (x y : Q) : Q := if Qgt_bool y x then y else x.

(** [l[-n:]] *)
Definition last_n {A} (n : Z) (l : list A) : list A :=
  let len := Z.of_nat (length l) in
  let start := (- n)%Z in
  let start :=
    if (start <? 0)%Z then Z.max (start + len) 0 else Z.min start len in
  drop (Z.to_nat start) l.

(** The formatting of a float and of an int inside an f-string. *)
Class PyFormat : Type := {
  str_float : Q -> string;
  str_int : Z -> string
}.

(** The dict that is saved.  [ck_snapshot] stands for the entries ['model'],
    ['state_dict'] and ['optimizer'], which are the model and the optimiser
    as they are when the dict is built; ['arch'] and ['ExpID'] do not change
    over a run.  An entry that one of the two dicts does not have is [None]. *)
Record checkpoint (Snapshot Mask : Type) : Type := MkCheckpoint {
  ck_epoch : Z;
  ck_snapshot : Snapshot;
  ck_acc1 : option Q;
  ck_acc5 : option Q;
  ck_best_acc1 : option Q;
  ck_prune_state : option string;
  ck_mask : option Mask
}.
Arguments MkCheckpoint {Snapshot Mask} _ _ _ _ _ _ _.
Arguments ck_epoch {Snapshot Mask} _.
Arguments ck_snapshot {Snapshot Mask} _.
Arguments ck_acc1 {Snapshot Mask} _.
Arguments ck_acc5 {Snapshot Mask} _.
Arguments ck_best_acc1 {Snapshot Mask} _.
Arguments ck_prune_state {Snapshot Mask} _.
Arguments ck_mask {Snapshot Mask} _.

(** The files under which checkpoints are written, by path.  The
    directories are taken to exist. *)
Abbreviation files Snapshot Mask := (gmap string (checkpoint Snapshot Mask)).

Section Checkpoints.
Context {Snapshot Mask : Type} {Fmt : PyFormat}.
#[local] Abbreviation checkpoint := (checkpoint Snapshot Mask).
#[local] Abbreviation files := (files Snapshot Mask).

(** Lines 696-699, with the default [filename] that [finetune] uses. *)
Definition save_checkpoint (state : checkpoint) (is_best : bool) (fs : files)
    : files :=
  let fs := <["checkpoint.pth.tar" := state]> fs in
  if is_best then
    match fs !! "checkpoint.pth.tar" with
    | Some copied => <["model_best.pth.tar" := copied]> fs
    | None => fs
    end
  else fs.

(** Lines 702-710; [weights_path] is [logger.weights_path]. *)
Definition save_model (weights_path : string) (state : checkpoint)
    (is_best : bool) (mark : string) (fs : files) : files :=
  let fs := <[pjoin weights_path "checkpoint.pth" := state]> fs in
  let fs :=
    if is_best then <[pjoin weights_path "checkpoint_best.pth" := state]> fs
    else fs in
  if negb (String.eqb mark EmptyString)
  then <[pjoin weights_path ("checkpoint_" ++ mark ++ ".pth") := state]> fs
  else fs.

(** The fields of [args] and of the environment that the bookkeeping of
    [finetune] reads; [ft_ngpus_per_node] is [torch.cuda.device_count()]. *)
Record FinetuneArgs : Type := MkFinetuneArgs {
  ft_method : option string;
  ft_wg : string;
  ft_start_epoch : Z;
  ft_epochs : Z;
  ft_has_advanced_lr : bool;
  ft_multiprocessing_distributed : bool;
  ft_rank : Z;
  ft_ngpus_per_node : Z;
  ft_last_n_epoch : Z;
  ft_weights_path : string
}.

(** What the calls of one epoch give: the learning rate of the epoch (the
    scheduler's value, or [args.advanced_lr.lr] after [train]), the model
    and optimiser after [train], and the numbers of [validate]
    ([loss_train] is -1 when the training set is not evaluated). *)
Record EpochRun : Type := MkEpochRun {
  run_lr : Q;
  run_snapshot : Snapshot;
  run_acc1 : Q;
  run_acc5 : Q;
  run_loss_train : Q;
  run_loss_test : Q
}.

(** The local variables of [finetune] that live across epochs.
    [best_loss] is [best_loss_train] and [best_loss_test], [last_eval] is
    [acc1] and [acc5]: these are not bound before their first assignment. *)
Record FinetuneState : Type := MkFinetuneState {
  fs_files : files;
  fs_snapshot : Snapshot;
  best_acc1 : Q;
  best_acc1_epoch : Z;
  best_loss : option (Q * Q);
  last_eval : option (Q * Q);
  acc1_list : list Q;
  loss_train_list : list Q;
  loss_test_list : list Q;
  last_lr : Q
}.

(** Lines 466-467 and 533-534: [if args.wg == 'weight': state['mask'] = mask]. *)
Definition with_mask (args : FinetuneArgs) (mask : binding Mask)
    (state : checkpoint) : attempt checkpoint :=
  if String.eqb (ft_wg args) "weight" then
    let? mk := read_global "mask" mask in
    Returned (MkCheckpoint (ck_epoch state) (ck_snapshot state) (ck_acc1 state)
                (ck_acc5 state) (ck_best_acc1 state) (ck_prune_state state)
                (Some mk))
  else Returned state.

(** Lines 449-469: without [args.advanced_lr], a checkpoint of the last epoch
    is saved when the learning rate has just changed. *)
Definition save_on_lr_change (args : FinetuneArgs) (mask : binding Mask)
    (epoch : Z) (run : EpochRun) (s : FinetuneState) : attempt files :=
  if ft_has_advanced_lr args then Returned (fs_files s)
  else
    let lr := run_lr run in
    if negb (Qeq_bool (last_lr s) 0) && negb (Qeq_bool lr (last_lr s)) then
      match last_eval s with
      | None => Raised (UnboundLocalError "acc1")
      | Some (acc1, acc5) =>
          let? state :=
            with_mask args mask
              (MkCheckpoint epoch (fs_snapshot s) (Some acc1) (Some acc5) None
                 (Some "finetune") None) in
          Returned
            (save_model (ft_weights_path args) state false
               ("lr" ++ str_float (last_lr s) ++ "_epoch" ++ str_int epoch)
               (fs_files s))
      end
    else Returned (fs_files s).

(** Lines 518-543: the checkpoint at the end of the epoch. *)
Definition save_epoch (args : FinetuneArgs) (mask : binding Mask)
    (epoch : Z) (run : EpochRun) (is_best : bool) (best : Q) (fs : files)
    : attempt files :=
  let? saver :=
    of_result (saves_checkpoint (ft_multiprocessing_distributed args)
                 (ft_rank args) (ft_ngpus_per_node args)) in
  if saver then
    if truthy (ft_method args) then
      let? state :=
        with_mask args mask
          (MkCheckpoint (epoch + 1) (run_snapshot run) (Some (run_acc1 run))
             (Some (run_acc5 run)) None (Some "finetune") None) in
      Returned (save_model (ft_weights_path args) state is_best EmptyString fs)
    else
      Returned
        (save_checkpoint
           (MkCheckpoint (epoch + 1) (run_snapshot run) None None (Some best)
              None None)
           is_best fs)
  else Returned fs.

(** Lines 445-543, the body of the loop over the epochs. *)
Definition finetune_epoch (args : FinetuneArgs) (mask : binding Mask)
    (epoch : Z) (run : EpochRun) (s : FinetuneState) : attempt FinetuneState :=
  let? fs := save_on_lr_change args mask epoch run s in
  let is_best := Qgt_bool (run_acc1 run) (best_acc1 s) in
  let best := py_max (run_acc1 run) (best_acc1 s) in
  let? fs := save_epoch args mask epoch run is_best best fs in
  Returned
    (MkFinetuneState fs (run_snapshot run) best
       (if is_best then epoch else best_acc1_epoch s)
       (if is_best then Some (run_loss_train run, run_loss_test run)
        else best_loss s)
       (Some (run_acc1 run, run_acc5 run))
       (acc1_list s ++ [run_acc1 run])
       (loss_train_list s ++ [run_loss_train run])
       (loss_test_list s ++ [run_loss_test run])
       (run_lr run)).

(** [for epoch in range(args.start_epoch, args.epochs)], [todo] epochs from
    [epoch] on. *)
Fixpoint finetune_loop (args : FinetuneArgs) (mask : binding Mask)
    (runs : Z -> EpochRun) (todo : nat) (epoch : Z) (s : FinetuneState)
    : attempt FinetuneState :=
  match todo with
  | 0 => Returned s
  | S todo' =>
      let? s := finetune_epoch args mask epoch (runs epoch) s in
      finetune_loop args mask runs todo' (epoch + 1) s
  end.

(** What [finetune] returns and leaves behind: [best], the three windows
    whose [np.mean] and [np.std] make [last5], and the files. *)
Record FinetuneResult : Type := MkFinetuneResult {
  res_best : Q * Q * Q;
  res_last_acc1 : list Q;
  res_last_loss_train : list Q;
  res_last_loss_test : list Q;
  res_files : files
}.

(** Lines 443-551 of [finetune]: the bookkeeping around [train] and
    [validate], whose results per epoch are [runs]. *)
Definition finetune_bookkeeping (args : FinetuneArgs) (mask : binding Mask)
    (runs : Z -> EpochRun) (model : Snapshot) (best_acc1_0 : Q)
    (best_acc1_epoch_0 : Z) (fs : files) : attempt FinetuneResult :=
  let? s :=
    finetune_loop args mask runs
      (Z.to_nat (ft_epochs args - ft_start_epoch args)) (ft_start_epoch args)
      (MkFinetuneState fs model best_acc1_0 best_acc1_epoch_0 None None
         [] [] [] 0) in
  match best_loss s with
  | None => Raised (UnboundLocalError "best_loss_train")
  | Some (best_loss_train, best_loss_test) =>
      Returned
        (MkFinetuneResult (best_acc1 s, best_loss_train, best_loss_test)
           (last_n (ft_last_n_epoch args) (acc1_list s))
           (last_n (ft_last_n_epoch args) (loss_train_list s))
           (last_n (ft_last_n_epoch args) (loss_test_list s))
           (fs_files s))
  end.

End Checkpoints.

Section CheckpointObservations.
Context {Snapshot Mask : Type}.

(** The ['mask'] entry of the dicts that [finetune] saves. *)
Definition mask_entry (args : FinetuneArgs) (mask : binding Mask) : option Mask :=
  if String.eqb (ft_wg args) "weight" then
    match mask with
    | Bound mk => Some mk
    | Unbound => None
    end
  else None.

(** The dict that [finetune] saves at the end of epoch [e] when a pruning
    method is set. *)
Definition epoch_state (args : FinetuneArgs) (mask : binding Mask)
    (runs : Z -> @EpochRun Snapshot) (e : Z) : checkpoint Snapshot Mask :=
  MkCheckpoint (e + 1) (run_snapshot (runs e)) (Some (run_acc1 (runs e)))
    (Some (run_acc5 (runs e))) None (Some "finetune") (mask_entry args mask).

(** In mask mode the global [mask] is bound. *)
Definition mask_ready (args : FinetuneArgs) (mask : binding Mask) : Prop :=
  ft_wg args = "weight" -> exists mk, mask = Bound mk.

(** The values of [acc1] over the epochs of the run. *)
Definition all_acc1 (args : FinetuneArgs) (runs : Z -> @EpochRun Snapshot)
    : list Q :=
  map (fun e => run_acc1 (runs e))
      (seqZ (ft_start_epoch args) (ft_epochs args - ft_start_epoch args)).

(** After the epochs before [k]: the running maximum, the list of
    accuracies, and the epoch that [best_acc1_epoch] and the best losses come
    from. *)
Definition best_tracked (args : FinetuneArgs) (runs : Z -> @EpochRun Snapshot)
    (best0 : Q) (k : Z) (s : @FinetuneState Snapshot Mask) : Prop :=
  let start := ft_start_epoch args in
  let acc e := run_acc1 (runs e) in
  (start <= k)%Z /\
  (forall e, (start <= e < k)%Z -> (acc e <= best_acc1 s)%Q) /\
  (best0 <= best_acc1 s)%Q /\
  acc1_list s = map acc (seqZ start (k - start)) /\
  match best_loss s with
  | None =>
      (best_acc1 s == best0)%Q /\
      forall e, (start <= e < k)%Z -> (acc e <= best0)%Q
  | Some l =>
      let e := best_acc1_epoch s in
      (start <= e < k)%Z /\
      l = (run_loss_train (runs e), run_loss_test (runs e)) /\
      (best_acc1 s == acc e)%Q /\ (best0 < acc e)%Q /\
      (forall e', (start <= e' < e)%Z -> (acc e' < acc e)%Q)
  end.

(** The two files that the end-of-epoch saves keep up to date. *)
Definition files_tracked (args : FinetuneArgs) (mask : binding Mask)
    (runs : Z -> @EpochRun Snapshot) (k : Z)
    (s : @FinetuneState Snapshot Mask) : Prop :=
  (best_loss s <> None ->
   fs_files s !! pjoin (ft_weights_path args) "checkpoint_best.pth"
   = Some (epoch_state args mask runs (best_acc1_epoch s))) /\
  (last_eval s <> None ->
   fs_files s !! pjoin (ft_weights_path args) "checkpoint.pth"
   = Some (epoch_state args mask runs (k - 1))).

End CheckpointObservations.

(** *** [validate] and the training flag of the model *)

(** Module objects are told apart by their identity; the store holds the
    [training] flag of each.  [add_noise_to_model] of utils is not among the
    sources: it is taken as a step on the store that returns the noisy
    model. *)
Class ModelNoise : Type := {
  add_noise_to_model : list bool -> nat -> list bool * nat
}.

Section ValidateMode.
Context {N : ModelNoise}.

(** Lines 647-649: [for i in range(args.model_noise_num)], [n] times. *)
Fixpoint noisy_ensemble (n : nat) (h : list bool) (model : nat)
    : list bool * list nat :=
  match n with
  | 0 => (h, [])
  | S n' =>
      let '(h, noisy_model) := add_noise_to_model h model in
      let '(h, model_ensemble) := noisy_ensemble n' h model in
      (h, noisy_model :: model_ensemble)
  end.

(** Lines 664-667, one batch: [for model in model_ensemble] binds the name
    [model] to every member in turn, and [output /= len(model_ensemble)]
    divides the integer 0 by 0 when there is none. *)
Definition validate_batch (model_ensemble : list nat) (model : nat) : result nat :=
  let model := default model (last model_ensemble) in
  if length model_ensemble =? 0 then Err ZeroDivisionError else Ok model.

(** Lines 657-682, the loop over the batches: what the name [model] is bound
    to after it. *)
Fixpoint validate_batches {B} (val_loader : list B) (model_ensemble : list nat)
    (model : nat) : result nat :=
  match val_loader with
  | [] => Ok model
  | _ :: rest =>
      result_bind (validate_batch model_ensemble model)
        (validate_batches rest model_ensemble)
  end.

(** Lines 639-693 of [validate], for the training flags: the store when
    [validate] returns or raises. *)
Definition validate_mode {B} (val_loader : list B) (h : list bool) (model : nat)
    (noisy_model_ensemble : bool) (model_noise_num : Z)
    : list bool * result unit :=
  let train_state := default false (h !! model) in
  let h := <[model := false]> h in
  let '(h, model_ensemble) :=
    if noisy_model_ensemble
    then noisy_ensemble (Z.to_nat model_noise_num) h model
    else (h, [model]) in
  match validate_batches val_loader model_ensemble model with
  | Ok model => ((if train_state then <[model := true]> h else h), Ok tt)
  | Err e => (h, Err e)
  end.

(** [model.train(mode)] of torch, which [model.eval()] calls with [False]:
    it sets the flag of the module and of every module inside it.
    [modules] are the objects that [model.modules()] yields. *)
Definition module_train (mode : bool) (modules : list nat) (h : list bool)
    : list bool :=
  foldr (fun m h => <[m := mode]> h) h modules.

(** Lines 639-693 of [validate] for a model with modules inside it:
    [modules_of m] is what [m.modules()] yields, [m] itself included.
    [validate_mode] is the case of a model that is one module object. *)
Definition validate_modules {B} (modules_of : nat -> list nat)
    (val_loader : list B) (h : list bool) (model : nat)
    (noisy_model_ensemble : bool) (model_noise_num : Z)
    : list bool * result unit :=
  let train_state := default false (h !! model) in
  let h := module_train false (modules_of model) h in
  let '(h, model_ensemble) :=
    if noisy_model_ensemble
    then noisy_ensemble (Z.to_nat model_noise_num) h model
    else (h, [model]) in
  match validate_batches val_loader model_ensemble model with
  | Ok model =>
      ((if train_state then module_train true (modules_of model) h else h), Ok tt)
  | Err e => (h, Err e)
  end.

End ValidateMode.

(** A noisy model that is a deep copy: a new object with the flag of the
    original. *)
Definition copy_noise : ModelNoise :=
  {| add_noise_to_model h model := (h ++ [default false (h !! model)], length h) |}.

(** *** [main_worker]: pruning, resuming and the global [mask] *)

(** [args] with the two paths that [main_worker] reads beside the fields of
    [Args]. *)
Record WorkerArgs (F : Type) : Type := MkWorkerArgs {
  wk_args : Args F;
  resume_path : option string;
  directly_ft_weights : option string
}.
Arguments MkWorkerArgs {F} _ _ _.
Arguments wk_args {F} _.
Arguments resume_path {F} _.
Arguments directly_ft_weights {F} _.

(** The pieces that are not among the sources: [pruner_dict] with the
    constructor of the pruner class, [reinit_model] of pruner/reinit_model.py
    and the two counters of utils. *)
Class Worker (F : Type) : Type := {
  new_pruner : string -> model F -> Args F -> result (Pruner F);
  reinit_model : model F -> Args F -> option (mask_dict F) -> result (model F);
  get_n_params_ : model F -> nat;
  get_n_flops_ : model F -> nat
}.

(** The names that [main_worker] has bound when it calls [finetune]:
    [model], the global [mask], and [pruner]. *)
Record WorkerState (F : Type) : Type := MkWorkerState {
  wk_model : model F;
  wk_mask : binding (option (mask_dict F));
  wk_pruner : option (Pruner F)
}.
Arguments MkWorkerState {F} _ _ _.
Arguments wk_model {F} _.
Arguments wk_mask {F} _.
Arguments wk_pruner {F} _.

(** [torch.load(path)] *)
Definition torch_load {Snapshot Mask} (fs : files Snapshot Mask) (path : string)
    : attempt (checkpoint Snapshot Mask) :=
  match fs !! path with
  | Some state => Returned state
  | None => Raised (FileNotFoundError path)
  end.

Section MainWorker.
Context {F : Type} {W : WeightArith F} {T : Torch F} {U : Utils F}
  {P : MetaPruner F} {K : Worker F}.

(** Lines 713-717 with the global [mask] as it is bound: [name in mask] is
    evaluated for the first module. *)
Definition apply_mask_forward_global (mask : binding (option (mask_dict F)))
    (mdl : model F) : attempt (model F) :=
  match mdl with
  | [] => Returned []
  | _ =>
      match mask with
      | Unbound => Raised (NameError "mask")
      | Bound None => Raised TypeError
      | Bound (Some mk) => of_result (outcome (apply_mask_forward mk mdl))
      end
  end.

(** The pruner object after its [prune]: l1_pruner.py assigns no field after
    the two calls of the base class. *)
Definition pruner_after_prune (self : Pruner F) : result (Pruner F) :=
  result_bind (_get_kept_wg_L1 self) _prune_and_build_new_model.

(** Lines 293-313: [if args.resume_path]. *)
Definition resume_model (wargs : WorkerArgs F)
    (fs : files (model F) (mask_dict F)) (mdl : model F)
    : attempt (model F * string) :=
  if truthy (resume_path wargs) then
    let? state := torch_load fs (default EmptyString (resume_path wargs)) in
    match ck_prune_state state with
    | None => Raised (Builtin (KeyError "prune_state"))
    | Some prune_state =>
        if String.eqb prune_state "finetune"
        then Returned (ck_snapshot state, prune_state)
        else Raised (Builtin NotImplementedError)
    end
  else Returned (mdl, "prune").

(** Lines 315-327: [if args.directly_ft_weights]. *)
Definition load_directly (wargs : WorkerArgs F)
    (fs : files (model F) (mask_dict F))
    (st : model F * string * binding (option (mask_dict F)))
    : attempt (model F * string * binding (option (mask_dict F))) :=
  if truthy (directly_ft_weights wargs) then
    let? state :=
      torch_load fs (default EmptyString (directly_ft_weights wargs)) in
    let mdl := ck_snapshot state in
    match ck_mask state with
    | Some mk =>
        let mask := Bound (Some mk) in
        let? mdl := apply_mask_forward_global mask mdl in
        Returned (mdl, "finetune", mask)
    | None => Returned (mdl, "finetune", st.2)
    end
  else Returned st.

(** Lines 329-368: [if prune_state in ['prune']].  The pruner is the one of
    l1_pruner.py, whose [prune] returns a model: the unpacking of line 351
    has nothing to unpack.  [n_params] and [n_flops] are the counts of the
    model before pruning (lines 285-286). *)
Definition prune_model (args : Args F) (n_params n_flops : nat)
    (mdl : model F) (mask : binding (option (mask_dict F)))
    : attempt (WorkerState F) :=
  let? pruner :=
    of_result (new_pruner (default EmptyString (method args)) mdl args) in
  let? mdl := of_result (outcome (prune pruner)) in
  let? pruner := of_result (pruner_after_prune pruner) in
  let? mdl :=
    if is_str (method args) "GReg-1" || is_str (method args) "GReg-2"
    then Raised TypeError else Returned mdl in
  let? r :=
    if String.eqb (wg args) "weight" then
      let mask := Bound (Some (pr_mask pruner)) in
      let? mdl := apply_mask_forward_global mask mdl in
      Returned (mdl, mask)
    else Returned (mdl, mask) in
  let? _ :=
    of_result (reduction_report n_params n_flops
                 (get_n_params_ r.1) (get_n_flops_ r.1)) in
  Returned (MkWorkerState r.1 r.2 (Some pruner)).

(** Lines 405-407: [if args.reinit]. *)
Definition reinit_after_prune (args : Args F) (st : WorkerState F)
    : attempt (WorkerState F) :=
  if truthy (reinit args) then
    let? mask :=
      if String.eqb (wg args) "weight" then
        match wk_pruner st with
        | Some pruner => Returned (Some (pr_mask pruner))
        | None => Raised (Builtin AttributeError)
        end
      else Returned None in
    let? mdl := of_result (reinit_model (wk_model st) args mask) in
    Returned (MkWorkerState mdl (Bound mask) (wk_pruner st))
  else Returned st.

(** Lines 274-407 of [main_worker], for the names [model], [mask] and
    [pruner]: from the model and the binding of [mask] that it finds to those
    with which it calls [finetune].  The evaluations and the checkpoint in
    between bind none of the three. *)
Definition main_worker_prune (wargs : WorkerArgs F)
    (fs : files (model F) (mask_dict F)) (mdl : model F)
    (mask : binding (option (mask_dict F))) : attempt (WorkerState F) :=
  let args := wk_args wargs in
  let? st :=
    if truthy (method args) then
      let n_params := get_n_params_ mdl in
      let n_flops := get_n_flops_ mdl in
      let? r := resume_model wargs fs mdl in
      let? r := load_directly wargs fs (r, mask) in
      if String.eqb r.1.2 "prune"
      then prune_model args n_params n_flops r.1.1 r.2
      else Returned (MkWorkerState r.1.1 r.2 None)
    else Returned (MkWorkerState mdl mask None) in
  reinit_after_prune args st.

End MainWorker.

(** *** The orthogonality regulariser of [train] *)

(** One summand of [loss_orth_reg]: which of the two distances of
    pruner/reinit_model.py, on the weight of which module. *)
Inductive orth_term : Type :=
| OrthDist (name : string)
| DeconvOrthDist (name : string).

(** Lines 598-603: the summand of one module under CVPR20, [cnt] being the
    counter after its increment. *)
Definition cvpr20_term {F} (cnt : Z) (name : string) (module : nn_module F)
    : result (list orth_term) :=
  if negb (cnt =? 0)%Z then
    match weight module with
    | None => Err AttributeError
    | Some w =>
        if length (shape w) =? 2 then Ok [OrthDist name]
        else
          match last (shape w) with
          | None => Err IndexError
          | Some d => if d =? 1 then Ok [OrthDist name] else Ok [DeconvOrthDist name]
          end
    end
  else Ok [].

(** Lines 594-607: the loop over the modules with its counter; the summands
    in the order in which they are added. *)
Fixpoint orth_reg_terms {F} (orth_reg_method : string) (cnt : Z) (mdl : model F)
    : result (list orth_term) :=
  match mdl with
  | [] => Ok []
  | (name, module) :: rest =>
      if is_conv_or_linear module then
        let cnt := (cnt + 1)%Z in
        result_bind
          (if String.eqb orth_reg_method "CVPR20" then cvpr20_term cnt name module
           else if String.eqb orth_reg_method "CVPR17" then
             match weight module with
             | None => Err AttributeError
             | Some _ => Ok [OrthDist name]
             end
           else Err NotImplementedError)
          (fun terms =>
             result_bind (orth_reg_terms orth_reg_method cnt rest)
               (fun more => Ok (terms ++ more)))
      else orth_reg_terms orth_reg_method cnt rest
  end.

(** Lines 592-607: [loss_orth_reg, cnt = 0, -1] and the loop. *)
Definition orth_reg_summands {F} (args : Args F) (mdl : model F)
    : result (list orth_term) :=
  if orth_reg_iter_ft args then orth_reg_terms (orth_reg_method args) (-1) mdl
  else Ok [].

(** The distance that CVPR20 takes for a layer: [orth_dist] for a weight of
    two dimensions or of last dimension 1, [deconv_orth_dist] otherwise. *)
Definition cvpr20_distance {F} (x : string * nn_module F) : orth_term :=
  match weight x.2 with
  | Some w =>
      if (length (shape w) =? 2) || bool_decide (last (shape w) = Some 1)
      then OrthDist x.1 else DeconvOrthDist x.1
  | None => OrthDist x.1
  end.

(** The Conv/FC layers of a model, in traversal order. *)
Definition conv_linear_layers {F} (mdl : model F) : list (string * nn_module F) :=
  filter (fun x => is_conv_or_linear x.2 = true) mdl.

(** ** src/tools/iccv21_latex_plots/plot_jsv_acc_v3_ICLR22.py *)

(** [needle in hay] on strings. *)
Fixpoint contains (needle hay : string) : bool :=
  String.prefix needle hay ||
  match hay with
  | EmptyString => false
  | String _ rest => contains needle rest
  end.

(** [s.split('/')] *)
Fixpoint split_slash (s : string) : list string :=
  match s with
  | EmptyString => [EmptyString]
  | String c rest =>
      if String.eqb (String c EmptyString) "/"
      then EmptyString :: split_slash rest
      else
        match split_slash rest with
        | piece :: pieces => String c piece :: pieces
        | [] => [String c EmptyString]
        end
  end.

(** The separators of a string. *)
Fixpoint count_slash (s : string) : nat :=
  match s with
  | EmptyString => 0
  | String c rest =>
      (if String.eqb (String c EmptyString) "/" then 1 else 0) + count_slash rest
  end.

(** Every [k]-th entry of a list, from the first on. *)
Definition stride {A} (k : nat) (l : list A) : list A :=
  omap (fun j => l !! (j * k)) (seq 0 (length l)).

(** [l[::step]] *)
Definition slice_step {A} (step : Z) (l : list A) : attempt (list A) :=
  if (step =? 0)%Z then Raised (ValueError "slice step cannot be zero")
  else if (0 <? step)%Z then Returned (stride (Z.to_nat step) l)
  else Returned (stride (Z.to_nat (- step)) (reverse l)).

(** [l[ix]] for an index that is not negative. *)
Definition getitem {A} (l : list A) (ix : nat) : attempt A :=
  match l !! ix with
  | Some x => Returned x
  | None => Raised (Builtin IndexError)
  end.

(** utils and logger are not among the sources: [parse_value] (with
    [type_func=int] as [parse_value_int]) and [check_path] are taken as
    functions that may raise, [str.strip] as a function, and [log_path] and
    [ExpID] as the strings of the logger. *)
Class PlotUtils : Type := {
  strip : string -> string;
  parse_value : string -> string -> result Q;
  parse_value_int : string -> string -> result Z;
  check_path : string -> result string;
  log_path : string;
  ExpID : string
}.

(** The four lists that [one_exp_plot] fills. *)
Record Curves : Type := MkCurves {
  jsv : list Q;
  jsv_epoch : list Z;
  test_acc : list Q;
  test_acc_epoch : list Z
}.

(** The calls of matplotlib: the two curves with their arguments, every
    other call by its name, the saved figure by its path. *)
Inductive axis : Type := Ax1 | Ax2.

Inductive plot_event : Type :=
| Plot (ax : axis) (xs : list Z) (ys : list Q) (label color linestyle : string)
| Call (what : string)
| SaveFig (out : string).

(** [ax.plot(xs, ys, ...)]: matplotlib refuses two sequences of different
    lengths. *)
Definition ax_plot (ax : axis) (xs : list Z) (ys : list Q)
    (label color linestyle : string) : attempt plot_event :=
  if length xs =? length ys then Returned (Plot ax xs ys label color linestyle)
  else Raised (ValueError "x and y must have same first dimension").

(** Lines 35-36. *)
Definition colors : list string := ["red"; "blue"].
Definition linestyles : list string := [":"; "-"; "-."; "--"].

(** The arguments of the script. *)
Record PlotArgs : Type := MkPlotArgs {
  plot_exp_ids : string;
  plot_log_file : string;
  plot_legends : string;
  plot_x_step : Z;
  plot_debug : bool
}.

Section PlotTool.
Context {PU : PlotUtils}.

(** Lines 57-62: a line that holds a mean singular value; its epoch is on
    the same line or on the next one. *)
Definition scan_jsv (lines : list string) (i : nat) (line : string) (c : Curves)
    : result Curves :=
  if contains "JSV_mean" line then
    result_bind (parse_value line "JSV_mean") (fun v =>
    result_bind
      (if contains "Epoch" line then parse_value_int line "Epoch"
       else
         match lines !! (i + 1) with
         | Some next => parse_value_int next "Epoch"
         | None => Err IndexError
         end) (fun e =>
    Ok (MkCurves (jsv c ++ [v]) (jsv_epoch c ++ [e])
          (test_acc c) (test_acc_epoch c))))
  else Ok c.

(** Lines 63-65: a line that holds a test accuracy. *)
Definition scan_acc (line : string) (c : Curves) : result Curves :=
  if contains "Best_Acc1_Epoch" line then
    result_bind (parse_value line "Acc1") (fun a =>
    result_bind (parse_value_int line "Epoch") (fun e =>
    Ok (MkCurves (jsv c) (jsv_epoch c)
          (test_acc c ++ [a]) (test_acc_epoch c ++ [e]))))
  else Ok c.

(** Lines 56-65, the body of [for i in range(len(lines))] at line [raw] =
    [lines[i]]. *)
Definition scan_line (lines : list string) (i : nat) (raw : string) (c : Curves)
    : result Curves :=
  let line := strip raw in
  result_bind (scan_jsv lines i line c) (scan_acc line).

(** Lines 55-65: the loop from line [i] on, [todo] being the lines from
    there. *)
Fixpoint scan_from (lines todo : list string) (i : nat) (c : Curves)
    : result Curves :=
  match todo with
  | [] => Ok c
  | raw :: rest =>
      result_bind (scan_line lines i raw c) (scan_from lines rest (S i))
  end.

(** Lines 52-65. *)
Definition scan_log (lines : list string) : result Curves :=
  scan_from lines lines 0 (MkCurves [] [] [] []).

(** Lines 49-85, [one_exp_plot]; [logs] holds the lines of every file that
    [open] finds. *)
Definition one_exp_plot (logs : gmap string (list string)) (legends : list string)
    (x_step : Z) (log_file : string) (ix : nat) : attempt (list plot_event) :=
  let? lines :=
    match logs !! log_file with
    | Some lines => Returned lines
    | None => Raised (FileNotFoundError log_file)
    end in
  let? c := of_result (scan_log lines) in
  let interval := x_step in
  let? xs := slice_step interval (jsv_epoch c) in
  let? ys := slice_step interval (jsv c) in
  let? label := getitem legends ix in
  let? color := getitem colors 0 in
  let? linestyle := getitem linestyles ix in
  let? p1 := ax_plot Ax1 xs ys label color linestyle in
  let? xs2 := slice_step interval (test_acc_epoch c) in
  let? ys2 := slice_step interval (test_acc c) in
  let? label2 := getitem legends ix in
  let? color2 := getitem colors 1 in
  let? linestyle2 := getitem linestyles ix in
  let? p2 := ax_plot Ax2 xs2 ys2 label2 color2 linestyle2 in
  Returned
    [p1; Call "ax1.set_ylabel"; p2; Call "ax2.set_xlabel"; Call "ax2.set_ylabel";
     Call "zoomed_inset_axes"; Call "axins.set_xlim"; Call "axins.set_ylim";
     Call "plt.xticks"; Call "plt.yticks"; Call "mark_inset"].

(** Lines 89-99, the loop over the experiments from index [ix] on; a
    [check_path] that raises leaves the pattern as the file name. *)
Fixpoint plot_experiments (logs : gmap string (list string))
    (legends : list string) (x_step : Z) (log_name : string)
    (exp_ids : list string) (ix : nat) : attempt (list plot_event) :=
  match exp_ids with
  | [] => Returned []
  | exp_id :: rest =>
      let log_file := ("Experiments/*" ++ exp_id ++ "*/log/" ++ log_name)%string in
      let log_file :=
        match check_path log_file with
        | Ok found => found
        | Err _ => log_file
        end in
      let? evs := one_exp_plot logs legends x_step log_file ix in
      let? more := plot_experiments logs legends x_step log_name rest (S ix) in
      Returned (evs ++ more)
  end.

(** Lines 38 and 88-114: the script from its parsed arguments. *)
Definition plot_script (args : PlotArgs) (logs : gmap string (list string))
    : attempt (list plot_event) :=
  let legends := split_slash (plot_legends args) in
  let exp_ids := split_slash (plot_exp_ids args) in
  let? evs :=
    plot_experiments logs legends (plot_x_step args) (plot_log_file args)
      exp_ids 0 in
  let out :=
    if plot_debug args then (ExpID ++ ".pdf")%string
    else (log_path ++ "/" ++ ExpID ++ ".pdf")%string in
  Returned
    (evs ++ [Call "ax1.legend"; Call "ax2.legend"; Call "ax1.set_ylim";
             Call "ax2.set_ylim"; Call "fig.tight_layout"; SaveFig out]).

End PlotTool.

(** A log format for the examples: a line holds its values after its keys,
    here read off the length of the line. *)
Definition demo_plot_utils : PlotUtils := {|
  strip s := s;
  parse_value line _ := Ok (inject_Z (Z.of_nat (String.length line)));
  parse_value_int line _ := Ok (Z.of_nat (String.length line));
  check_path path := Ok path;
  log_path := "Experiments/plot/log";
  ExpID := "SERVER-000000"
|}.

(** ** Concrete inputs for the rest of the code *)

(** The batch-norm layer and the fully-connected one after three iterations
    of the isometry loop without a mask. *)
Definition bn_fc_model_reinit : model Z :=
  [("bn", Mod BatchNorm2d (Some (Tensor [2] [1; 1]%Z)));
   ("fc", Mod Linear (Some (Tensor [1; 2] [0; 1]%Z)))].

(** A convolution with 2x2 filters, a batch-norm layer, a fully-connected
    layer. *)
Definition conv_bn_fc_model : model Z :=
  [("conv", Mod Conv2d (Some conv_weight));
   ("bn", Mod BatchNorm2d (Some (Tensor [2] [1; 1]%Z)));
   ("fc", Mod Linear (Some fc_weight))].

(** [args] with the orthogonality regulariser switched on. *)
Definition orth_args (orth_reg_method : string) : Args Z :=
  MkArgs None "weight" 1%Z None true orth_reg_method.

(** A warm-up of two epochs out of ten, then the given decay. *)
Definition lr_args (lr_decay : string) : LRArgs :=
  MkLRArgs (1 # 10) 10
    (Some (MkAdvancedLR 2 lr_decay (1 # 10) [3; 6; 9]%Z)).

(** f-strings print an int in decimal; a float is printed here as its
    numerator over its denominator. *)
#[export] Instance demo_format : PyFormat := {|
  str_float q :=
    (NilZero.string_of_int (Z.to_int (Qnum q)) ++ ":" ++
     NilZero.string_of_int (Z.to_int (Zpos (Qden q))))%string;
  str_int z := NilZero.string_of_int (Z.to_int z)
|}.

(** Three epochs of finetuning: accuracies 50, 70 and 60, the learning rate
    lowered before the last epoch; snapshots and masks are numbers. *)
Definition demo_runs (e : Z) : @EpochRun nat :=
  MkEpochRun (if (e <? 2)%Z then 1 # 10 else 1 # 100) (Z.to_nat e)
    (if (e =? 0)%Z then 50 else if (e =? 1)%Z then 70 else 60)
    100 (-1) (1 # 2).

Definition demo_finetune_args : FinetuneArgs :=
  MkFinetuneArgs (Some "L1") "weight" 0 3 false false 0 1 0 "weights".

(** A counter of the weights that are not 0, for both reports. *)
Definition n_nonzero (mdl : model Z) : nat :=
  foldr Nat.add 0
    (map (fun x => match weight x.2 with
                   | Some w => length (filter (fun v => v <> 0%Z) (data w))
                   | None => 0
                   end) mdl).

(** A pruner class whose objects hold the mask of the fully-connected layer,
    and a [reinit_model] that returns the model as it is. *)
#[export] Instance demo_worker : Worker Z := {|
  new_pruner _ mdl args := Ok (MkPruner mdl fc_masks args);
  reinit_model mdl _ _ := Ok mdl;
  get_n_params_ := n_nonzero;
  get_n_flops_ := n_nonzero
|}.

(** A checkpoint of finetuning with its mask, as [finetune] saves it. *)
Definition demo_checkpoint : checkpoint (model Z) (mask_dict Z) :=
  MkCheckpoint 5 fc_model_zeroed (Some 70%Q) (Some 100%Q) None (Some "finetune")
    (Some fc_masks).

Definition demo_checkpoints : files (model Z) (mask_dict Z) :=
  {[ "checkpoint.pth" := demo_checkpoint ]}.

Definition worker_args (reinit : option string) (resume_path
    directly_ft_weights : option string) : WorkerArgs Z :=
  MkWorkerArgs (demo_args reinit "weight" (Some "L1")) resume_path
    directly_ft_weights.

(** Two log files of two lines each. *)
Definition demo_log : list string :=
  ["JSV_mean 1.2345 Epoch 0"; "Acc1 91.5 Best_Acc1_Epoch 0"].

Definition demo_logs : gmap string (list string) :=
  {[ "Experiments/*a*/log/log.txt" := demo_log;
     "Experiments/*b*/log/log.txt" := demo_log ]}.

Definition demo_plot_args : PlotArgs :=
  MkPlotArgs "a/b" "log.txt" "first/second" 1 false.

(** * Properties *)

(** ** Shapes, broadcasting and expansion *)

Lemma broadcast_dim_same (x : nat) : broadcast_dim x x = Some x.
Proof. unfold broadcast_dim. by rewrite Nat.eqb_refl. Qed.

Lemma broadcast_rev_same (s : list nat) : broadcast_rev s s = Some s.
Proof.
  induction s as [|x s IH]; [done|].
  simpl. by rewrite broadcast_dim_same, IH.
Qed.

Lemma broadcast_shapes_same (s : list nat) : broadcast_shapes s s = Some s.
Proof.
  unfold broadcast_shapes. rewrite broadcast_rev_same. simpl.
  by rewrite reverse_involutive.
Qed.

Lemma broadcasts_to_same (s : list nat) : broadcasts_to s s = true.
Proof.
  unfold broadcasts_to. apply bool_decide_eq_true. apply broadcast_shapes_same.
Qed.

Lemma numel_rows (n : nat) (rest : list nat) :
  numel [n; numel rest] = numel (n :: rest).
Proof. unfold numel. simpl. lia. Qed.

Section ExpandFacts.
Context {F : Type}.
Implicit Types (d : list F) (s t : list nat).

Lemma chunks_length k n d : length (chunks k n d) = n.
Proof. revert d. induction n as [|n IH]; intros d; simpl; [done|]. by rewrite IH. Qed.

Lemma chunks_concat k n d :
  length d = n * k -> concat (chunks k n d) = d.
Proof.
  revert d. induction n as [|n IH]; intros d Hlen; simpl.
  - destruct d; [done|]. simpl in Hlen. lia.
  - rewrite IH.
    + apply take_drop.
    + rewrite length_drop. lia.
Qed.

Lemma chunks_Forall_length k n d :
  length d = n * k -> Forall (fun c => length c = k) (chunks k n d).
Proof.
  revert d. induction n as [|n IH]; intros d Hlen; simpl; constructor.
  - rewrite length_take. lia.
  - apply IH. rewrite length_drop. lia.
Qed.

Lemma expand_aligned_same s d :
  length d = numel s -> expand_aligned s s d = d.
Proof.
  revert d. induction s as [|x s IH]; intros d Hlen; simpl; [done|].
  rewrite Nat.eqb_refl.
  assert (Hd : length d = x * numel s) by (unfold numel in *; simpl in Hlen; lia).
  transitivity (concat (chunks (numel s) x d)); [|by apply chunks_concat].
  f_equal.
  pose proof (chunks_Forall_length _ _ _ Hd) as HF.
  induction HF as [|c cs Hc _ IHcs]; simpl; [done|].
  by rewrite IH, IHcs.
Qed.

Lemma expand_same s d : length d = numel s -> expand s s d = d.
Proof.
  intros Hlen. unfold expand. rewrite Nat.sub_diag. simpl.
  by apply expand_aligned_same.
Qed.

Lemma elem_of_concat (x : F) (ls : list (list F)) :
  x ∈ concat ls -> exists l, x ∈ l /\ l ∈ ls.
Proof.
  induction ls as [|l ls IH]; simpl; intros Hx.
  - by apply elem_of_nil in Hx.
  - apply elem_of_app in Hx as [Hx|Hx].
    + exists l. split; [done|]. by left.
    + destruct (IH Hx) as (l' & ? & ?). exists l'. split; [done|]. by right.
Qed.

(** Expansion only repeats entries: it invents none. *)
Lemma expand_aligned_elem s t d x :
  x ∈ expand_aligned s t d -> x ∈ d.
Proof.
  revert t d. induction s as [|a s IH]; intros t d; simpl; [done|].
  destruct t as [|b t]; [done|].
  destruct (a =? b).
  - intros Hx. apply elem_of_concat in Hx as (c & Hxc & Hc).
    apply list_elem_of_fmap in Hc as (c0 & -> & Hc0).
    apply IH in Hxc.
    clear -Hxc Hc0. revert d Hc0.
    generalize (numel s) as k. intros k.
    induction a as [|a IHa]; intros d Hc0; simpl in Hc0.
    + by apply elem_of_nil in Hc0.
    + apply elem_of_cons in Hc0 as [->|Hc0].
      * by apply (subseteq_take k d).
      * apply IHa in Hc0. by apply (subseteq_drop k d).
  - intros Hx. apply elem_of_concat in Hx as (c & Hxc & Hc).
    apply elem_of_replicate in Hc as [-> _]. by apply IH in Hxc.
Qed.

Lemma expand_elem s t d x : x ∈ expand s t d -> x ∈ d.
Proof. apply expand_aligned_elem. Qed.

End ExpandFacts.

(** ** The trace monad *)

Section MonadFacts.
Context {F : Type}.

Lemma outcome_bind {A B} (m : M F A) (f : A -> M F B) :
  outcome (bind m f) =
  match outcome m with Ok a => outcome (f a) | Err e => Err e end.
Proof.
  unfold outcome, bind. destruct m as [evs [a|e]]; simpl; [|done].
  by destruct (f a).
Qed.

Lemma trace_bind {A B} (m : M F A) (f : A -> M F B) :
  trace (bind m f) =
  trace m ++ match outcome m with Ok a => trace (f a) | Err _ => [] end.
Proof.
  unfold outcome, trace, bind. destruct m as [evs [a|e]]; simpl.
  - by destruct (f a).
  - by rewrite app_nil_r.
Qed.

Lemma M_eq {A} (m : M F A) : m = (trace m, outcome m).
Proof. by destruct m. Qed.

Lemma count_events_app (p : event F -> bool) (l k : list (event F)) :
  count_events p (l ++ k) = count_events p l + count_events p k.
Proof. induction l as [|e l IH]; simpl; [done|]. rewrite IH. lia. Qed.

Lemma for_modules_outcome_ok (body : string -> nn_module F -> M F (nn_module F))
    (mdl mdl' : model F) :
  outcome (for_modules body mdl) = Ok mdl' ->
  Forall2 (fun x y => x.1 = y.1 /\ outcome (body x.1 x.2) = Ok y.2) mdl mdl'.
Proof.
  revert mdl'. induction mdl as [|[name m] rest IH]; intros mdl'; simpl.
  - intros [= <-]. constructor.
  - rewrite outcome_bind. destruct (outcome (body name m)) as [m'|e] eqn:Hb; [|done].
    rewrite outcome_bind. destruct (outcome (for_modules body rest)) as [rest'|e] eqn:Hr; [|done].
    simpl. intros [= <-]. constructor; [done|]. by apply IH.
Qed.

Lemma for_modules_outcome_intro (body : string -> nn_module F -> M F (nn_module F))
    (mdl mdl' : model F) :
  Forall2 (fun x y => x.1 = y.1 /\ outcome (body x.1 x.2) = Ok y.2) mdl mdl' ->
  outcome (for_modules body mdl) = Ok mdl'.
Proof.
  induction 1 as [|[name m] [name' m'] rest rest' [Hn Hb] _ IH]; simpl in *; [done|].
  subst name'. rewrite outcome_bind, Hb, outcome_bind, IH. done.
Qed.

Lemma for_modules_trace_ok (body : string -> nn_module F -> M F (nn_module F))
    (mdl mdl' : model F) :
  outcome (for_modules body mdl) = Ok mdl' ->
  trace (for_modules body mdl) = concat (map (fun x => trace (body x.1 x.2)) mdl).
Proof.
  revert mdl'. induction mdl as [|[name m] rest IH]; intros mdl'; simpl; [done|].
  rewrite outcome_bind, trace_bind.
  destruct (outcome (body name m)) as [m'|e] eqn:Hb; [|done].
  rewrite outcome_bind, trace_bind.
  destruct (outcome (for_modules body rest)) as [rest'|e] eqn:Hr; [|done].
  intros _. simpl. rewrite app_nil_r. f_equal. by eapply IH.
Qed.

(** Whatever the outcome, every event of the loop is an event of one of its
    bodies. *)
Lemma for_modules_trace_elem (body : string -> nn_module F -> M F (nn_module F))
    (mdl : model F) (e : event F) :
  e ∈ trace (for_modules body mdl) ->
  exists name m, (name, m) ∈ mdl /\ e ∈ trace (body name m).
Proof.
  induction mdl as [|[name m] rest IH]; simpl.
  - intros He. by apply elem_of_nil in He.
  - rewrite trace_bind. intros [He|He]%elem_of_app.
    + exists name, m. split; [by left|done].
    + destruct (outcome (body name m)); [|by apply elem_of_nil in He].
      rewrite trace_bind in He. apply elem_of_app in He as [He|He].
      * destruct (IH He) as (n' & m' & ? & ?). exists n', m'. split; [by right|done].
      * destruct (outcome (for_modules body rest)); by apply elem_of_nil in He.
Qed.

End MonadFacts.

Section MonadSimpl.
Context {F : Type}.

Lemma trace_ret {A} (a : A) : trace (@ret F A a) = [].
Proof. done. Qed.
Lemma outcome_ret {A} (a : A) : outcome (@ret F A a) = Ok a.
Proof. done. Qed.
Lemma trace_raise {A} (e : error) : trace (@raise F A e) = [].
Proof. done. Qed.
Lemma outcome_raise {A} (e : error) : outcome (@raise F A e) = Err e.
Proof. done. Qed.
Lemma trace_emit (e : event F) : trace (emit e) = [e].
Proof. done. Qed.
Lemma outcome_emit (e : event F) : outcome (emit e) = Ok tt.
Proof. done. Qed.
Lemma trace_lift {A} (r : result A) : trace (@lift F A r) = [].
Proof. done. Qed.
Lemma outcome_lift {A} (r : result A) : outcome (@lift F A r) = r.
Proof. done. Qed.

End MonadSimpl.

Create Rewrite HintDb run.
#[local] Hint Rewrite @trace_bind @outcome_bind @trace_ret @outcome_ret
  @trace_raise @outcome_raise @trace_emit @outcome_emit @trace_lift
  @outcome_lift : run.

Ltac run := repeat (autorewrite with run; cbn [app]).
Tactic Notation "run" "in" hyp(H) :=
  repeat (autorewrite with run in H; cbn [app] in H).

(** ** Tensor arithmetic *)

Section TensorFacts.
Context {F : Type} `{WeightArith F}.
Implicit Types (a b w mt : tensor F).


Lemma torch_mul_same_shape a b :
  shape a = shape b -> wf_tensor a -> wf_tensor b ->
  torch_mul a b = Ok (Tensor (shape a) (zip_with fmul (data a) (data b))).
Proof.
  intros Hs Ha Hb. unfold torch_mul. rewrite <- Hs, broadcast_shapes_same.
  rewrite !expand_same; [done| |done].
  by rewrite Hs.
Qed.

Lemma mul__shape w mt w' : mul_ w mt = Ok w' -> shape w' = shape w.
Proof. unfold mul_. destruct (broadcasts_to _ _); [|done]. by intros [= <-]. Qed.

Lemma mul__masked w mt w' : mul_ w mt = Ok w' -> masked_zero mt w'.
Proof.
  unfold mul_. destruct (broadcasts_to _ _); [|done].
  intros [= <-] i x Hm Hw. simpl in *.
  apply lookup_zip_with_Some in Hw as (u & v & -> & _ & Hv).
  rewrite Hm in Hv. injection Hv as <-. apply fmul_zero_r.
Qed.

Lemma mul__same_shape w mt :
  shape mt = shape w -> wf_tensor mt ->
  mul_ w mt = Ok (Tensor (shape w) (zip_with fmul (data w) (data mt))).
Proof.
  intros Hs Hm. unfold mul_. rewrite Hs, broadcasts_to_same.
  rewrite expand_same; [done|]. by rewrite <- Hs.
Qed.

Lemma masked_zero_pruned mt w :
  shape mt = shape w -> wf_tensor mt -> masked_zero mt w -> pruned_zero mt w.
Proof.
  intros Hs Hm Hz i x Hi Hx. apply (Hz i x); [|done].
  rewrite <- Hs, expand_same; done.
Qed.

Lemma zip_with_mask_pruned (d : list F) mt w :
  data w = zip_with fmul d (data mt) -> pruned_zero mt w.
Proof.
  intros Hd i x Hm Hw. rewrite Hd in Hw.
  apply lookup_zip_with_Some in Hw as (u & v & -> & _ & Hv).
  rewrite Hm in Hv. injection Hv as <-. apply fmul_zero_r.
Qed.

(** Multiplying twice by a 0/1 list is multiplying once. *)
Lemma zip_with_mask_idem (d e : list F) :
  Forall (fun x => x = fzero \/ x = fone) e ->
  zip_with fmul (zip_with fmul d e) e = zip_with fmul d e.
Proof.
  intros He. revert d. induction He as [|y e Hy _ IH]; intros [|x d]; simpl; try done.
  rewrite IH. f_equal.
  destruct Hy as [->| ->]; by rewrite ?fmul_zero_r, ?fmul_one_r.
Qed.

Lemma expand_binary (s t : list nat) (e : list F) :
  Forall (fun x => x = fzero \/ x = fone) e ->
  Forall (fun x => x = fzero \/ x = fone) (expand s t e).
Proof.
  intros He. apply Forall_forall. intros x Hx%expand_elem.
  by eapply Forall_forall in He.
Qed.

Lemma mul__idem w mt w' :
  binary mt -> mul_ w mt = Ok w' -> mul_ w' mt = Ok w'.
Proof.
  intros Hb. unfold mul_. destruct (broadcasts_to _ _) eqn:Hbr; [|done].
  intros [= <-]. simpl. rewrite Hbr.
  rewrite zip_with_mask_idem; [done|]. by apply expand_binary.
Qed.

End TensorFacts.

(** ** The approximate-isometry loop *)

Lemma broadcast_rev_length (a b r : list nat) :
  broadcast_rev a b = Some r -> length r = max (length a) (length b).
Proof.
  revert b r. induction a as [|x a IH]; intros b r; simpl.
  - by intros [= <-].
  - destruct b as [|y b]; [by intros [= <-]|].
    destruct (broadcast_dim x y); [|done].
    destruct (broadcast_rev a b) as [r'|] eqn:Hr; [|done].
    intros [= <-]. simpl. f_equal. by apply IH.
Qed.

Lemma broadcast_shapes_length (a b r : list nat) :
  broadcast_shapes a b = Some r -> length r = max (length a) (length b).
Proof.
  unfold broadcast_shapes.
  destruct (broadcast_rev _ _) as [r'|] eqn:Hr; [|done].
  intros [= <-]. rewrite length_reverse.
  apply broadcast_rev_length in Hr. by rewrite !length_reverse in Hr.
Qed.

Section IsoFacts.
Context {F : Type} {W : WeightArith F} {T : Torch F}.
Implicit Types (w mt : tensor F) (mk : mask_dict F).

Lemma adam_step_wf lr w : wf_tensor w -> wf_tensor (adam_step lr w).
Proof. unfold wf_tensor. simpl. by rewrite length_imap. Qed.


Lemma print_loss_outcome (i n : nat) (name : string) (loss : F) :
  outcome (if i mod 10 =? 0 then emit (EvPrintLoss i n name loss) else ret tt)
  = Ok tt.
Proof. by destruct (i mod 10 =? 0). Qed.

Lemma print_loss_count (p : event F -> bool) (i n : nat) (name : string) (loss : F) :
  p (EvPrintLoss i n name loss) = false ->
  count_events p
    (trace (if i mod 10 =? 0 then emit (EvPrintLoss i n name loss) else ret tt))
  = 0.
Proof. intros Hp. destruct (i mod 10 =? 0); run; simpl; by rewrite ?Hp. Qed.

(** One iteration, as far as the outcome goes. *)
Lemma optimize_iters_step mask lr n name todo i w_ :
  outcome (optimize_iters mask lr n name (S todo) i w_) =
  if 2 <? length (shape w_) then Err RuntimeError
  else match outcome (mask_step mask name (adam_step lr w_)) with
       | Ok w2 => outcome (optimize_iters mask lr n name todo (S i) w2)
       | Err e => Err e
       end.
Proof.
  cbn [optimize_iters]. run. destruct (2 <? length (shape w_)); run; [done|].
  destruct (outcome (mask_step mask name (adam_step lr w_))); [|done].
  run. rewrite print_loss_outcome. by run.
Qed.

(** A mask entry shaped like the variable: no step of the loop fails, the
    shape stays, and after at least one iteration the pruned entries are 0. *)
Lemma optimize_iters_fits mk lr n name mt s todo i w_ :
  mk !! name = Some mt -> shape mt = s -> wf_tensor mt -> length s <= 2 ->
  shape w_ = s -> wf_tensor w_ ->
  exists w',
    outcome (optimize_iters (Some mk) lr n name todo i w_) = Ok w' /\
    shape w' = s /\ wf_tensor w' /\ (0 < todo -> pruned_zero mt w').
Proof.
  intros Hmt Hs Hwf Hrank. revert i w_.
  induction todo as [|todo IH]; intros i w_ Hw Hwfw.
  - exists w_. cbn [optimize_iters]. run. split; [done|]. split; [done|].
    split; [done|lia].
  - set (w2 := Tensor (shape w_) (zip_with fmul (data (adam_step lr w_)) (data mt))).
    assert (Hstep : outcome (optimize_iters (Some mk) lr n name (S todo) i w_)
                    = outcome (optimize_iters (Some mk) lr n name todo (S i) w2)).
    { rewrite optimize_iters_step.
      assert (Hlt : (2 <? length (shape w_)) = false)
        by (apply Nat.ltb_ge; by rewrite Hw).
      rewrite Hlt. unfold mask_step. rewrite Hmt. run.
      rewrite torch_mul_same_shape; [done|simpl; congruence| |done].
      by apply adam_step_wf. }
    assert (Hwf2 : wf_tensor w2).
    { unfold wf_tensor, w2. simpl. rewrite length_zip_with_l_eq.
      - rewrite length_imap. exact Hwfw.
      - rewrite length_imap. unfold wf_tensor in *. congruence. }
    destruct (IH (S i) w2 Hw Hwf2) as (w' & Hout & Hs' & Hwf' & Hz).
    exists w'. rewrite Hstep. split; [done|]. split; [done|]. split; [done|].
    intros _. destruct todo as [|todo]; [|apply Hz; lia].
    cbn [optimize_iters] in Hout. run in Hout. injection Hout as <-.
    by eapply zip_with_mask_pruned.
Qed.

(** No mask: no step of the loop fails. *)
Lemma optimize_iters_nomask lr n name todo i w_ :
  length (shape w_) <= 2 ->
  exists w',
    outcome (optimize_iters None lr n name todo i w_) = Ok w' /\
    shape w' = shape w_ /\ length (data w') = length (data w_).
Proof.
  revert i w_. induction todo as [|todo IH]; intros i w_ Hrank.
  - exists w_. cbn [optimize_iters]. by run.
  - destruct (IH (S i) (adam_step lr w_)) as (w' & Hout & Hs' & Hlen); [done|].
    exists w'. rewrite optimize_iters_step.
    assert (Hlt : (2 <? length (shape w_)) = false) by (by apply Nat.ltb_ge).
    rewrite Hlt. unfold mask_step. run. split; [done|]. split; [done|].
    rewrite Hlen. simpl. by rewrite length_imap.
Qed.

(** C5: a run of the loop that returns has taken exactly [todo] optimiser
    steps and passed the end of exactly [todo] iterations. *)
Lemma optimize_iters_steps mask lr n name todo i w_ w' :
  outcome (optimize_iters mask lr n name todo i w_) = Ok w' ->
  count_events is_optim_step (trace (optimize_iters mask lr n name todo i w_)) = todo /\
  count_events is_end_iter (trace (optimize_iters mask lr n name todo i w_)) = todo.
Proof.
  revert i w_. induction todo as [|todo IH]; intros i w_; cbn [optimize_iters].
  - by run.
  - run. destruct (2 <? length (shape w_)); run; [done|].
    destruct (outcome (mask_step mask name (adam_step lr w_))) as [w2|e] eqn:Hm; [|done].
    run. rewrite print_loss_outcome. run. intros Hout.
    destruct (IH _ _ Hout) as [IH1 IH2].
    assert (Htm : trace (mask_step mask name (adam_step lr w_)) = []).
    { unfold mask_step. destruct mask as [mk|]; [|done]. by destruct (mk !! name). }
    rewrite Htm. cbn [app count_events is_optim_step is_end_iter].
    rewrite !count_events_app, !print_loss_count by done.
    cbn [count_events is_optim_step is_end_iter]. lia.
Qed.

(** C9: every optimiser step of the loop runs at the learning rate given. *)
Lemma optimize_iters_step_lr mask lr n name todo i w_ name' j lr' :
  EvOptimStep name' j lr' ∈ trace (optimize_iters mask lr n name todo i w_) ->
  name' = name /\ lr' = lr.
Proof.
  revert i w_. induction todo as [|todo IH]; intros i w_; cbn [optimize_iters].
  - intros He. by apply elem_of_nil in He.
  - run. destruct (2 <? length (shape w_)); run.
    { intros He. by apply elem_of_nil in He. }
    intros He. apply elem_of_cons in He as [[= -> _ ->]|He]; [done|].
    assert (Htm : trace (mask_step mask name (adam_step lr w_)) = []).
    { unfold mask_step. destruct mask as [mk|]; [|done]. by destruct (mk !! name). }
    rewrite Htm in He. cbn [app] in He.
    destruct (outcome (mask_step mask name (adam_step lr w_))) as [w2|e];
      [|by apply elem_of_nil in He].
    run in He. rewrite print_loss_outcome in He.
    apply elem_of_app in He as [He|He].
    + destruct (i mod 10 =? 0); run in He.
      * apply elem_of_cons in He as [He|He]; [done|]. by apply elem_of_nil in He.
      * by apply elem_of_nil in He.
    + apply elem_of_cons in He as [He|He]; [done|]. by eapply IH.
Qed.

(** C10: a layer whose name is not a key of the mask fails on the lookup of
    the first iteration. *)
Lemma optimize_iters_keyerror mk lr n name todo i w_ :
  mk !! name = None -> length (shape w_) <= 2 ->
  outcome (optimize_iters (Some mk) lr n name (S todo) i w_) = Err (KeyError name).
Proof.
  intros Hmt Hrank. rewrite optimize_iters_step.
  assert (Hlt : (2 <? length (shape w_)) = false) by (by apply Nat.ltb_ge).
  rewrite Hlt. unfold mask_step. rewrite Hmt. by run.
Qed.

Lemma mask_step_error mask name w e :
  outcome (mask_step mask name w) = Err e ->
  e = RuntimeError \/
  (exists mk, mask = Some mk /\ mk !! name = None /\ e = KeyError name).
Proof.
  unfold mask_step. destruct mask as [mk|]; [|done].
  destruct (mk !! name) as [mt|] eqn:Hmt; run.
  - unfold torch_mul. destruct (broadcast_shapes _ _); [done|].
    intros [= <-]. by left.
  - intros [= <-]. right. by exists mk.
Qed.

(** The loop raises nothing but a shape error and the failed lookup. *)
Lemma optimize_iters_error mask lr n name todo i w_ e :
  outcome (optimize_iters mask lr n name todo i w_) = Err e ->
  e = RuntimeError \/
  (exists mk, mask = Some mk /\ mk !! name = None /\ e = KeyError name).
Proof.
  revert i w_. induction todo as [|todo IH]; intros i w_; [done|].
  rewrite optimize_iters_step.
  destruct (2 <? length (shape w_)).
  { intros [= <-]. by left. }
  destruct (outcome (mask_step mask name (adam_step lr w_))) as [w2|e'] eqn:Hm.
  - apply IH.
  - intros [= <-]. by eapply mask_step_error.
Qed.

(** A mask of more than two dimensions (the mask of a convolution, shaped
    like its weight) stops the loop by its second iteration: either the
    product with the flattened variable does not broadcast, or it has the
    mask's rank and [w_.t()] refuses it. *)
Lemma optimize_iters_high_rank_mask mk lr n name mt todo i w_ :
  mk !! name = Some mt -> 2 < length (shape mt) ->
  outcome (optimize_iters (Some mk) lr n name (S (S todo)) i w_) = Err RuntimeError.
Proof.
  intros Hmt Hrank. rewrite optimize_iters_step.
  destruct (2 <? length (shape w_)); [done|].
  unfold mask_step. rewrite Hmt. run.
  destruct (torch_mul (adam_step lr w_) mt) as [w2|e] eqn:Hmul.
  - rewrite optimize_iters_step.
    assert (Hlt : (2 <? length (shape w2)) = true).
    { apply Nat.ltb_lt. unfold torch_mul in Hmul.
      destruct (broadcast_shapes _ _) as [r|] eqn:Hr; [|done].
      injection Hmul as <-. simpl. apply broadcast_shapes_length in Hr. lia. }
    by rewrite Hlt.
  - unfold torch_mul in Hmul. destruct (broadcast_shapes _ _); [done|].
    by injection Hmul as <-.
Qed.

End IsoFacts.

(** C5: the loss is read for the log only; the outcome ignores it. *)
Lemma optimize_iters_loss_irrelevant {F : Type} {W : WeightArith F} {T : Torch F}
    (loss : tensor F -> F) mask lr n name todo i w_ :
  outcome (@optimize_iters F W (with_loss T loss) mask lr n name todo i w_)
  = outcome (optimize_iters mask lr n name todo i w_).
Proof.
  revert i w_. induction todo as [|todo IH]; intros i w_; [reflexivity|].
  rewrite !optimize_iters_step.
  destruct (2 <? length (shape w_)); [done|].
  change (@adam_step F (with_loss T loss) lr w_) with (adam_step lr w_).
  destruct (outcome (mask_step mask name (adam_step lr w_))) as [w2|e]; [|done].
  apply IH.
Qed.


(** ** [optimize]: one layer *)

Section OptimizeFacts.
Context {F : Type} {W : WeightArith F} {T : Torch F}.
Implicit Types (w mt : tensor F) (mk : mask_dict F).

Lemma optimize_trace mask lr n name w :
  trace (optimize mask lr n name w) =
  match view_rows w with
  | Ok flattened => trace (optimize_iters mask lr n name n 0 flattened)
  | Err _ => []
  end.
Proof.
  unfold optimize. run. destruct (view_rows w) as [fl|e]; [|done].
  run. destruct (outcome (optimize_iters mask lr n name n 0 fl)); run;
    by rewrite app_nil_r.
Qed.

Lemma optimize_outcome mask lr n name w :
  outcome (optimize mask lr n name w) =
  match view_rows w with
  | Ok flattened =>
      match outcome (optimize_iters mask lr n name n 0 flattened) with
      | Ok w_ => view w_ (shape w)
      | Err e => Err e
      end
  | Err e => Err e
  end.
Proof.
  unfold optimize. run. destruct (view_rows w) as [fl|e]; [|done].
  run. by destruct (outcome (optimize_iters mask lr n name n 0 fl)); run.
Qed.

Lemma view_rows_ok w k rest :
  shape w = k :: rest -> 0 < k ->
  view_rows w = Ok (Tensor [k; numel rest] (data w)).
Proof.
  intros Hs Hk. unfold view_rows. rewrite Hs.
  destruct (k =? 0) eqn:Hk0; [|done]. apply Nat.eqb_eq in Hk0. lia.
Qed.

Lemma view_shape w s w' : view w s = Ok w' -> shape w' = s /\ data w' = data w.
Proof. unfold view. destruct (_ =? _); [|done]. by intros [= <-]. Qed.

(** C4: what [optimize] returns has the shape of the weight it was given. *)
Lemma optimize_shape mask lr n name w w' :
  outcome (optimize mask lr n name w) = Ok w' -> shape w' = shape w.
Proof.
  rewrite optimize_outcome. destruct (view_rows w); [|done].
  destruct (outcome (optimize_iters _ _ _ _ _ _ _)); [|done].
  by intros [? _]%view_shape.
Qed.

(** C2, second half: a fully-connected layer whose mask is shaped
    like its weight. *)
Lemma optimize_linear_fits mk lr n name mt w k1 k2 :
  mk !! name = Some mt -> shape w = [k1; k2] -> 0 < k1 -> wf_tensor w ->
  shape mt = shape w -> wf_tensor mt ->
  exists w',
    outcome (optimize (Some mk) lr n name w) = Ok w' /\
    shape w' = shape w /\ wf_tensor w' /\ (0 < n -> pruned_zero mt w').
Proof.
  intros Hmt Hs Hk Hwf Hms Hwfm.
  assert (Hnum : numel [k2] = k2) by (unfold numel; simpl; lia).
  assert (Hms' : shape mt = [k1; k2]) by congruence.
  assert (Hrank : length [k1; k2] <= 2) by (simpl; lia).
  assert (Hwf0 : wf_tensor (Tensor [k1; k2] (data w))).
  { unfold wf_tensor in *. simpl. by rewrite Hs in Hwf. }
  destruct (optimize_iters_fits mk lr n name mt [k1; k2] n 0
              (Tensor [k1; k2] (data w)) Hmt Hms' Hwfm Hrank eq_refl Hwf0)
    as (w_ & Hout & Hs_ & Hwf_ & Hz).
  exists (Tensor [k1; k2] (data w_)).
  rewrite optimize_outcome, (view_rows_ok w k1 [k2]), Hnum, Hout by done.
  unfold view. rewrite Hs_, Hs, Nat.eqb_refl.
  split; [done|]. split; [done|]. split.
  - unfold wf_tensor in *. simpl. by rewrite Hs_ in Hwf_.
  - intros Hn i x Hi Hx. by apply (Hz Hn i x).
Qed.

(** C5 and C3: without a mask a layer of at least one row never fails. *)
Lemma optimize_nomask lr n name w k rest :
  shape w = k :: rest -> 0 < k ->
  exists w',
    outcome (optimize None lr n name w) = Ok w' /\
    shape w' = shape w /\ length (data w') = length (data w).
Proof.
  intros Hs Hk.
  destruct (optimize_iters_nomask lr n name n 0 (Tensor [k; numel rest] (data w)))
    as (w_ & Hout & Hs_ & Hlen); [simpl; lia|].
  exists (Tensor (shape w) (data w_)).
  rewrite optimize_outcome, (view_rows_ok w k rest), Hout by done.
  unfold view. rewrite Hs_. simpl shape. rewrite Hs, numel_rows, Nat.eqb_refl.
  done.
Qed.

Lemma optimize_steps mask lr n name w w' :
  outcome (optimize mask lr n name w) = Ok w' ->
  count_events is_optim_step (trace (optimize mask lr n name w)) = n /\
  count_events is_end_iter (trace (optimize mask lr n name w)) = n.
Proof.
  rewrite optimize_outcome, optimize_trace.
  destruct (view_rows w) as [fl|]; [|done].
  destruct (outcome (optimize_iters mask lr n name n 0 fl)) eqn:Hout; [|done].
  intros _. by eapply optimize_iters_steps.
Qed.


Lemma optimize_step_lr mask lr n name w name' j lr' :
  EvOptimStep name' j lr' ∈ trace (optimize mask lr n name w) ->
  name' = name /\ lr' = lr.
Proof.
  rewrite optimize_trace. destruct (view_rows w) as [fl|].
  - apply optimize_iters_step_lr.
  - intros He. by apply elem_of_nil in He.
Qed.

(** C10: the lookup fails in the first iteration. *)
Lemma optimize_keyerror mk lr n name w k rest :
  mk !! name = None -> shape w = k :: rest -> 0 < k -> 0 < n ->
  outcome (optimize (Some mk) lr n name w) = Err (KeyError name).
Proof.
  intros Hmt Hs Hk Hn. destruct n as [|n]; [lia|].
  rewrite optimize_outcome, (view_rows_ok w k rest) by done.
  rewrite optimize_iters_keyerror; [done..|simpl; lia].
Qed.

Lemma view_rows_error w e :
  view_rows w = Err e -> e = RuntimeError \/ e = IndexError.
Proof.
  unfold view_rows. destruct (shape w) as [|k rest]; [intros [= <-]; by right|].
  destruct (k =? 0); [|done]. intros [= <-]. by left.
Qed.

(** C10: [optimize] raises [KeyError] for an absent name only. *)
Lemma optimize_error mask lr n name w e :
  outcome (optimize mask lr n name w) = Err e ->
  e = RuntimeError \/ e = IndexError \/
  (exists mk, mask = Some mk /\ mk !! name = None /\ e = KeyError name).
Proof.
  rewrite optimize_outcome. destruct (view_rows w) as [fl|e'] eqn:Hv.
  - destruct (outcome (optimize_iters mask lr n name n 0 fl)) as [w_|e'] eqn:Hout.
    + unfold view. destruct (_ =? _); [done|]. intros [= <-]. by left.
    + intros [= <-]. apply optimize_iters_error in Hout as [->|Hk]; [by left|].
      by right; right.
  - intros [= <-]. apply view_rows_error in Hv as [->| ->]; [by left|by right; left].
Qed.

(** The mask of a convolution, shaped like its four-dimensional weight:
    [optimize] raises whenever it is asked for two iterations or more. *)
Lemma optimize_high_rank_mask mk lr n name mt w :
  mk !! name = Some mt -> shape mt = shape w -> 2 < length (shape w) -> 2 <= n ->
  outcome (optimize (Some mk) lr n name w) = Err RuntimeError.
Proof.
  intros Hmt Hms Hrank Hn. rewrite optimize_outcome.
  destruct (view_rows w) as [fl|e] eqn:Hv.
  - destruct n as [|[|n]]; [lia..|].
    rewrite (optimize_iters_high_rank_mask mk lr _ name mt); [done..|].
    by rewrite Hms.
  - unfold view_rows in Hv. destruct (shape w) as [|k rest]; [simpl in Hrank; lia|].
    destruct (k =? 0); [|done]. by injection Hv as <-.
Qed.

End OptimizeFacts.

Lemma optimize_loss_irrelevant {F : Type} {W : WeightArith F} {T : Torch F}
    (loss : tensor F -> F) mask lr n name w :
  outcome (@optimize F W (with_loss T loss) mask lr n name w)
  = outcome (optimize mask lr n name w).
Proof.
  rewrite !optimize_outcome. destruct (view_rows w) as [fl|]; [|done].
  by rewrite optimize_iters_loss_irrelevant.
Qed.

(** ** The loops over the modules *)

Section LayerFacts.
Context {F : Type} {W : WeightArith F} {T : Torch F} {U : Utils F}.
Implicit Types (w mt : tensor F) (mk : mask_dict F) (m : nn_module F).

Lemma copy__shape (dst src w' : tensor F) :
  copy_ dst src = Ok w' -> shape w' = shape dst.
Proof. unfold copy_. destruct (broadcasts_to _ _); [|done]. by intros [= <-]. Qed.

Lemma copy__same_shape (dst src : tensor F) :
  shape src = shape dst -> wf_tensor src ->
  copy_ dst src = Ok (Tensor (shape dst) (data src)).
Proof.
  intros Hs Hwf. unfold copy_. rewrite Hs, broadcasts_to_same.
  rewrite expand_same; [done|]. by rewrite <- Hs.
Qed.

Lemma get_weight_outcome m :
  outcome (@get_weight F m) =
  match weight m with Some w => Ok w | None => Err AttributeError end.
Proof. unfold get_weight. by destruct (weight m). Qed.

Lemma get_weight_trace m : trace (@get_weight F m) = [].
Proof. unfold get_weight. by destruct (weight m). Qed.

Lemma approximate_isometry_layer_outcome mask lr n name m :
  outcome (approximate_isometry_layer mask lr n name m) =
  if is_conv_or_linear m then
    match weight m with
    | Some w =>
        match outcome (optimize mask lr n name w) with
        | Ok w_ =>
            match copy_ w w_ with
            | Ok w' => Ok (set_weight m w')
            | Err e => Err e
            end
        | Err e => Err e
        end
    | None => Err AttributeError
    end
  else Ok m.
Proof.
  unfold approximate_isometry_layer. destruct (is_conv_or_linear m); [|done].
  run. rewrite get_weight_outcome. destruct (weight m) as [w|]; [|done].
  run. destruct (outcome (optimize mask lr n name w)) as [w_|]; [|done].
  run. by destruct (copy_ w w_).
Qed.

Lemma approximate_isometry_layer_trace mask lr n name m :
  trace (approximate_isometry_layer mask lr n name m) =
  if is_conv_or_linear m then
    match weight m with
    | Some w =>
        trace (optimize mask lr n name w) ++
        match outcome (optimize mask lr n name w) with
        | Ok w_ =>
            match copy_ w w_ with
            | Ok _ => [EvPrintFinished "approximate_isometry_optimize" name]
            | Err _ => []
            end
        | Err _ => []
        end
    | None => []
    end
  else [].
Proof.
  unfold approximate_isometry_layer. destruct (is_conv_or_linear m); [|done].
  run. rewrite get_weight_outcome, get_weight_trace.
  destruct (weight m) as [w|]; [|done].
  run. destruct (outcome (optimize mask lr n name w)) as [w_|]; [|done].
  run. by destruct (copy_ w w_).
Qed.

(** C4, per layer. *)
Lemma approximate_isometry_layer_layout mask lr n name m m' :
  outcome (approximate_isometry_layer mask lr n name m) = Ok m' ->
  kind_of m' = kind_of m /\ shape <$> weight m' = shape <$> weight m.
Proof.
  rewrite approximate_isometry_layer_outcome.
  destruct (is_conv_or_linear m); [|by intros [= <-]].
  destruct (weight m) as [w|] eqn:Hw; [|done].
  destruct (outcome (optimize mask lr n name w)) as [w_|]; [|done].
  destruct (copy_ w w_) as [w'|] eqn:Hc; [|done].
  intros [= <-]. simpl. split; [done|]. f_equal. by eapply copy__shape.
Qed.

Lemma exact_isometry_layer_outcome name m :
  outcome (exact_isometry_layer name m) =
  if is_conv_or_linear m then
    match weight m with
    | Some w =>
        match copy_ w (orthogonalize_weights w) with
        | Ok w' => Ok (set_weight m w')
        | Err e => Err e
        end
    | None => Err AttributeError
    end
  else Ok m.
Proof.
  unfold exact_isometry_layer. destruct (is_conv_or_linear m); [|done].
  run. rewrite get_weight_outcome. destruct (weight m) as [w|]; [|done].
  run. by destruct (copy_ w _).
Qed.

Lemma exact_isometry_layer_layout name m m' :
  outcome (exact_isometry_layer name m) = Ok m' ->
  kind_of m' = kind_of m /\ shape <$> weight m' = shape <$> weight m.
Proof.
  rewrite exact_isometry_layer_outcome.
  destruct (is_conv_or_linear m); [|by intros [= <-]].
  destruct (weight m) as [w|] eqn:Hw; [|done].
  destruct (copy_ w _) as [w'|] eqn:Hc; [|done].
  intros [= <-]. simpl. split; [done|]. f_equal. by eapply copy__shape.
Qed.

Lemma for_modules_same_layout (body : string -> nn_module F -> M F (nn_module F))
    (mdl mdl' : model F) :
  (forall name m m', outcome (body name m) = Ok m' ->
     kind_of m' = kind_of m /\ shape <$> weight m' = shape <$> weight m) ->
  outcome (for_modules body mdl) = Ok mdl' -> same_layout mdl mdl'.
Proof.
  intros Hbody Hout. apply for_modules_outcome_ok in Hout.
  unfold same_layout. eapply Forall2_impl; [exact Hout|].
  intros [name m] [name' m'] [Hn Hb]. simpl in *.
  destruct (Hbody _ _ _ Hb) as [Hk Hs]. by rewrite Hk, Hs.
Qed.

Lemma model_apply_same_layout (fn : nn_module F -> nn_module F) (mdl : model F) :
  (forall m, kind_of (fn m) = kind_of m /\
             shape <$> weight (fn m) = shape <$> weight m) ->
  same_layout mdl (model_apply fn mdl).
Proof.
  intros Hfn. unfold same_layout, model_apply.
  induction mdl as [|[name m] rest IH]; simpl; constructor; [|done].
  simpl. destruct (Hfn m) as [Hk Hs]. by rewrite Hk, Hs.
Qed.

Lemma fill_layout (draw : tensor F -> nat -> F) m :
  let m' := if is_conv_or_linear m then
              match weight m with
              | Some w => set_weight m (fill_ draw w)
              | None => m
              end
            else m in
  kind_of m' = kind_of m /\ shape <$> weight m' = shape <$> weight m.
Proof.
  simpl. destruct (is_conv_or_linear m); [|done].
  by destruct (weight m) as [w|] eqn:Hw; simpl; rewrite ?Hw.
Qed.

(** C5, over the model: a run that returns has taken [n] optimiser steps for
    each Conv/FC layer. *)
Lemma approximate_isometry_optimize_steps mdl mask lr n mdl' :
  outcome (approximate_isometry_optimize mdl mask lr n) = Ok mdl' ->
  count_events is_optim_step (trace (approximate_isometry_optimize mdl mask lr n))
  = n * n_conv_linear mdl.
Proof.
  unfold approximate_isometry_optimize, n_conv_linear. revert mdl'.
  induction mdl as [|[name m] rest IH]; intros mdl'; cbn [for_modules].
  - run. simpl. lia.
  - run. destruct (outcome (approximate_isometry_layer mask lr n name m))
      as [m1|] eqn:Hl; [|done].
    run. destruct (outcome (for_modules _ rest)) as [rest'|] eqn:Hr; [|done].
    run. intros _. rewrite app_nil_r, count_events_app, (IH rest') by done.
    rewrite approximate_isometry_layer_trace.
    rewrite approximate_isometry_layer_outcome in Hl.
    destruct (is_conv_or_linear m) eqn:Hk.
    + rewrite filter_cons_True by (simpl; done). simpl length.
      destruct (weight m) as [w|]; [|done].
      destruct (outcome (optimize mask lr n name w)) as [w_|] eqn:Ho; [|done].
      destruct (optimize_steps _ _ _ _ _ _ Ho) as [Hsteps _].
      rewrite count_events_app, Hsteps.
      destruct (copy_ w w_); simpl; lia.
    + rewrite filter_cons_False by (simpl; congruence). simpl. lia.
Qed.

(** C9, over the model: every optimiser step runs at the rate given. *)
Lemma approximate_isometry_optimize_step_lr mdl mask lr n name j lr' :
  EvOptimStep name j lr' ∈ trace (approximate_isometry_optimize mdl mask lr n) ->
  lr' = lr.
Proof.
  intros He. apply for_modules_trace_elem in He as (name' & m & _ & He).
  rewrite approximate_isometry_layer_trace in He.
  destruct (is_conv_or_linear m); [|by apply elem_of_nil in He].
  destruct (weight m) as [w|]; [|by apply elem_of_nil in He].
  apply elem_of_app in He as [He|He].
  - by apply optimize_step_lr in He as [_ ?].
  - destruct (outcome (optimize mask lr n name' w)) as [w_|];
      [|by apply elem_of_nil in He].
    destruct (copy_ w w_); [|by apply elem_of_nil in He].
    apply elem_of_cons in He as [He|He]; [done|]. by apply elem_of_nil in He.
Qed.

End LayerFacts.

(** ** The dispatch of [prune] *)

Section DispatchFacts.
Context {F : Type} {W : WeightArith F} {T : Torch F} {U : Utils F}
  {P : MetaPruner F}.
Implicit Types (w mt : tensor F) (mk : mask_dict F) (m : nn_module F).

Lemma for_modules_outcome_err (body : string -> nn_module F -> M F (nn_module F))
    (mdl : model F) (e : error) :
  outcome (for_modules body mdl) = Err e ->
  exists name m, (name, m) ∈ mdl /\ outcome (body name m) = Err e.
Proof.
  induction mdl as [|[name m] rest IH]; cbn [for_modules]; run; [done|].
  destruct (outcome (body name m)) as [m'|e'] eqn:Hb.
  - run. destruct (outcome (for_modules body rest)) as [rest'|e'] eqn:Hr; run; [done|].
    intros [= <-]. destruct (IH eq_refl) as (n' & m0 & ? & ?).
    exists n', m0. split; [by right|done].
  - intros [= <-]. exists name, m. split; [by left|done].
Qed.

Lemma for_modules_outcome_all (body : string -> nn_module F -> M F (nn_module F))
    (mdl : model F) :
  (forall name m, (name, m) ∈ mdl -> exists m', outcome (body name m) = Ok m') ->
  exists mdl', outcome (for_modules body mdl) = Ok mdl'.
Proof.
  induction mdl as [|[name m] rest IH]; intros Hall; cbn [for_modules].
  - by exists [].
  - destruct (Hall name m) as [m' Hm']; [by left|].
    destruct IH as [rest' Hrest].
    { intros n0 m0 Hin. apply Hall. by right. }
    exists ((name, m') :: rest'). run. rewrite Hm'. run. rewrite Hrest. by run.
Qed.

Lemma Forall2_elem_r {A B} (R : A -> B -> Prop) (l : list A) (k : list B) (y : B) :
  Forall2 R l k -> y ∈ k -> exists x, x ∈ l /\ R x y.
Proof.
  induction 1 as [|x y' l k HR _ IH]; intros Hy.
  - by apply elem_of_nil in Hy.
  - apply elem_of_cons in Hy as [->|Hy].
    + exists x. split; [by left|done].
    + destruct (IH Hy) as (x' & ? & ?). exists x'. split; [by right|done].
Qed.

Lemma approximate_isometry_layer_error mask lr n name m e :
  outcome (approximate_isometry_layer mask lr n name m) = Err e ->
  e = RuntimeError \/ e = IndexError \/ e = AttributeError \/
  (exists mk, mask = Some mk /\ mk !! name = None /\ e = KeyError name).
Proof.
  rewrite approximate_isometry_layer_outcome.
  destruct (is_conv_or_linear m); [|done].
  destruct (weight m) as [w|]; [|intros [= <-]; by right; right; left].
  destruct (outcome (optimize mask lr n name w)) as [w_|e'] eqn:Ho.
  - unfold copy_. destruct (broadcasts_to _ _); [done|]. intros [= <-]. by left.
  - intros [= <-]. apply optimize_error in Ho as [->|[->|Hk]];
      [by left|by right; left|by right; right; right].
Qed.

Lemma exact_isometry_layer_error name m e :
  outcome (exact_isometry_layer name m) = Err e ->
  e = RuntimeError \/ e = AttributeError.
Proof.
  rewrite exact_isometry_layer_outcome.
  destruct (is_conv_or_linear m); [|done].
  destruct (weight m) as [w|]; [|intros [= <-]; by right].
  unfold copy_. destruct (broadcasts_to _ _); [done|]. intros [= <-]. by left.
Qed.

Lemma is_str_true (o : option string) (lit : string) :
  is_str o lit = true <-> o = Some lit.
Proof.
  unfold is_str. destruct o as [s|]; [|done].
  rewrite String.eqb_eq. split; congruence.
Qed.

Lemma is_str_false (o : option string) (lit : string) :
  is_str o lit = false <-> o <> Some lit.
Proof.
  rewrite <- is_str_true. destruct (is_str o lit); split; congruence.
Qed.

Lemma reinit_dispatch_outcome args mask mdl :
  outcome (reinit_dispatch args mask mdl) =
  if truthy (reinit args) then
    if is_str (reinit args) "default" then Ok (model_apply _weights_init mdl)
    else if is_str (reinit args) "orth"
    then Ok (model_apply _weights_init_orthogonal mdl)
    else if is_str (reinit args) "exact_isometry"
    then outcome (exact_isometry_based_on_existing_weights mdl)
    else if is_str (reinit args) "approximate_isometry"
    then outcome (approximate_isometry_optimize mdl mask (lr_AI args) 10000)
    else Err NotImplementedError
  else Ok mdl.
Proof.
  unfold reinit_dispatch. destruct (truthy _); [|done].
  destruct (is_str _ "default"); [by run|].
  destruct (is_str _ "orth"); [by run|].
  destruct (is_str _ "exact_isometry").
  { run. by destruct (outcome (exact_isometry_based_on_existing_weights mdl)); run. }
  destruct (is_str _ "approximate_isometry"); [|done].
  run. by destruct (outcome (approximate_isometry_optimize _ _ _ _)); run.
Qed.

Lemma prune_outcome (self : Pruner F) :
  outcome (prune self) =
  match _get_kept_wg_L1 self with
  | Ok s1 =>
      match _prune_and_build_new_model s1 with
      | Ok s2 => outcome (prune_reinit s2)
      | Err e => Err e
      end
  | Err e => Err e
  end.
Proof.
  unfold prune. run. destruct (_get_kept_wg_L1 self) as [s1|]; [|done].
  run. by destruct (_prune_and_build_new_model s1).
Qed.

Lemma prune_trace (self s1 s2 : Pruner F) :
  _get_kept_wg_L1 self = Ok s1 -> _prune_and_build_new_model s1 = Ok s2 ->
  trace (prune self) = trace (prune_reinit s2).
Proof. intros H1 H2. unfold prune. run. rewrite H1. run. by rewrite H2. Qed.

End DispatchFacts.

(** ** src/pruner/l1_pruner.py: shapes, iteration budget, mask lookup *)

Section PrunerClaims.
Context {F : Type} {W : WeightArith F} {T : Torch F} {U : Utils F}
  {P : MetaPruner F}.
Implicit Types (w mt : tensor F) (mk : mask_dict F) (m : nn_module F).

Lemma same_layout_refl (mdl : model F) : same_layout mdl mdl.
Proof. unfold same_layout. induction mdl; constructor; done. Qed.

Lemma reinit_dispatch_same_layout (args : Args F) (mask : option (mask_dict F))
    (mdl mdl' : model F) :
  outcome (reinit_dispatch args mask mdl) = Ok mdl' -> same_layout mdl mdl'.
Proof.
  rewrite reinit_dispatch_outcome.
  destruct (truthy _); [|intros [= <-]; apply same_layout_refl].
  destruct (is_str _ "default").
  { intros [= <-]. apply model_apply_same_layout.
    intros m. apply (fill_layout kaiming_normal_). }
  destruct (is_str _ "orth").
  { intros [= <-]. apply model_apply_same_layout.
    intros m. apply (fill_layout orthogonal_). }
  destruct (is_str _ "exact_isometry").
  { apply for_modules_same_layout. apply exact_isometry_layer_layout. }
  destruct (is_str _ "approximate_isometry"); [|done].
  apply for_modules_same_layout. apply approximate_isometry_layer_layout.
Qed.

(** C4: whatever the reinit strategy, and with no strategy at all, the model
    that the dispatch of [prune] returns has the modules of the model it was
    given, each of its kind and with a weight of the shape it had: the
    weight written back by [copy_] (approximate and exact isometry) or
    refilled in place (default, orth) keeps its shape, for convolutions and
    fully-connected layers alike. *)
Theorem C4_reinit_keeps_shapes (args : Args F) (mask : option (mask_dict F))
    (mdl mdl' : model F) :
  outcome (reinit_dispatch args mask mdl) = Ok mdl' -> same_layout mdl mdl'.
Proof. apply reinit_dispatch_same_layout. Qed.

Lemma approximate_isometry_layer_nomask lr n name m w k rest :
  is_conv_or_linear m = true -> weight m = Some w -> wf_tensor w ->
  shape w = k :: rest -> 0 < k ->
  exists w_,
    outcome (optimize None lr n name w) = Ok w_ /\
    outcome (approximate_isometry_layer None lr n name m) = Ok (set_weight m w_).
Proof.
  intros Hk Hw Hwf Hs Hpos.
  destruct (optimize_nomask lr n name w k rest Hs Hpos) as (w_ & Ho & Hs_ & Hlen).
  exists w_. split; [done|].
  rewrite approximate_isometry_layer_outcome, Hk, Hw, Ho.
  rewrite copy__same_shape; [|done|].
  - destruct w_ as [s_ d_]. simpl in *. by subst s_.
  - unfold wf_tensor in *. by rewrite Hs_, Hlen.
Qed.

(** C5: [optimize] has no exit but the end of its budget.  Its outcome does
    not depend on what the loss evaluates to; whenever it returns it has
    taken exactly [n_iter] optimiser steps and passed the end of exactly
    [n_iter] iterations, and over a model that is [n_iter] steps for each
    Conv/FC layer; without a mask it always returns, for every weight of at
    least one row, and the weight it returns is the one written back to the
    layer. *)
Theorem C5_fixed_iteration_budget (loss : tensor F -> F)
    (mask : option (mask_dict F)) (lr : F) (n_iter : nat) (name : string)
    (w : tensor F) :
  outcome (@optimize F W (with_loss T loss) mask lr n_iter name w)
    = outcome (optimize mask lr n_iter name w) /\
  (forall w', outcome (optimize mask lr n_iter name w) = Ok w' ->
     count_events is_optim_step (trace (optimize mask lr n_iter name w)) = n_iter /\
     count_events is_end_iter (trace (optimize mask lr n_iter name w)) = n_iter) /\
  (forall mdl mdl',
     outcome (approximate_isometry_optimize mdl mask lr n_iter) = Ok mdl' ->
     count_events is_optim_step
       (trace (approximate_isometry_optimize mdl mask lr n_iter))
     = n_iter * n_conv_linear mdl) /\
  (forall m k rest,
     is_conv_or_linear m = true -> weight m = Some w -> wf_tensor w ->
     shape w = k :: rest -> 0 < k ->
     exists w_,
       outcome (optimize None lr n_iter name w) = Ok w_ /\
       outcome (approximate_isometry_layer None lr n_iter name m)
       = Ok (set_weight m w_)).
Proof.
  split; [apply optimize_loss_irrelevant|].
  split; [intros w'; apply optimize_steps|].
  split; [intros mdl mdl'; apply approximate_isometry_optimize_steps|].
  intros m k rest. apply approximate_isometry_layer_nomask.
Qed.

(** C10: with a mask, a Conv/FC module whose name is not a key of the mask
    makes the lookup of the first iteration fail with [KeyError]: the mask
    step is not skipped.  When every Conv/FC module of the model is a key of
    the mask, no run over the model ends in a [KeyError]. *)
Theorem C10_mask_lookup_precondition (mk : mask_dict F) (lr : F) (n_iter : nat) :
  (forall name m w k rest,
     is_conv_or_linear m = true -> weight m = Some w ->
     shape w = k :: rest -> 0 < k -> 0 < n_iter -> mk !! name = None ->
     outcome (approximate_isometry_layer (Some mk) lr n_iter name m)
     = Err (KeyError name)) /\
  (forall mdl : model F,
     (forall name m, (name, m) ∈ mdl -> is_conv_or_linear m = true ->
                     is_Some (mk !! name)) ->
     forall key,
       outcome (approximate_isometry_optimize mdl (Some mk) lr n_iter)
       <> Err (KeyError key)).
Proof.
  split.
  - intros name m w k rest Hk Hw Hs Hpos Hn Hnone.
    rewrite approximate_isometry_layer_outcome, Hk, Hw.
    by rewrite (optimize_keyerror mk lr n_iter name w k rest).
  - intros mdl Hkeys key Herr.
    apply for_modules_outcome_err in Herr as (name & m & Hin & Herr).
    assert (Hk : is_conv_or_linear m = true).
    { rewrite approximate_isometry_layer_outcome in Herr.
      by destruct (is_conv_or_linear m). }
    apply approximate_isometry_layer_error in Herr
      as [?|[?|[?|(mk' & [= <-] & Hnone & _)]]]; try done.
    destruct (Hkeys name m Hin Hk) as [mt Hmt]. congruence.
Qed.

End PrunerClaims.

(** C4 at a fully-connected layer in mask mode, approximate isometry. *)
Lemma C4_reinit_keeps_shapes_witness :
  outcome (reinit_dispatch (demo_args (Some "approximate_isometry") "weight" (Some "L1"))
             (Some fc_masks) fc_model)
  = Ok [("fc", Mod Linear (Some (Tensor [1; 2] [0; 0]%Z)))] /\
  same_layout fc_model [("fc", Mod Linear (Some (Tensor [1; 2] [0; 0]%Z)))].
Proof.
  assert (Hrun : outcome (reinit_dispatch
                            (demo_args (Some "approximate_isometry") "weight" (Some "L1"))
                            (Some fc_masks) fc_model)
                 = Ok [("fc", Mod Linear (Some (Tensor [1; 2] [0; 0]%Z)))])
    by (vm_compute; reflexivity).
  split; [exact Hrun|].
  exact (C4_reinit_keeps_shapes _ _ _ _ Hrun).
Defined.

Lemma iterations_of_prune : 2 <= 10000.
Proof. apply Nat.leb_le. vm_compute. reflexivity. Qed.

Section MaskClaims.
Context {F : Type} {W : WeightArith F} {T : Torch F} {U : Utils F}
  {P : MetaPruner F}.
Implicit Types (w mt : tensor F) (mk : mask_dict F) (m : nn_module F).

Lemma approximate_isometry_layer_linear_fits mk lr n name m w mt k1 k2 :
  is_conv_or_linear m = true -> weight m = Some w ->
  mk !! name = Some mt -> shape w = [k1; k2] -> 0 < k1 -> wf_tensor w ->
  shape mt = shape w -> wf_tensor mt ->
  exists w',
    outcome (approximate_isometry_layer (Some mk) lr n name m)
    = Ok (set_weight m w') /\
    shape w' = shape w /\ (0 < n -> pruned_zero mt w').
Proof.
  intros Hk Hw Hmt Hs Hpos Hwf Hms Hwfm.
  destruct (optimize_linear_fits mk lr n name mt w k1 k2)
    as (w_ & Ho & Hs_ & Hwf_ & Hz); try done.
  exists w_. rewrite approximate_isometry_layer_outcome, Hk, Hw, Ho.
  rewrite copy__same_shape by done.
  split; [|done]. destruct w_ as [s_ d_]. simpl in *. by subst s_.
Qed.


Lemma is_conv_or_linear_kind m :
  is_conv_or_linear m = true -> kind_of m = Conv2d \/ kind_of m = Linear.
Proof. unfold is_conv_or_linear. destruct (kind_of m); auto; done. Qed.

(** A Conv/FC layer that [approximate_isometry_layer] returns, for a mask
    shaped like its weight and two iterations or more, has its pruned
    entries at 0. *)
Lemma approximate_isometry_layer_pruned mk lr n name m m' mt w' :
  wf_module m ->
  (forall w, weight m = Some w -> shape mt = shape w /\ wf_tensor mt) ->
  2 <= n -> is_conv_or_linear m = true -> mk !! name = Some mt ->
  outcome (approximate_isometry_layer (Some mk) lr n name m) = Ok m' ->
  weight m' = Some w' -> pruned_zero mt w'.
Proof.
  intros Hwfm Hfit Hn Hk Hmt Hout Hw'.
  unfold wf_module in Hwfm.
  destruct (weight m) as [w|] eqn:Hw; [|congruence].
  destruct Hwfm as (Hwf & Hlin & Hconv).
  destruct (Hfit w eq_refl) as [Hms Hwfmt].
  destruct (is_conv_or_linear_kind m Hk) as [Hkind|Hkind].
  - rewrite approximate_isometry_layer_outcome, Hk, Hw in Hout.
    rewrite (optimize_high_rank_mask mk lr n name mt w) in Hout; try done.
    rewrite (Hconv Hkind). lia.
  - specialize (Hlin Hkind).
    destruct (shape w) as [|k1 [|k2 [|]]] eqn:Hs; try done.
    destruct k1 as [|k1].
    { rewrite approximate_isometry_layer_outcome, Hk, Hw, optimize_outcome in Hout.
      unfold view_rows in Hout. by rewrite Hs in Hout. }
    destruct (approximate_isometry_layer_linear_fits mk lr n name m w mt (S k1) k2)
      as (w1 & Ho & Hs1 & Hz); try done; [lia|congruence|].
    rewrite Ho in Hout. injection Hout as <-. simpl in Hw'. injection Hw' as <-.
    apply Hz. lia.
Qed.

Lemma same_layout_elem (mdl mdl' : model F) name m' :
  same_layout mdl mdl' -> (name, m') ∈ mdl' ->
  exists m, (name, m) ∈ mdl /\ kind_of m = kind_of m' /\
            shape <$> weight m = shape <$> weight m'.
Proof.
  intros Hl Hin. destruct (Forall2_elem_r _ _ _ _ Hl Hin) as ([n0 m] & Hin0 & Hn & Hk & Hs).
  simpl in *. subst n0. by exists m.
Qed.

Lemma mask_fits_same_layout mk (mdl mdl' : model F) :
  same_layout mdl mdl' -> mask_fits mk mdl -> mask_fits mk mdl'.
Proof.
  intros Hl Hfit name m' mt w' Hin Hmt Hw'.
  destruct (same_layout_elem _ _ _ _ Hl Hin) as (m & Hin0 & _ & Hs).
  rewrite Hw' in Hs. destruct (weight m) as [w|] eqn:Hw; [|done].
  injection Hs as Hs. destruct (Hfit name m mt w Hin0 Hmt Hw) as [? ?].
  split; [congruence|done].
Qed.

Lemma apply_mask_layer_outcome mk name m :
  outcome (apply_mask_layer mk name m) =
  match mk !! name with
  | Some mt =>
      match weight m with
      | Some w =>
          match mul_ w mt with
          | Ok w' => Ok (set_weight m w')
          | Err e => Err e
          end
      | None => Err AttributeError
      end
  | None => Ok m
  end.
Proof.
  unfold apply_mask_layer. destruct (mk !! name) as [mt|]; [|done].
  run. rewrite get_weight_outcome. destruct (weight m) as [w|]; [|done].
  run. by destruct (mul_ w mt).
Qed.

(** After [apply_mask_forward], with masks shaped like the weights, every
    pruned entry is 0. *)
Lemma apply_mask_forward_pruned mk (mdl mdl' : model F) :
  mask_fits mk mdl ->
  outcome (apply_mask_forward mk mdl) = Ok mdl' -> model_pruned_zero mk mdl'.
Proof.
  intros Hfit Hout name m' mt w' Hin Hmt Hw'.
  apply for_modules_outcome_ok in Hout.
  destruct (Forall2_elem_r _ _ _ _ Hout Hin) as ([n0 m] & Hin0 & Hn & Hb).
  simpl in *. subst n0. rewrite apply_mask_layer_outcome, Hmt in Hb.
  destruct (weight m) as [w|] eqn:Hw; [|done].
  destruct (Hfit name m mt w Hin0 Hmt Hw) as [Hs Hwf].
  rewrite mul__same_shape in Hb by done. injection Hb as <-.
  simpl in Hw'. injection Hw' as <-. by eapply zip_with_mask_pruned.
Qed.

End MaskClaims.

Section PruneClaims.
Context {F : Type} {W : WeightArith F} {T : Torch F} {U : Utils F}
  {P : MetaPruner F}.
Implicit Types (w mt : tensor F) (mk : mask_dict F) (m : nn_module F).

Lemma prune_reinit_approximate (s2 : Pruner F) :
  reinit (pr_args s2) = Some "approximate_isometry" ->
  outcome (prune_reinit s2)
  = outcome (approximate_isometry_optimize (pr_model s2) (prune_mask s2)
               (lr_AI (pr_args s2)) 10000) /\
  trace (prune_reinit s2)
  = trace (approximate_isometry_optimize (pr_model s2) (prune_mask s2)
             (lr_AI (pr_args s2)) 10000) ++
    match outcome (approximate_isometry_optimize (pr_model s2) (prune_mask s2)
                     (lr_AI (pr_args s2)) 10000) with
    | Ok _ => [EvLogprint "==> Reinit model: approximate_isometry"]
    | Err _ => []
    end.
Proof.
  intros Hr. unfold prune_reinit, reinit_dispatch. rewrite Hr.
  change (truthy (Some "approximate_isometry")) with true.
  change (is_str (Some "approximate_isometry") "default") with false.
  change (is_str (Some "approximate_isometry") "orth") with false.
  change (is_str (Some "approximate_isometry") "exact_isometry") with false.
  change (is_str (Some "approximate_isometry") "approximate_isometry") with true.
  cbn match. run. split.
  - by destruct (outcome (approximate_isometry_optimize _ _ _ _)); run.
  - by destruct (outcome (approximate_isometry_optimize _ _ _ _)); run.
Qed.

Lemma approximate_isometry_optimize_nomask (mdl : model F) (lr : F) (n : nat) :
  wf_model mdl -> positive_rows mdl ->
  exists mdl', outcome (approximate_isometry_optimize mdl None lr n) = Ok mdl'.
Proof.
  intros Hwf Hpos. apply for_modules_outcome_all. intros name m Hin.
  destruct (is_conv_or_linear m) eqn:Hk.
  - specialize (Hwf name m Hin). unfold wf_module in Hwf.
    destruct (weight m) as [w|] eqn:Hw; [|congruence].
    destruct (Hpos name m w Hin Hk Hw) as (k & rest & Hs & Hk0).
    destruct (approximate_isometry_layer_nomask lr n name m w k rest)
      as (w_ & _ & Ho); try done; [by destruct Hwf|].
    by eexists.
  - exists m. by rewrite approximate_isometry_layer_outcome, Hk.
Qed.

(** C3 (amended): [prune] raises [NotImplementedError] if and only if
    [args.reinit] is truthy and none of the four strategy names.  With a
    falsy [args.reinit] it returns the model as the base-class calls left
    it; with default and orth it returns; with approximate isometry outside
    mask mode it returns for every model whose Conv/FC layers have at least
    one row.  (With exact and approximate isometry an error of the
    reinitialiser itself, such as the failed mask lookup of C10, comes out of
    [prune].) *)
Theorem C3_unsupported_reinit (self s1 s2 : Pruner F) :
  _get_kept_wg_L1 self = Ok s1 -> _prune_and_build_new_model s1 = Ok s2 ->
  (outcome (prune self) = Err NotImplementedError <->
   truthy (reinit (pr_args s2)) = true /\
   forall s, s ∈ supported_reinit -> reinit (pr_args s2) <> Some s) /\
  (truthy (reinit (pr_args s2)) = false ->
   outcome (prune self) = Ok (pr_model s2)) /\
  (reinit (pr_args s2) = Some "default" \/ reinit (pr_args s2) = Some "orth" ->
   exists mdl', outcome (prune self) = Ok mdl') /\
  (reinit (pr_args s2) = Some "approximate_isometry" ->
   wg (pr_args s2) <> "weight" ->
   wf_model (pr_model s2) -> positive_rows (pr_model s2) ->
   exists mdl', outcome (prune self) = Ok mdl').
Proof.
  intros H1 H2. rewrite prune_outcome, H1, H2.
  unfold prune_reinit. rewrite reinit_dispatch_outcome.
  split; [|split; [|split]].
  - destruct (truthy _); [|split; [done|by intros [? _]]].
    destruct (is_str _ "default") eqn:Hd.
    { apply is_str_true in Hd. split; [done|]. intros [_ Hno].
      exfalso. apply (Hno "default"); [|done]. repeat constructor. }
    destruct (is_str _ "orth") eqn:Ho.
    { apply is_str_true in Ho. split; [done|]. intros [_ Hno].
      exfalso. apply (Hno "orth"); [|done]. repeat constructor. }
    destruct (is_str _ "exact_isometry") eqn:He.
    { apply is_str_true in He. split.
      - intros Herr. apply for_modules_outcome_err in Herr as (n0 & m0 & _ & Herr).
        by apply exact_isometry_layer_error in Herr as [?|?].
      - intros [_ Hno]. exfalso. apply (Hno "exact_isometry"); [|done].
        repeat constructor. }
    destruct (is_str _ "approximate_isometry") eqn:Ha.
    { apply is_str_true in Ha. split.
      - intros Herr. apply for_modules_outcome_err in Herr as (n0 & m0 & _ & Herr).
        by apply approximate_isometry_layer_error in Herr
          as [?|[?|[?|(? & _ & _ & ?)]]].
      - intros [_ Hno]. exfalso. apply (Hno "approximate_isometry"); [|done].
        repeat constructor. }
    split; [|done]. intros _. split; [done|].
    apply is_str_false in Hd, Ho, He, Ha.
    intros s Hs. unfold supported_reinit in Hs.
    repeat (apply elem_of_cons in Hs as [->|Hs]; [done|]).
    by apply elem_of_nil in Hs.
  - by intros ->.
  - intros [Hr|Hr]; rewrite Hr.
    + change (truthy (Some "default")) with true.
      change (is_str (Some "default") "default") with true.
      by eexists.
    + change (truthy (Some "orth")) with true.
      change (is_str (Some "orth") "default") with false.
      change (is_str (Some "orth") "orth") with true.
      by eexists.
  - intros Hr Hwg Hwf Hpos. rewrite Hr.
    change (truthy (Some "approximate_isometry")) with true.
    change (is_str (Some "approximate_isometry") "default") with false.
    change (is_str (Some "approximate_isometry") "orth") with false.
    change (is_str (Some "approximate_isometry") "exact_isometry") with false.
    change (is_str (Some "approximate_isometry") "approximate_isometry") with true.
    cbn match.
    assert (Hmask : prune_mask s2 = None).
    { unfold prune_mask. destruct (String.eqb _ _) eqn:Heq; [|done].
      by apply String.eqb_eq in Heq. }
    rewrite Hmask. by apply approximate_isometry_optimize_nomask.
Qed.

(** C9 (amended): when [prune] runs the approximate-isometry strategy, every
    optimiser step runs at the learning rate [args.lr_AI] of the
    configuration; the number of iterations is the constant 10000 of the
    call, whatever the configuration: a run that returns has taken 10000
    steps for each Conv/FC layer. *)
Theorem C9_learning_rate_and_iterations (self s1 s2 : Pruner F) :
  _get_kept_wg_L1 self = Ok s1 -> _prune_and_build_new_model s1 = Ok s2 ->
  reinit (pr_args s2) = Some "approximate_isometry" ->
  (forall name j lr,
     EvOptimStep name j lr ∈ trace (prune self) -> lr = lr_AI (pr_args s2)) /\
  (forall mdl',
     outcome (prune self) = Ok mdl' ->
     count_events is_optim_step (trace (prune self))
     = 10000 * n_conv_linear (pr_model s2)).
Proof.
  intros H1 H2 Hr. rewrite (prune_trace self s1 s2 H1 H2), prune_outcome, H1, H2.
  destruct (prune_reinit_approximate s2 Hr) as [Ho Ht]. rewrite Ho, Ht. split.
  - intros name j lr He. apply elem_of_app in He as [He|He].
    + by eapply approximate_isometry_optimize_step_lr.
    + destruct (outcome (approximate_isometry_optimize _ _ _ _));
        [|by apply elem_of_nil in He].
      apply elem_of_cons in He as [He|He]; [done|]. by apply elem_of_nil in He.
  - intros mdl' Hout. rewrite Hout, count_events_app.
    rewrite (approximate_isometry_optimize_steps _ _ _ _ _ Hout).
    cbn [count_events is_optim_step]. by rewrite !Nat.add_0_r.
Qed.

End PruneClaims.

(** ** [prune] at concrete inputs *)

Lemma fc_model_wf : wf_model fc_model.
Proof.
  intros name m Hin. apply list_elem_of_singleton in Hin. injection Hin as -> ->.
  unfold wf_module. simpl. split; [done|]. split; [done|]. discriminate.
Qed.

Lemma fc_masks_fit : mask_fits fc_masks fc_model.
Proof.
  intros name m mt w Hin Hmt Hw. apply list_elem_of_singleton in Hin.
  injection Hin as -> ->. injection Hw as <-.
  vm_compute in Hmt. injection Hmt as <-. done.
Qed.

Lemma fc_model_positive_rows : positive_rows fc_model.
Proof.
  intros name m w Hin _ Hw. apply list_elem_of_singleton in Hin.
  injection Hin as -> ->. injection Hw as <-. exists 1, [2]. split; [done|lia].
Qed.


(** C3 as stated fails: with the supported strategy approximate_isometry in
    mask mode, [prune] raises [KeyError] when the mask has no entry for a
    layer, and a shape error on a convolution whose mask is shaped like its
    weight. *)
Lemma C3_counterexample :
  "approximate_isometry" ∈ supported_reinit /\
  outcome (prune fc_pruner_no_entry) = Err (KeyError "fc") /\
  outcome (prune conv_pruner) = Err RuntimeError.
Proof.
  split; [repeat constructor|]. split; vm_compute; reflexivity.
Qed.

Lemma C3_unsupported_reinit_witness :
  (outcome (prune (fc_pruner (Some "isometry") "weight")) = Err NotImplementedError <->
   truthy (Some "isometry") = true /\
   forall s, s ∈ supported_reinit -> Some "isometry" <> Some s) /\
  outcome (prune (fc_pruner (Some "isometry") "weight")) = Err NotImplementedError.
Proof.
  split; [|vm_compute; reflexivity].
  exact (proj1 (C3_unsupported_reinit (P := demo_meta_pruner)
                  (fc_pruner (Some "isometry") "weight")
                  (fc_pruner (Some "isometry") "weight")
                  (fc_pruner (Some "isometry") "weight") eq_refl eq_refl)).
Defined.

(** C9 as stated fails for the iteration count: no configuration makes a
    returning approximate-isometry run of [prune] on the one-layer model
    take a number of optimiser steps other than 10000. *)
Lemma C9_counterexample :
  ~ exists args : Args Z,
      reinit args = Some "approximate_isometry" /\
      is_ok (outcome (prune (MkPruner fc_model fc_masks args))) = true /\
      count_events is_optim_step (trace (prune (MkPruner fc_model fc_masks args)))
      <> 10000.
Proof.
  intros (args & Hr & Hok & Hne). apply Hne.
  set (self := MkPruner fc_model fc_masks args) in *.
  rewrite (prune_trace (P := demo_meta_pruner) self self self eq_refl eq_refl).
  rewrite prune_outcome in Hok. cbn [_get_kept_wg_L1 _prune_and_build_new_model
    demo_meta_pruner] in Hok.
  destruct (prune_reinit_approximate self Hr) as [Ho Ht]. rewrite Ho in Hok.
  rewrite Ht.
  destruct (outcome (approximate_isometry_optimize _ _ _ _)) as [mdl'|] eqn:Hout;
    [|done].
  rewrite count_events_app, (approximate_isometry_optimize_steps _ _ _ _ _ Hout).
  change (n_conv_linear (pr_model self)) with 1.
  cbn [count_events is_optim_step]. by rewrite !Nat.add_0_r, Nat.mul_1_r.
Qed.

Lemma C9_learning_rate_and_iterations_witness :
  outcome (prune (fc_pruner (Some "approximate_isometry") "weight"))
  = Ok fc_model_reinit /\
  (forall name j lr,
     EvOptimStep name j lr
       ∈ trace (prune (fc_pruner (Some "approximate_isometry") "weight")) ->
     lr = 1%Z) /\
  count_events is_optim_step
    (trace (prune (fc_pruner (Some "approximate_isometry") "weight")))
  = 10000 * n_conv_linear fc_model.
Proof.
  assert (Hrun : outcome (prune (fc_pruner (Some "approximate_isometry") "weight"))
                 = Ok fc_model_reinit) by (vm_compute; reflexivity).
  split; [exact Hrun|].
  destruct (C9_learning_rate_and_iterations (P := demo_meta_pruner)
              (fc_pruner (Some "approximate_isometry") "weight")
              (fc_pruner (Some "approximate_isometry") "weight")
              (fc_pruner (Some "approximate_isometry") "weight")
              eq_refl eq_refl eq_refl) as [Hlr Hcount].
  split; [exact Hlr|exact (Hcount _ Hrun)].
Defined.

(** ** src/main.py: the mask re-application *)

Section MainFacts.
Context {F : Type} {W : WeightArith F} {Tr : Training F}.
Implicit Types (w mt : tensor F) (mk : mask_dict F) (m : nn_module F)
  (mdl : model F) (evs : list (event F)).

Lemma for_modules_trace_nil (body : string -> nn_module F -> M F (nn_module F)) mdl :
  (forall name m, trace (body name m) = []) -> trace (for_modules body mdl) = [].
Proof.
  intros Hnil. induction mdl as [|[name m] rest IH]; cbn [for_modules]; [done|].
  run. rewrite Hnil. destruct (outcome (body name m)); [|done].
  run. rewrite IH. by destruct (outcome (for_modules body rest)).
Qed.

Lemma apply_mask_forward_trace mk mdl : trace (apply_mask_forward mk mdl) = [].
Proof.
  apply for_modules_trace_nil. intros name m. unfold apply_mask_layer.
  destruct (mk !! name) as [mt|]; [|done].
  run. rewrite get_weight_trace, get_weight_outcome.
  destruct (weight m) as [w|]; [|done]. run. by destruct (mul_ w mt).
Qed.

Lemma apply_mask_layer_idem mk name m m' :
  binary_mask mk ->
  outcome (apply_mask_layer mk name m) = Ok m' ->
  outcome (apply_mask_layer mk name m') = Ok m'.
Proof.
  intros Hbin. rewrite !apply_mask_layer_outcome.
  destruct (mk !! name) as [mt|] eqn:Hmt; [|by intros [= <-]].
  destruct (weight m) as [w|]; [|done].
  destruct (mul_ w mt) as [w'|] eqn:Hmul; [|done].
  intros [= <-]. simpl. by rewrite (mul__idem w mt w' (Hbin name mt Hmt) Hmul).
Qed.

Lemma apply_mask_forward_idem mk mdl mdl1 :
  binary_mask mk ->
  outcome (apply_mask_forward mk mdl) = Ok mdl1 ->
  outcome (apply_mask_forward mk mdl1) = Ok mdl1.
Proof.
  intros Hbin Hout. apply for_modules_outcome_ok in Hout.
  apply for_modules_outcome_intro.
  induction Hout as [|[name m] [name' m'] rest rest' [Hn Hb] _ IH]; constructor;
    [|done].
  simpl in *. subst name'. split; [done|]. by eapply apply_mask_layer_idem.
Qed.

(** C7: for a 0/1 mask, applying [apply_mask_forward] to the model it has
    returned, with no optimiser step in between, returns that same model:
    twice is once. *)
Theorem C7_mask_reapplication_idempotent (mask : mask_dict F) (mdl mdl1 : model F) :
  binary_mask mask ->
  outcome (apply_mask_forward mask mdl) = Ok mdl1 ->
  outcome (apply_mask_forward mask mdl1) = Ok mdl1.
Proof. apply apply_mask_forward_idem. Qed.

Lemma apply_mask_forward_same_layout mk mdl mdl' :
  outcome (apply_mask_forward mk mdl) = Ok mdl' -> same_layout mdl mdl'.
Proof.
  apply for_modules_same_layout. intros name m m'.
  rewrite apply_mask_layer_outcome.
  destruct (mk !! name) as [mt|]; [|by intros [= <-]].
  destruct (weight m) as [w|] eqn:Hw; [|done].
  destruct (mul_ w mt) as [w'|] eqn:Hmul; [|done].
  intros [= <-]. simpl. split; [done|]. f_equal. by eapply mul__shape.
Qed.

Lemma optimizer_step_same_layout (st : OptState) (b : Batch) mdl :
  same_layout mdl (optimizer_step st b mdl).
Proof.
  unfold same_layout, optimizer_step. generalize mdl at 2. intros mdl0.
  induction mdl as [|[name m] rest IH]; simpl; constructor; [|done].
  by destruct (weight m) as [w|] eqn:Hw; simpl; rewrite ?Hw.
Qed.

Lemma orth_reg_trace (args : Args F) mdl : trace (orth_reg args mdl) = [].
Proof.
  unfold orth_reg. destruct (orth_reg_iter_ft args); [|done].
  destruct (existsb _ mdl); [|done]. by destruct (_ || _).
Qed.

Lemma forwards_masked_nil mk : forwards_masked mk [].
Proof. intros mdl0 Hin. by apply elem_of_nil in Hin. Qed.


Lemma forwards_masked_cons mk (e : event F) evs :
  (forall mdl0, e = EvForward mdl0 -> model_pruned_zero mk mdl0) ->
  forwards_masked mk evs -> forwards_masked mk (e :: evs).
Proof. intros H1 H2 mdl0 [Hin|Hin]%elem_of_cons; auto. Qed.





End MainFacts.

(** ** src/main.py: the training loop in mask mode *)

Section TrainFacts.
Context {F : Type} {W : WeightArith F} {Tr : Training F}.
Implicit Types (mk : mask_dict F) (mdl : model F) (evs : list (event F))
  (args : Args F) (st : OptState).

Lemma train_cons_trace args mk b rest st mdl :
  mask_mode args = true ->
  trace (train args mk (b :: rest) st mdl) =
  EvForward mdl ::
  match outcome (orth_reg args mdl) with
  | Ok _ =>
      EvOptimizerStep :: EvApplyMask ::
      match outcome (apply_mask_forward mk (optimizer_step st b mdl)) with
      | Ok mdl2 => trace (train args mk rest (optimizer_next st b mdl) mdl2)
      | Err _ => []
      end
  | Err _ => []
  end.
Proof.
  intros Hmode. cbn [train]. rewrite Hmode. run. rewrite orth_reg_trace. cbn [app].
  destruct (outcome (orth_reg args mdl)); [|done].
  run. rewrite apply_mask_forward_trace. cbn [app].
  by destruct (outcome (apply_mask_forward mk _)).
Qed.

Lemma train_cons_outcome args mk b rest st mdl :
  mask_mode args = true ->
  outcome (train args mk (b :: rest) st mdl) =
  match outcome (orth_reg args mdl) with
  | Ok _ =>
      match outcome (apply_mask_forward mk (optimizer_step st b mdl)) with
      | Ok mdl2 => outcome (train args mk rest (optimizer_next st b mdl) mdl2)
      | Err e => Err e
      end
  | Err e => Err e
  end.
Proof.
  intros Hmode. cbn [train]. rewrite Hmode. run.
  destruct (outcome (orth_reg args mdl)); [|done].
  run. by destruct (outcome (apply_mask_forward mk _)).
Qed.


Lemma masked_after_step mk mdl mdl2 st b :
  mask_fits mk mdl ->
  outcome (apply_mask_forward mk (optimizer_step st b mdl)) = Ok mdl2 ->
  mask_fits mk mdl2 /\ model_pruned_zero mk mdl2.
Proof.
  intros Hfit Hap.
  assert (Hfit1 : mask_fits mk (optimizer_step st b mdl)).
  { eapply mask_fits_same_layout; [apply optimizer_step_same_layout|done]. }
  split.
  - eapply mask_fits_same_layout; [by eapply apply_mask_forward_same_layout|done].
  - by eapply apply_mask_forward_pruned.
Qed.

(** From a model whose pruned entries are 0, every forward pass of [train]
    reads them as 0, and so does the model it returns. *)
Lemma train_from_masked args mk loader st mdl :
  mask_mode args = true -> mask_fits mk mdl -> model_pruned_zero mk mdl ->
  forwards_masked mk (trace (train args mk loader st mdl)) /\
  (forall r, outcome (train args mk loader st mdl) = Ok r ->
             mask_fits mk r.2 /\ model_pruned_zero mk r.2).
Proof.
  intros Hmode. revert st mdl.
  induction loader as [|b rest IH]; intros st mdl Hfit Hz.
  - split; [apply forwards_masked_nil|]. by intros r [= <-].
  - rewrite train_cons_trace, train_cons_outcome by done.
    destruct (outcome (orth_reg args mdl)).
    2:{ split; [|done]. apply forwards_masked_cons; [by intros ? [= <-]|].
        apply forwards_masked_nil. }
    destruct (outcome (apply_mask_forward mk _)) as [mdl2|] eqn:Hap.
    2:{ split; [|done]. apply forwards_masked_cons; [by intros ? [= <-]|].
        do 2 (apply forwards_masked_cons; [done|]). apply forwards_masked_nil. }
    destruct (masked_after_step _ _ _ _ _ Hfit Hap) as [Hfit2 Hz2].
    destruct (IH (optimizer_next st b mdl) mdl2 Hfit2 Hz2) as [IHt IHo].
    split; [|done]. apply forwards_masked_cons; [by intros ? [= <-]|].
    by do 2 (apply forwards_masked_cons; [done|]).
Qed.

(** From any model, every forward pass of [train] that comes after its
    first optimiser step reads the pruned entries as 0. *)
Lemma train_after_first_step args mk loader st mdl :
  mask_mode args = true -> mask_fits mk mdl ->
  forwards_masked mk (after_first_step (trace (train args mk loader st mdl))) /\
  (forall r, outcome (train args mk loader st mdl) = Ok r ->
             mask_fits mk r.2 /\ (loader <> [] -> model_pruned_zero mk r.2)).
Proof.
  intros Hmode Hfit. destruct loader as [|b rest].
  - split; [apply forwards_masked_nil|]. by intros r [= <-].
  - rewrite train_cons_trace, train_cons_outcome by done.
    destruct (outcome (orth_reg args mdl)).
    2:{ split; [apply forwards_masked_nil|done]. }
    cbn [after_first_step].
    destruct (outcome (apply_mask_forward mk _)) as [mdl2|] eqn:Hap.
    2:{ split; [|done]. apply forwards_masked_cons; [done|].
        apply forwards_masked_nil. }
    destruct (masked_after_step _ _ _ _ _ Hfit Hap) as [Hfit2 Hz2].
    destruct (train_from_masked args mk rest (optimizer_next st b mdl) mdl2
                Hmode Hfit2 Hz2) as [Ht Ho].
    split; [by apply forwards_masked_cons|].
    intros r Hr. destruct (Ho r Hr). by split.
Qed.









End TrainFacts.



Lemma fc_masks_binary : binary_mask fc_masks.
Proof.
  intros name mt Hmt. destruct (decide (name = "fc")) as [->|Hne].
  - vm_compute in Hmt. injection Hmt as <-. unfold binary. simpl.
    constructor; [by right|]. constructor; [by left|]. constructor.
  - unfold fc_masks in Hmt. by rewrite lookup_singleton_ne in Hmt.
Qed.

Lemma C7_mask_reapplication_idempotent_witness :
  outcome (apply_mask_forward fc_masks fc_model) = Ok fc_model_zeroed /\
  outcome (apply_mask_forward fc_masks fc_model_zeroed) = Ok fc_model_zeroed.
Proof.
  assert (Hrun : outcome (apply_mask_forward fc_masks fc_model) = Ok fc_model_zeroed)
    by (vm_compute; reflexivity).
  split; [exact Hrun|].
  exact (C7_mask_reapplication_idempotent (F := Z) fc_masks fc_model fc_model_zeroed
           fc_masks_binary Hrun).
Defined.

(** ** src/main.py: the reduction report *)

Lemma py_div_ok (x y q : Q) :
  py_div x y = Ok q -> q = (x / y)%Q /\ ~ (y == 0)%Q.
Proof.
  unfold py_div. destruct (Qeq_bool y 0) eqn:Hy; [done|].
  intros [= <-]. split; [done|]. intros Hy0.
  apply Qeq_bool_iff in Hy0. congruence.
Qed.


Lemma inverse_of_reduction (b a : Q) :
  ~ (b == 0)%Q -> ~ (a == 0)%Q ->
  (1 / (1 - (b - a) / b) == b / a)%Q.
Proof. intros Hb Ha. field. split; [done|]. intros Hx. apply Ha. lra. Qed.




(** ** The isometry loop at concrete inputs *)

(** Three iterations on the fully-connected layer: three optimiser steps,
    the loss logged at iteration 0, the variable masked at the end of each. *)
Example optimize_three_iterations :
  optimize (Some fc_masks) 1%Z 3 "fc" fc_weight
  = ([EvOptimStep "fc" 0 1%Z; EvPrintLoss 0 3 "fc" 81%Z;
      EvEndIter "fc" 0 (Tensor [1; 2] [0; 0]%Z);
      EvOptimStep "fc" 1 1%Z; EvEndIter "fc" 1 (Tensor [1; 2] [0; 0]%Z);
      EvOptimStep "fc" 2 1%Z; EvEndIter "fc" 2 (Tensor [1; 2] [0; 0]%Z)],
     Ok (Tensor [1; 2] [0; 0]%Z)).
Proof. vm_compute. reflexivity. Qed.

(** Without a mask the pruned entry moves freely. *)
Example optimize_without_mask :
  outcome (optimize None 1%Z 3 "fc" fc_weight) = Ok (Tensor [1; 2] [0; 1]%Z).
Proof. vm_compute. reflexivity. Qed.

(** A mask with no entry for the layer: the first lookup raises. *)
Example lookup_fails_on_absent_layer :
  approximate_isometry_layer (Some ∅) 1%Z 1 "fc" (Mod Linear (Some fc_weight))
  = ([EvOptimStep "fc" 0 1%Z], Err (KeyError "fc")).
Proof. vm_compute. reflexivity. Qed.

(** The flattened convolution weight (2, 4) does not broadcast against its
    mask (2, 1, 2, 2). *)
Example conv_mask_does_not_broadcast :
  broadcast_shapes [2; 4] [2; 1; 2; 2] = None /\
  broadcast_shapes [2; 1; 2; 2] [2; 1; 2; 2] = Some [2; 1; 2; 2].
Proof. split; reflexivity. Qed.

(** torch's broadcasting on a few shapes. *)
Example broadcast_examples :
  broadcast_shapes [3; 1] [4] = Some [3; 4] /\
  broadcast_shapes [2; 3] [3] = Some [2; 3] /\
  broadcast_shapes [2; 3] [2] = None /\
  @expand Z [3] [2; 3] [1; 2; 3]%Z = [1; 2; 3; 1; 2; 3]%Z /\
  @expand Z [2; 1] [2; 3] [1; 2]%Z = [1; 1; 1; 2; 2; 2]%Z.
Proof. repeat split; reflexivity. Qed.

(** ** A convolution in mask mode *)

(** X1: the loop multiplies the flattened, two-dimensional variable by the
    mask as it is stored.  For a module whose mask is shaped like a weight of
    more than two dimensions (a convolution), [approximate_isometry_layer]
    with two iterations or more raises a shape error: the product does not
    broadcast, or it takes the rank of the mask and [w_.t()] refuses it in
    the next iteration. *)
Theorem X1_conv_mask_shape_error {F : Type} {W : WeightArith F} {T : Torch F}
    (mk : mask_dict F) (lr : F) (n_iter : nat) (name : string)
    (m : nn_module F) (w mt : tensor F) :
  is_conv_or_linear m = true -> weight m = Some w ->
  mk !! name = Some mt -> shape mt = shape w ->
  2 < length (shape w) -> 2 <= n_iter ->
  outcome (approximate_isometry_layer (Some mk) lr n_iter name m)
  = Err RuntimeError.
Proof.
  intros Hk Hw Hmt Hs Hrank Hn.
  rewrite approximate_isometry_layer_outcome, Hk, Hw.
  by rewrite (optimize_high_rank_mask mk lr n_iter name mt w).
Qed.

Lemma X1_conv_mask_shape_error_witness :
  outcome (approximate_isometry_layer (Some conv_masks) 1%Z 2 "conv"
             (Mod Conv2d (Some conv_weight)))
  = Err RuntimeError /\
  outcome (apply_mask_forward conv_masks conv_model)
  = Ok [("conv", Mod Conv2d
                   (Some (Tensor [2; 1; 2; 2] [1; 0; 3; 0; 5; 6; 0; 0]%Z)))].
Proof.
  split; [|vm_compute; reflexivity].
  apply (X1_conv_mask_shape_error conv_masks 1%Z 2 "conv"
           (Mod Conv2d (Some conv_weight)) conv_weight conv_mask);
    try reflexivity; simpl; lia.
Defined.

(** * The rest of the code: properties *)

(** ** Helper lemmas *)

Section ExtraIso.
Context {F : Type} {W : WeightArith F} {T : Torch F} {U : Utils F}.
Implicit Types (w mt : tensor F) (mk : mask_dict F) (m : nn_module F)
  (mdl : model F).

Lemma for_modules_frame (body : string -> nn_module F -> M F (nn_module F))
    (keep : nn_module F -> Prop) mdl mdl' :
  (forall name m, keep m -> outcome (body name m) = Ok m) ->
  outcome (for_modules body mdl) = Ok mdl' ->
  length mdl' = length mdl /\
  forall i name m, mdl !! i = Some (name, m) -> keep m -> mdl' !! i = Some (name, m).
Proof.
  intros Hkeep Hout. apply for_modules_outcome_ok in Hout.
  split; [symmetry; by eapply Forall2_length|].
  intros i name m Hi Hk.
  destruct (Forall2_lookup_l _ _ _ _ _ Hout Hi) as ([name' m'] & Hi' & Hn & Hb).
  simpl in *. rewrite Hkeep in Hb by done. injection Hb as <-. by subst.
Qed.

Lemma isometry_frame mdl mask lr n mdl' :
  outcome (approximate_isometry_optimize mdl mask lr n) = Ok mdl' \/
  outcome (exact_isometry_based_on_existing_weights mdl) = Ok mdl' ->
  length mdl' = length mdl /\
  forall i name m,
    mdl !! i = Some (name, m) -> is_conv_or_linear m = false ->
    mdl' !! i = Some (name, m).
Proof.
  intros [Hout|Hout];
    apply (for_modules_frame _ (fun m => is_conv_or_linear m = false)) in Hout;
    try done; intros name m Hk.
  - rewrite approximate_isometry_layer_outcome. by rewrite Hk.
  - rewrite exact_isometry_layer_outcome. by rewrite Hk.
Qed.

Lemma exact_isometry_layer_orthogonalized name m :
  (is_conv_or_linear m = true ->
   exists w, weight m = Some w /\
             shape (orthogonalize_weights w) = shape w /\
             wf_tensor (orthogonalize_weights w)) ->
  outcome (exact_isometry_layer name m) = Ok (orthogonalized m).
Proof.
  intros Hw. rewrite exact_isometry_layer_outcome. unfold orthogonalized.
  destruct (is_conv_or_linear m); [|done].
  destruct Hw as (w & -> & Hs & Hwf); [done|].
  rewrite copy__same_shape by done. rewrite <- Hs.
  by destruct (orthogonalize_weights w).
Qed.

Lemma exact_isometry_orthogonalized mdl :
  (forall name m,
     (name, m) ∈ mdl -> is_conv_or_linear m = true ->
     exists w, weight m = Some w /\
               shape (orthogonalize_weights w) = shape w /\
               wf_tensor (orthogonalize_weights w)) ->
  outcome (exact_isometry_based_on_existing_weights mdl)
  = Ok (model_apply orthogonalized mdl).
Proof.
  intros Hall. apply for_modules_outcome_intro.
  unfold model_apply. induction mdl as [|[name m] rest IH]; simpl; constructor.
  - simpl. split; [done|]. apply exact_isometry_layer_orthogonalized.
    apply (Hall name). apply elem_of_cons. by left.
  - apply IH. intros name' m' Hin. apply (Hall name'). apply elem_of_cons. by right.
Qed.

End ExtraIso.

Section ExtraDispatch.
Context {F : Type} {W : WeightArith F} {T : Torch F} {U : Utils F}
  {P : MetaPruner F}.

Lemma prune_reinit_mask_irrelevant (mdl : model F) (mk1 mk2 : mask_dict F)
    (args : Args F) :
  wg args <> "weight" \/ reinit args <> Some "approximate_isometry" ->
  prune_reinit (MkPruner mdl mk1 args) = prune_reinit (MkPruner mdl mk2 args).
Proof.
  intros Hcase. unfold prune_reinit, prune_mask. cbn [pr_args pr_mask pr_model].
  destruct (String.eqb (wg args) "weight") eqn:Hwg; [|done].
  apply String.eqb_eq in Hwg. destruct Hcase as [Hcase|Hcase]; [contradiction|].
  apply is_str_false in Hcase. unfold reinit_dispatch. rewrite Hcase.
  repeat destruct (is_str _ _); reflexivity.
Qed.

End ExtraDispatch.

Section ExtraMask.
Context {F : Type} {W : WeightArith F} {Tr : Training F}.
Implicit Types (w mt : tensor F) (mk : mask_dict F) (m : nn_module F)
  (mdl : model F).

Lemma apply_mask_forward_kept mk mdl mdl' :
  mask_fits mk mdl ->
  outcome (apply_mask_forward mk mdl) = Ok mdl' ->
  forall i name m,
    mdl !! i = Some (name, m) ->
    match mk !! name with
    | None => mdl' !! i = Some (name, m)
    | Some mt =>
        exists w w',
          weight m = Some w /\ mdl' !! i = Some (name, set_weight m w') /\
          shape w' = shape w /\
          forall j x, data mt !! j = Some fone -> data w !! j = Some x ->
                      data w' !! j = Some x
    end.
Proof.
  intros Hfit Hout i name m Hi. apply for_modules_outcome_ok in Hout.
  destruct (Forall2_lookup_l _ _ _ _ _ Hout Hi) as ([name' m'] & Hi' & Hn & Hb).
  cbn [fst snd] in Hn, Hb. subst name'.
  rewrite apply_mask_layer_outcome in Hb.
  destruct (mk !! name) as [mt|] eqn:Hmt; [|by injection Hb as <-].
  destruct (weight m) as [w|] eqn:Hw; [|done].
  destruct (Hfit name m mt w) as [Hs Hwf]; [by eapply list_elem_of_lookup_2|done|done|].
  rewrite mul__same_shape in Hb by done. injection Hb as <-.
  eexists w, _. split; [done|]. split; [done|]. split; [done|].
  intros j x Hj Hx. cbn [data]. apply lookup_zip_with_Some.
  exists x, fone. split; [by rewrite fmul_one_r|done].
Qed.



Implicit Types (args : Args F) (st : OptState).

Lemma train_cons args mk b rest st mdl :
  train args mk (b :: rest) st mdl =
  (do emit (EvForward mdl) then
   do orth_reg args mdl then
   do emit EvOptimizerStep then
   let* mdl2 :=
     if mask_mode args
     then do emit EvApplyMask then
          apply_mask_forward mk (optimizer_step st b mdl)
     else ret (optimizer_step st b mdl) in
   train args mk rest (optimizer_next st b mdl) mdl2).
Proof. reflexivity. Qed.

Lemma train_counts args mk loader st mdl r :
  outcome (train args mk loader st mdl) = Ok r ->
  count_events is_forward (trace (train args mk loader st mdl)) = length loader /\
  count_events is_optimizer_step (trace (train args mk loader st mdl))
  = length loader /\
  count_events is_apply_mask (trace (train args mk loader st mdl))
  = if mask_mode args then length loader else 0.
Proof.
  revert st mdl. induction loader as [|b rest IH]; intros st mdl.
  { intros _. cbn. by destruct (mask_mode args). }
  rewrite train_cons. run. rewrite orth_reg_trace.
  destruct (outcome (orth_reg args mdl)); [|done]. run.
  destruct (mask_mode args) eqn:Hmode.
  - run. rewrite apply_mask_forward_trace.
    destruct (outcome (apply_mask_forward _ _)) as [mdl2|]; [|done].
    intros Hout. destruct (IH _ _ Hout) as (H1 & H2 & H3).
    cbn [count_events is_forward is_optimizer_step is_apply_mask length app].
    rewrite H1, H2, H3. done.
  - run. intros Hout. destruct (IH _ _ Hout) as (H1 & H2 & H3).
    cbn [count_events is_forward is_optimizer_step is_apply_mask length app].
    rewrite H1, H2, H3. done.
Qed.

Lemma count_events_validate (p : event F -> bool) (vl : list Batch) mdl :
  count_events p (trace (validate vl mdl))
  = if p (EvForward mdl) then length vl else 0.
Proof.
  unfold validate, trace. cbn [fst].
  induction vl as [|b vl IH]; cbn [map count_events length].
  - by destruct (p _).
  - rewrite IH. by destruct (p _).
Qed.

Lemma finetune_epochs_counts args mk tl vl n st mdl r :
  outcome (finetune_epochs args mk tl vl n st mdl) = Ok r ->
  count_events is_forward (trace (finetune_epochs args mk tl vl n st mdl))
  = n * (length tl + length vl) /\
  count_events is_optimizer_step (trace (finetune_epochs args mk tl vl n st mdl))
  = n * length tl /\
  count_events is_apply_mask (trace (finetune_epochs args mk tl vl n st mdl))
  = if mask_mode args then n * length tl else 0.
Proof.
  revert st mdl. induction n as [|n IH]; intros st mdl.
  { intros _. cbn. by destruct (mask_mode args). }
  cbn [finetune_epochs]. run.
  destruct (outcome (train args mk tl st mdl)) as [r1|] eqn:Htr; [|done].
  destruct (train_counts _ _ _ _ _ _ Htr) as (T1 & T2 & T3).
  run. change (outcome (validate vl r1.2)) with (@Ok unit tt). cbn match.
  intros Hout. destruct (IH _ _ Hout) as (H1 & H2 & H3).
  rewrite !count_events_app, !count_events_validate, T1, T2, T3, H1, H2, H3.
  cbn [is_forward is_optimizer_step is_apply_mask].
  split; [lia|]. split; [lia|]. destruct (mask_mode args); lia.
Qed.

Lemma train_unsupported_orth_reg args mk b rest st mdl :
  orth_reg_iter_ft args = true ->
  orth_reg_method args <> "CVPR20" -> orth_reg_method args <> "CVPR17" ->
  (exists name m, (name, m) ∈ mdl /\ is_conv_or_linear m = true) ->
  train args mk (b :: rest) st mdl = ([EvForward mdl], Err NotImplementedError).
Proof.
  intros Hft H20 H17 (name & m & Hin & Hk).
  assert (Ho : orth_reg args mdl = raise NotImplementedError).
  { unfold orth_reg. rewrite Hft.
    assert (He : existsb (fun '(_, m) => is_conv_or_linear m) mdl = true).
    { apply existsb_exists. exists (name, m). split; [|done].
      by apply list_elem_of_In. }
    rewrite He.
    apply String.eqb_neq in H20, H17. by rewrite H20, H17. }
  rewrite train_cons, Ho. reflexivity.
Qed.

End ExtraMask.

Lemma Qeq_bool_false (x : Q) : Qeq_bool x 0 = false <-> ~ (x == 0)%Q.
Proof.
  rewrite <- Qeq_bool_iff. destruct (Qeq_bool x 0); split; congruence.
Qed.

Lemma py_div_is_ok (x y : Q) : is_ok (py_div x y) = true <-> ~ (y == 0)%Q.
Proof.
  unfold py_div. rewrite <- Qeq_bool_false.
  destruct (Qeq_bool y 0); simpl; split; congruence.
Qed.

Lemma count_zero (n : nat) : (count n == 0)%Q <-> n = 0.
Proof. unfold count, Qeq. simpl. lia. Qed.

Lemma count_le (a b : nat) : a <= b <-> (count a <= count b)%Q.
Proof. unfold count, Qle. simpl. lia. Qed.

Lemma kept_share (b a : Q) : ~ (b == 0)%Q -> (1 - (b - a) / b == a / b)%Q.
Proof. intros Hb. field. done. Qed.

Lemma Qdiv_zero (a b : Q) : ~ (b == 0)%Q -> (a / b == 0)%Q <-> (a == 0)%Q.
Proof.
  intros Hb. split; intros Ha.
  - rewrite <- (Qmult_div_r a b) by done. rewrite Ha. ring.
  - rewrite Ha. field. done.
Qed.

Lemma reduction_report_defined (pb fb pa fa : nat) :
  is_ok (reduction_report pb fb pa fa) = true <->
  0 < pb /\ 0 < fb /\ 0 < pa /\ 0 < fa.
Proof.
  unfold reduction_report.
  destruct (py_div (count pb - count pa) (count pb)) as [rp|] eqn:Hrp; simpl.
  2:{ split; [done|]. intros (Hpb & _).
      assert (Hok := proj2 (py_div_is_ok (count pb - count pa) (count pb))).
      rewrite Hrp in Hok. simpl in Hok. apply Hok.
      rewrite count_zero. lia. }
  destruct (py_div (count fb - count fa) (count fb)) as [rf|] eqn:Hrf; simpl.
  2:{ split; [done|]. intros (_ & Hfb & _).
      assert (Hok := proj2 (py_div_is_ok (count fb - count fa) (count fb))).
      rewrite Hrf in Hok. simpl in Hok. apply Hok.
      rewrite count_zero. lia. }
  apply py_div_ok in Hrp as [-> Hpb], Hrf as [-> Hfb].
  assert (Hkept : forall b a, ~ (count b == 0)%Q ->
            ((1 - (count b - count a) / count b == 0)%Q <-> a = 0)).
  { intros b a Hb. rewrite kept_share by done. rewrite Qdiv_zero by done.
    apply count_zero. }
  rewrite count_zero in Hpb, Hfb.
  destruct (py_div 1 (1 - (count pb - count pa) / count pb)) as [c|] eqn:Hc; simpl.
  2:{ split; [done|]. intros (_ & _ & Hpa & _).
      assert (Hok := proj2 (py_div_is_ok 1 (1 - (count pb - count pa) / count pb))).
      rewrite Hc in Hok. simpl in Hok. apply Hok.
      rewrite Hkept by (rewrite count_zero; lia). lia. }
  apply py_div_ok in Hc as [_ Hc]. rewrite Hkept in Hc by (rewrite count_zero; lia).
  destruct (py_div 1 (1 - (count fb - count fa) / count fb)) as [s|] eqn:Hs; simpl.
  2:{ split; [done|]. intros (_ & _ & _ & Hfa).
      assert (Hok := proj2 (py_div_is_ok 1 (1 - (count fb - count fa) / count fb))).
      rewrite Hs in Hok. simpl in Hok. apply Hok.
      rewrite Hkept by (rewrite count_zero; lia). lia. }
  apply py_div_ok in Hs as [_ Hs]. rewrite Hkept in Hs by (rewrite count_zero; lia).
  split; [|done]. intros _. lia.
Qed.

Lemma reduction_bounds (b a : Q) :
  (0 < a)%Q -> (a <= b)%Q ->
  (0 <= (b - a) / b)%Q /\ ((b - a) / b < 1)%Q /\ (1 <= 1 / (1 - (b - a) / b))%Q.
Proof.
  intros Ha Hab. assert (Hb : (0 < b)%Q) by lra.
  assert (Hbn : ~ (b == 0)%Q) by lra. assert (Han : ~ (a == 0)%Q) by lra.
  split; [|split].
  - apply Qle_shift_div_l; [done|]. lra.
  - apply Qlt_shift_div_r; [done|]. lra.
  - rewrite inverse_of_reduction by done. apply Qle_shift_div_l; [done|]. lra.
Qed.

Lemma count_positive (n : nat) : 0 < n <-> (0 < count n)%Q.
Proof. unfold count, Qlt. simpl. lia. Qed.

Lemma reduction_report_bounds (pb fb pa fa : nat) (r : report) :
  reduction_report pb fb pa fa = Ok r -> pa <= pb -> fa <= fb ->
  (0 <= ratio_param r)%Q /\ (ratio_param r < 1)%Q /\
  (0 <= ratio_flops r)%Q /\ (ratio_flops r < 1)%Q /\
  (1 <= compression_ratio r)%Q /\ (1 <= speedup_ratio r)%Q.
Proof.
  intros Hr Hp Hf.
  assert (Hok : is_ok (reduction_report pb fb pa fa) = true) by (by rewrite Hr).
  apply reduction_report_defined in Hok as (Hpb & Hfb & Hpa & Hfa).
  unfold reduction_report in Hr.
  destruct (py_div (count pb - count pa) (count pb)) as [rp|] eqn:Hrp; [|done].
  destruct (py_div (count fb - count fa) (count fb)) as [rf|] eqn:Hrf; [|done].
  simpl in Hr.
  destruct (py_div 1 (1 - rp)) as [c|] eqn:Hc; [|done].
  destruct (py_div 1 (1 - rf)) as [s|] eqn:Hs; [|done].
  simpl in Hr. injection Hr as <-. simpl.
  apply py_div_ok in Hrp as [-> _], Hrf as [-> _], Hc as [-> _], Hs as [-> _].
  destruct (reduction_bounds (count pb) (count pa)) as (A1 & A2 & A3);
    [by apply count_positive|by apply count_le|].
  destruct (reduction_bounds (count fb) (count fa)) as (B1 & B2 & B3);
    [by apply count_positive|by apply count_le|].
  done.
Qed.

(** ** Processes and ranks *)

Lemma global_rank_range (nodes ngpus node gpu : Z) :
  (0 <= node < nodes)%Z -> (0 <= gpu < ngpus)%Z ->
  (0 <= global_rank node ngpus gpu < main_world_size true ngpus nodes)%Z.
Proof. unfold global_rank, main_world_size. nia. Qed.

Lemma global_rank_inj (ngpus node gpu node' gpu' : Z) :
  (0 <= gpu < ngpus)%Z -> (0 <= gpu' < ngpus)%Z ->
  global_rank node ngpus gpu = global_rank node' ngpus gpu' ->
  node = node' /\ gpu = gpu'.
Proof.
  unfold global_rank. intros Hg Hg' Heq.
  assert (Hn : node = node').
  { destruct (Z.lt_trichotomy node node') as [Hlt|[Heq'|Hlt]]; [|done|].
    - assert ((node + 1) * ngpus <= node' * ngpus)%Z by nia. lia.
    - assert ((node' + 1) * ngpus <= node * ngpus)%Z by nia. lia. }
  subst node'. lia.
Qed.

Lemma global_rank_saves (ngpus node gpu : Z) :
  (0 <= gpu < ngpus)%Z ->
  saves_checkpoint true (global_rank node ngpus gpu) ngpus = Ok (gpu =? 0)%Z.
Proof.
  intros Hg. unfold saves_checkpoint, global_rank. simpl.
  destruct (ngpus =? 0)%Z eqn:Hn; [lia|].
  rewrite Z.add_comm, Z.mod_add by lia. by rewrite Z.mod_small.
Qed.

(** ** The learning-rate schedule *)

Lemma true_div_returned (x y : Q) :
  ~ (y == 0)%Q -> true_div x y = Returned (x / y)%Q.
Proof.
  intros Hy. unfold true_div, py_div.
  apply Qeq_bool_false in Hy. by rewrite Hy.
Qed.

Lemma inject_Z_nonzero (z : Z) : z <> 0%Z -> ~ (inject_Z z == 0)%Q.
Proof. intros Hz. unfold Qeq. simpl. lia. Qed.

Lemma ratio_bounds (L c w : Q) :
  (0 <= L)%Q -> (0 <= c)%Q -> (c < w)%Q ->
  (0 <= L * c / w)%Q /\ (L * c / w <= L)%Q.
Proof.
  intros HL Hc Hw. assert (Hpos : (0 < w)%Q) by lra. split.
  - apply Qle_shift_div_l; [done|]. nra.
  - apply Qle_shift_div_r; [done|]. nra.
Qed.

Lemma fraction_bounds (d m : Q) :
  (0 <= d)%Q -> (d < m)%Q -> (0 <= d / m)%Q /\ (d / m < 1)%Q.
Proof.
  intros Hd Hm. assert (Hpos : (0 < m)%Q) by lra. split.
  - apply Qle_shift_div_l; [done|]. lra.
  - apply Qlt_shift_div_r; [done|]. lra.
Qed.

Lemma milestones_same (schedule : list Z) (epoch epoch' : Z) :
  (epoch <= epoch')%Z ->
  (forall s, s ∈ schedule -> ~ (epoch < s <= epoch')%Z) ->
  filter (fun s => (s <= epoch')%Z) schedule
  = filter (fun s => (s <= epoch)%Z) schedule.
Proof.
  intros He Hno. induction schedule as [|s rest IH]; [done|].
  rewrite !filter_cons.
  assert (Hs := Hno s (list_elem_of_here _ _)).
  rewrite IH by (intros s' Hs'; apply Hno; by apply list_elem_of_further).
  destruct (decide (s <= epoch)%Z), (decide (s <= epoch')%Z); try done; lia.
Qed.

Section Schedule.
Context {PM : PyMath}.
Implicit Types (args : LRArgs) (a : AdvancedLR) (groups : list Q).

Lemma adjust_warmup args a groups (epoch iteration num_iter : Z) :
  advanced_lr args = Some a ->
  (0 <= epoch < warmup_epoch a)%Z -> (0 < num_iter)%Z ->
  adjust_learning_rate_v2 args groups epoch iteration num_iter
  = let lr := (args_lr args * inject_Z (iteration + epoch * num_iter)
               / inject_Z (warmup_epoch a * num_iter))%Q in
    Returned (lr, map (fun _ => lr) groups).
Proof.
  intros Ha He Hn. unfold adjust_learning_rate_v2. rewrite Ha.
  assert (Hlt : (epoch <? warmup_epoch a)%Z = true) by (apply Z.ltb_lt; lia).
  rewrite Hlt. rewrite true_div_returned; [done|].
  apply inject_Z_nonzero. nia.
Qed.

Lemma adjust_linear args a groups (epoch iteration num_iter : Z) :
  advanced_lr args = Some a -> lr_decay a = "linear" ->
  (warmup_epoch a <= epoch)%Z -> (warmup_epoch a < args_epochs args)%Z ->
  (0 < num_iter)%Z ->
  adjust_learning_rate_v2 args groups epoch iteration num_iter
  = let lr := (args_lr args *
               (1 - inject_Z (iteration + epoch * num_iter
                              - warmup_epoch a * num_iter)
                    / inject_Z (args_epochs args * num_iter
                                - warmup_epoch a * num_iter)))%Q in
    Returned (lr, map (fun _ => lr) groups).
Proof.
  intros Ha Hmode He Hw Hn. unfold adjust_learning_rate_v2. rewrite Ha, Hmode.
  assert (Hlt : (epoch <? warmup_epoch a)%Z = false) by (apply Z.ltb_ge; lia).
  rewrite Hlt. cbn [String.eqb Ascii.eqb Bool.eqb].
  rewrite true_div_returned; [done|].
  apply inject_Z_nonzero. nia.
Qed.

Lemma learning_rate_range args a groups (epoch iteration num_iter : Z) :
  advanced_lr args = Some a -> lr_decay a = "linear" ->
  (0 <= args_lr args)%Q ->
  (0 <= epoch < args_epochs args)%Z -> (0 <= iteration < num_iter)%Z ->
  exists lr,
    adjust_learning_rate_v2 args groups epoch iteration num_iter
    = Returned (lr, map (fun _ => lr) groups) /\
    (0 <= lr)%Q /\ (lr <= args_lr args)%Q /\
    (epoch = warmup_epoch a -> iteration = 0%Z -> (lr == args_lr args)%Q).
Proof.
  intros Ha Hmode HL He Hi.
  destruct (decide (epoch < warmup_epoch a)%Z) as [Hwarm|Hafter].
  - rewrite (adjust_warmup args a) by (done || lia). cbn zeta.
    eexists. split; [done|].
    destruct (ratio_bounds (args_lr args)
                (inject_Z (iteration + epoch * num_iter))
                (inject_Z (warmup_epoch a * num_iter))) as [B0 B1]; [done| |  |].
    + change 0%Q with (inject_Z 0). rewrite <- Zle_Qle. nia.
    + rewrite <- Zlt_Qlt. nia.
    + split; [done|]. split; [done|]. lia.
  - rewrite (adjust_linear args a) by (done || lia). cbn zeta.
    eexists. split; [done|].
    destruct (fraction_bounds
                (inject_Z (iteration + epoch * num_iter - warmup_epoch a * num_iter))
                (inject_Z (args_epochs args * num_iter - warmup_epoch a * num_iter)))
      as [B0 B1].
    + change 0%Q with (inject_Z 0). rewrite <- Zle_Qle. nia.
    + rewrite <- Zlt_Qlt. nia.
    + split; [nra|]. split; [nra|].
      intros -> ->.
      replace (0 + warmup_epoch a * num_iter - warmup_epoch a * num_iter)%Z
        with 0%Z by lia.
      assert (Hz : (inject_Z 0 / inject_Z (args_epochs args * num_iter
                                          - warmup_epoch a * num_iter) == 0)%Q).
      { unfold Qdiv. change (inject_Z 0) with 0%Q. ring. }
      rewrite Hz. ring.
Qed.

Lemma adjust_schedule args a groups (epoch iteration num_iter : Z) :
  advanced_lr args = Some a -> lr_decay a = "schedule" ->
  (warmup_epoch a <= epoch)%Z ->
  adjust_learning_rate_v2 args groups epoch iteration num_iter
  = let lr := (args_lr args *
               gamma a ^ Z.of_nat (length (filter (fun s => (s <= epoch)%Z)
                                                  (schedule a))))%Q in
    Returned (lr, map (fun _ => lr) groups).
Proof.
  intros Ha Hmode He. unfold adjust_learning_rate_v2. rewrite Ha, Hmode.
  assert (Hlt : (epoch <? warmup_epoch a)%Z = false) by (apply Z.ltb_ge; lia).
  rewrite Hlt. reflexivity.
Qed.

Lemma unknown_lr_mode args a groups (epoch iteration num_iter : Z) :
  advanced_lr args = Some a -> lr_decay a ∉ lr_decay_modes ->
  (0 <= epoch)%Z -> (0 < num_iter)%Z ->
  if (epoch <? warmup_epoch a)%Z
  then returns (adjust_learning_rate_v2 args groups epoch iteration num_iter) = true
  else adjust_learning_rate_v2 args groups epoch iteration num_iter
       = Raised (ValueError ("Unknown lr mode " ++ lr_decay a)).
Proof.
  intros Ha Hmode He Hn. destruct (epoch <? warmup_epoch a)%Z eqn:Hlt.
  - apply Z.ltb_lt in Hlt. by rewrite (adjust_warmup args a) by (done || lia).
  - unfold adjust_learning_rate_v2. rewrite Ha, Hlt.
    assert (Hne : forall s, s ∈ lr_decay_modes -> String.eqb (lr_decay a) s = false).
    { intros s Hs. apply String.eqb_neq. intros Heq. by rewrite Heq in Hmode. }
    rewrite !Hne; [done|..]; unfold lr_decay_modes; set_solver.
Qed.

End Schedule.

(** ** Checkpoints and the bookkeeping of [finetune] *)

Lemma string_app_inj_l (p s t : string) : (p ++ s = p ++ t)%string -> s = t.
Proof. induction p as [|c p IH]; simpl; [done|]. intros [= H]. auto. Qed.

Lemma pjoin_inj (wp x y : string) :
  starts_with_slash x = false -> starts_with_slash y = false ->
  pjoin wp x = pjoin wp y -> x = y.
Proof.
  unfold pjoin. intros -> ->.
  destruct (_ || _); intros H; apply string_app_inj_l in H; [done|].
  by apply string_app_inj_l in H.
Qed.

Lemma Qgt_bool_true (x y : Q) : Qgt_bool x y = true <-> (y < x)%Q.
Proof.
  unfold Qgt_bool. rewrite negb_true_iff. split.
  - intros H. apply Qnot_le_lt. intros Hle. apply Qle_bool_iff in Hle. congruence.
  - intros H. destruct (Qle_bool x y) eqn:E; [|done]. apply Qle_bool_iff in E. lra.
Qed.

Lemma Qgt_bool_false (x y : Q) : Qgt_bool x y = false <-> (x <= y)%Q.
Proof.
  unfold Qgt_bool. rewrite negb_false_iff. apply Qle_bool_iff.
Qed.

Lemma py_max_improved (x y : Q) : Qgt_bool x y = true -> py_max x y = x.
Proof.
  intros H. apply Qgt_bool_true in H. unfold py_max.
  destruct (Qgt_bool y x) eqn:E; [|done]. apply Qgt_bool_true in E. lra.
Qed.

Lemma py_max_kept (x y : Q) : Qgt_bool x y = false -> (py_max x y == y)%Q.
Proof.
  intros H. apply Qgt_bool_false in H. unfold py_max.
  destruct (Qgt_bool y x) eqn:E; [done|]. apply Qgt_bool_false in E. lra.
Qed.

Lemma last_n_cases {A} (n : Z) (l : list A) :
  last_n n l =
  if (0 <? n)%Z then drop (length l - Z.to_nat n) l
  else drop (Z.to_nat (- n)) l.
Proof.
  unfold last_n. destruct (0 <? n)%Z eqn:Hn.
  - apply Z.ltb_lt in Hn. assert (Hlt : (- n <? 0)%Z = true) by (apply Z.ltb_lt; lia).
    rewrite Hlt. f_equal. lia.
  - apply Z.ltb_ge in Hn. assert (Hlt : (- n <? 0)%Z = false) by (apply Z.ltb_ge; lia).
    rewrite Hlt. destruct (decide (- n <= Z.of_nat (length l))%Z).
    + f_equal. lia.
    + rewrite !drop_ge; [done|lia|lia].
Qed.

Section Bookkeeping.
Context {Snapshot Mask : Type} {Fmt : PyFormat}.
Implicit Types (args : FinetuneArgs) (mask : binding Mask)
  (runs : Z -> @EpochRun Snapshot) (s : @FinetuneState Snapshot Mask)
  (fs : files Snapshot Mask) (state : checkpoint Snapshot Mask).

Lemma insert_same_value fs (k k' : string) state :
  fs !! k' = Some state -> <[k := state]> fs !! k' = Some state.
Proof.
  intros H. destruct (decide (k = k')) as [->|Hne].
  - apply lookup_insert_eq.
  - by rewrite lookup_insert_ne.
Qed.

Lemma save_model_files (wp : string) state (is_best : bool) (mark : string) fs :
  let fs' := save_model wp state is_best mark fs in
  fs' !! pjoin wp "checkpoint.pth" = Some state /\
  (is_best = true -> fs' !! pjoin wp "checkpoint_best.pth" = Some state) /\
  (mark <> EmptyString ->
   fs' !! pjoin wp ("checkpoint_" ++ mark ++ ".pth") = Some state) /\
  (forall p, fs' !! p = Some state \/ fs' !! p = fs !! p) /\
  (forall p,
     p <> pjoin wp "checkpoint.pth" ->
     (is_best = true -> p <> pjoin wp "checkpoint_best.pth") ->
     (mark <> EmptyString -> p <> pjoin wp ("checkpoint_" ++ mark ++ ".pth")) ->
     fs' !! p = fs !! p).
Proof.
  cbn zeta. unfold save_model.
  set (p1 := pjoin wp "checkpoint.pth").
  set (p2 := pjoin wp "checkpoint_best.pth").
  set (p3 := pjoin wp ("checkpoint_" ++ mark ++ ".pth")).
  assert (H1 : <[p1 := state]> fs !! p1 = Some state) by apply lookup_insert_eq.
  split; [|split; [|split; [|split]]].
  - destruct is_best, (negb (String.eqb mark EmptyString));
      repeat (first [exact H1 | apply insert_same_value]).
  - intros ->. destruct (negb (String.eqb mark EmptyString));
      repeat (first [apply lookup_insert_eq | apply insert_same_value]).
  - intros Hm. apply String.eqb_neq in Hm. rewrite Hm. simpl. apply lookup_insert_eq.
  - intros p.
    assert (Hstep : forall (m : files Snapshot Mask) k,
              m !! p = Some state \/ m !! p = fs !! p ->
              <[k := state]> m !! p = Some state \/ <[k := state]> m !! p = fs !! p).
    { intros m k Hm. destruct (decide (k = p)) as [->|Hne].
      - left. apply lookup_insert_eq.
      - by rewrite lookup_insert_ne. }
    destruct is_best, (negb (String.eqb mark EmptyString));
      repeat apply Hstep; by right.
  - intros p Hp1 Hp2 Hp3.
    destruct (negb (String.eqb mark EmptyString)) eqn:Hm.
    + rewrite lookup_insert_ne.
      2:{ intros Heq. apply Hp3; [|done]. intros ->. done. }
      destruct is_best.
      * rewrite lookup_insert_ne by (intros Heq; by apply Hp2).
        by rewrite lookup_insert_ne.
      * by rewrite lookup_insert_ne.
    + destruct is_best.
      * rewrite lookup_insert_ne by (intros Heq; by apply Hp2).
        by rewrite lookup_insert_ne.
      * by rewrite lookup_insert_ne.
Qed.

Lemma with_mask_ready args mask (e : Z) (sn : Snapshot) (a1 a5 b : option Q)
    (ps : option string) :
  mask_ready args mask ->
  with_mask args mask (MkCheckpoint e sn a1 a5 b ps None)
  = Returned (MkCheckpoint e sn a1 a5 b ps (mask_entry args mask)).
Proof.
  intros Hready. unfold with_mask, mask_entry.
  destruct (String.eqb (ft_wg args) "weight") eqn:Hwg; [|done].
  apply String.eqb_eq in Hwg. destruct (Hready Hwg) as [mk ->]. done.
Qed.

Lemma best_path_distinct (wp mark : string) :
  pjoin wp "checkpoint_best.pth" <> pjoin wp "checkpoint.pth" /\
  pjoin wp "checkpoint_best.pth" <> pjoin wp ("checkpoint_" ++ "lr" ++ mark ++ ".pth").
Proof.
  split; intros Heq; apply pjoin_inj in Heq; done.
Qed.

Lemma save_on_lr_change_best args mask (epoch : Z) (run : EpochRun) s fs1 :
  save_on_lr_change args mask epoch run s = Returned fs1 ->
  fs1 !! pjoin (ft_weights_path args) "checkpoint_best.pth"
  = fs_files s !! pjoin (ft_weights_path args) "checkpoint_best.pth".
Proof.
  unfold save_on_lr_change. destruct (ft_has_advanced_lr args); [by intros [= <-]|].
  destruct (_ && _); [|by intros [= <-]].
  destruct (last_eval s) as [[acc1 acc5]|]; [|done].
  destruct (with_mask _ _ _) as [state|]; [|done]. simpl. intros [= <-].
  set (mark := (str_float (last_lr s) ++ "_epoch" ++ str_int epoch)%string).
  destruct (best_path_distinct (ft_weights_path args) mark) as [D1 D2].
  destruct (save_model_files (ft_weights_path args) state false
              ("lr" ++ mark) (fs_files s)) as (_ & _ & _ & _ & Hframe).
  apply Hframe; [done|done|]. intros _. exact D2.
Qed.

Lemma finetune_epoch_returned args mask (epoch : Z) (run : EpochRun) s s' :
  finetune_epoch args mask epoch run s = Returned s' ->
  let is_best := Qgt_bool (run_acc1 run) (best_acc1 s) in
  let best := py_max (run_acc1 run) (best_acc1 s) in
  exists fs1 fs2,
    save_on_lr_change args mask epoch run s = Returned fs1 /\
    save_epoch args mask epoch run is_best best fs1 = Returned fs2 /\
    s' = MkFinetuneState fs2 (run_snapshot run) best
           (if is_best then epoch else best_acc1_epoch s)
           (if is_best then Some (run_loss_train run, run_loss_test run)
            else best_loss s)
           (Some (run_acc1 run, run_acc5 run))
           (acc1_list s ++ [run_acc1 run])
           (loss_train_list s ++ [run_loss_train run])
           (loss_test_list s ++ [run_loss_test run])
           (run_lr run).
Proof.
  unfold finetune_epoch. cbn zeta.
  destruct (save_on_lr_change args mask epoch run s) as [fs1|]; [|done].
  cbn [attempt_bind].
  destruct (save_epoch _ _ _ _ _ _ fs1) as [fs2|] eqn:Hsave; [|done].
  cbn [attempt_bind]. intros [= <-]. by exists fs1, fs2.
Qed.

Lemma best_tracked_step args mask runs (best0 : Q) (k : Z) s s' :
  best_tracked args runs best0 k s ->
  finetune_epoch args mask k (runs k) s = Returned s' ->
  best_tracked args runs best0 (k + 1) s'.
Proof.
  intros (Hk & Hmax & Hb0 & Hlist & Hbest) Hstep.
  apply finetune_epoch_returned in Hstep as (fs1 & fs2 & _ & _ & ->).
  unfold best_tracked. cbn zeta. cbn [best_acc1 best_loss best_acc1_epoch acc1_list].
  assert (Hseq : seqZ (ft_start_epoch args) (k + 1 - ft_start_epoch args)
                 = seqZ (ft_start_epoch args) (k - ft_start_epoch args) ++ [k]).
  { replace (k + 1 - ft_start_epoch args)%Z
      with ((k - ft_start_epoch args) + 1)%Z by lia.
    rewrite seqZ_app by lia.
    replace (ft_start_epoch args + (k - ft_start_epoch args))%Z with k by lia.
    done. }
  split; [lia|].
  destruct (Qgt_bool (run_acc1 (runs k)) (best_acc1 s)) eqn:Hgt.
  - rewrite py_max_improved by done. apply Qgt_bool_true in Hgt.
    split; [|split; [|split]].
    + intros e He. destruct (decide (e = k)) as [->|Hne]; [lra|].
      specialize (Hmax e). lapply Hmax; [lra|lia].
    + lra.
    + rewrite Hseq, map_app, Hlist. done.
    + split; [lia|]. split; [done|]. split; [lra|]. split; [lra|].
      intros e' He'. specialize (Hmax e'). lapply Hmax; [lra|lia].
  - pose proof (py_max_kept _ _ Hgt) as Hkept. apply Qgt_bool_false in Hgt.
    split; [|split; [|split]].
    + intros e He. rewrite Hkept. destruct (decide (e = k)) as [->|Hne]; [lra|].
      apply Hmax. lia.
    + by rewrite Hkept.
    + rewrite Hseq, map_app, Hlist. done.
    + destruct (best_loss s) as [l|].
      * destruct Hbest as (He & Hl & Heq & Hgt0 & Hfirst).
        split; [lia|]. split; [done|]. split; [by rewrite Hkept|]. done.
      * destruct Hbest as [Heq Hbest]. split; [by rewrite Hkept|].
        intros e He. destruct (decide (e = k)) as [->|Hne]; [lra|].
        apply Hbest. lia.
Qed.

Lemma save_epoch_files args mask runs (epoch : Z) (is_best : bool) (best : Q)
    fs1 fs2 :
  truthy (ft_method args) = true ->
  saves_checkpoint (ft_multiprocessing_distributed args) (ft_rank args)
    (ft_ngpus_per_node args) = Ok true ->
  mask_ready args mask ->
  save_epoch args mask epoch (runs epoch) is_best best fs1 = Returned fs2 ->
  fs2 !! pjoin (ft_weights_path args) "checkpoint.pth"
  = Some (epoch_state args mask runs epoch) /\
  fs2 !! pjoin (ft_weights_path args) "checkpoint_best.pth"
  = if is_best then Some (epoch_state args mask runs epoch)
    else fs1 !! pjoin (ft_weights_path args) "checkpoint_best.pth".
Proof.
  intros Hmethod Hsaver Hready. unfold save_epoch. rewrite Hsaver, Hmethod.
  cbn [of_result attempt_bind]. rewrite with_mask_ready by done.
  cbn [attempt_bind]. intros [= <-].
  destruct (save_model_files (ft_weights_path args)
              (epoch_state args mask runs epoch) is_best EmptyString fs1)
    as (Hck & Hbest & _ & _ & Hframe).
  split; [exact Hck|]. destruct is_best; [by apply Hbest|].
  apply Hframe; [|done|done].
  apply (best_path_distinct (ft_weights_path args) EmptyString).
Qed.

Lemma files_tracked_step args mask runs (k : Z) s s' :
  truthy (ft_method args) = true ->
  saves_checkpoint (ft_multiprocessing_distributed args) (ft_rank args)
    (ft_ngpus_per_node args) = Ok true ->
  mask_ready args mask ->
  files_tracked args mask runs k s ->
  finetune_epoch args mask k (runs k) s = Returned s' ->
  files_tracked args mask runs (k + 1) s'.
Proof.
  intros Hmethod Hsaver Hready [Hbest Hck] Hstep.
  apply finetune_epoch_returned in Hstep as (fs1 & fs2 & Hlr & Hsave & ->).
  apply save_on_lr_change_best in Hlr.
  destruct (save_epoch_files _ _ _ _ _ _ _ _ Hmethod Hsaver Hready Hsave)
    as [Hck2 Hbest2].
  unfold files_tracked. cbn [fs_files best_loss best_acc1_epoch last_eval].
  split.
  - rewrite Hbest2. destruct (Qgt_bool _ _); [done|].
    intros Hsome. rewrite Hlr. by apply Hbest.
  - intros _. replace (k + 1 - 1)%Z with k by lia. exact Hck2.
Qed.

Lemma finetune_loop_tracked args mask runs (best0 : Q) (todo : nat) (k : Z) s s' :
  finetune_loop args mask runs todo k s = Returned s' ->
  best_tracked args runs best0 k s ->
  best_tracked args runs best0 (k + Z.of_nat todo) s' /\
  (truthy (ft_method args) = true ->
   saves_checkpoint (ft_multiprocessing_distributed args) (ft_rank args)
     (ft_ngpus_per_node args) = Ok true ->
   mask_ready args mask ->
   files_tracked args mask runs k s ->
   files_tracked args mask runs (k + Z.of_nat todo) s').
Proof.
  revert k s. induction todo as [|todo IH]; intros k s.
  - cbn [finetune_loop]. intros [= <-]. rewrite Z.add_0_r. done.
  - cbn [finetune_loop].
    destruct (finetune_epoch args mask k (runs k) s) as [s1|] eqn:Hstep; [|done].
    cbn [attempt_bind]. intros Hloop Hbest.
    replace (k + Z.of_nat (S todo))%Z with (k + 1 + Z.of_nat todo)%Z by lia.
    destruct (IH _ _ Hloop (best_tracked_step _ _ _ _ _ _ _ Hbest Hstep))
      as [IH1 IH2].
    split; [done|]. intros Hmethod Hsaver Hready Hfiles.
    apply IH2; try done. by eapply files_tracked_step.
Qed.

Lemma finetune_epoch_total args mask (epoch : Z) (run : EpochRun) s :
  mask_ready args mask ->
  (ft_multiprocessing_distributed args = true -> ft_ngpus_per_node args <> 0%Z) ->
  (last_eval s = None -> Qeq_bool (last_lr s) 0 = true) ->
  exists s', finetune_epoch args mask epoch run s = Returned s' /\
             last_eval s' <> None.
Proof.
  intros Hready Hgpus Hfirst. unfold finetune_epoch.
  assert (Hlr : exists fs1, save_on_lr_change args mask epoch run s = Returned fs1).
  { unfold save_on_lr_change. destruct (ft_has_advanced_lr args); [by eexists|].
    destruct (Qeq_bool (last_lr s) 0) eqn:Hz; [by eexists|]. cbn [negb andb].
    destruct (negb _); [|by eexists].
    destruct (last_eval s) as [[acc1 acc5]|]; [|by specialize (Hfirst eq_refl)].
    rewrite with_mask_ready by done. by eexists. }
  destruct Hlr as [fs1 ->]. cbn [attempt_bind].
  assert (Hsave : forall b q, exists fs2,
            save_epoch args mask epoch run b q fs1 = Returned fs2).
  { intros b q. unfold save_epoch, saves_checkpoint.
    destruct (ft_multiprocessing_distributed args); cbn [negb].
    - destruct (ft_ngpus_per_node args =? 0)%Z eqn:Hg.
      { apply Z.eqb_eq in Hg. by destruct Hgpus. }
      cbn [of_result attempt_bind]. destruct (_ mod _ =? 0)%Z; [|by eexists].
      destruct (truthy _); [|by eexists].
      rewrite with_mask_ready by done. by eexists.
    - cbn [of_result attempt_bind]. destruct (truthy _); [|by eexists].
      rewrite with_mask_ready by done. by eexists. }
  destruct (Hsave (Qgt_bool (run_acc1 run) (best_acc1 s))
                  (py_max (run_acc1 run) (best_acc1 s))) as [fs2 ->].
  cbn [attempt_bind]. eexists. split; [done|]. done.
Qed.

Lemma finetune_loop_total args mask runs (todo : nat) (k : Z) s :
  mask_ready args mask ->
  (ft_multiprocessing_distributed args = true -> ft_ngpus_per_node args <> 0%Z) ->
  (last_eval s = None -> Qeq_bool (last_lr s) 0 = true) ->
  exists s', finetune_loop args mask runs todo k s = Returned s'.
Proof.
  intros Hready Hgpus. revert k s. induction todo as [|todo IH]; intros k s Hfirst.
  - by eexists.
  - cbn [finetune_loop].
    destruct (finetune_epoch_total args mask k (runs k) s) as (s1 & -> & Hs1);
      try done.
    cbn [attempt_bind]. apply IH. intros Hnone. done.
Qed.

Lemma best_tracked_init args runs (model : Snapshot) (best0 : Q) (e0 : Z)
    (fs : files Snapshot Mask) :
  best_tracked args runs best0 (ft_start_epoch args)
    (MkFinetuneState fs model best0 e0 None None [] [] [] 0).
Proof.
  unfold best_tracked. cbn. split; [lia|]. split; [intros e He; lia|].
  split; [lra|]. rewrite Z.sub_diag. split; [done|]. split; [done|].
  intros e He. lia.
Qed.

Lemma range_end (start epochs : Z) :
  (start < start + Z.of_nat (Z.to_nat (epochs - start)))%Z ->
  (start + Z.of_nat (Z.to_nat (epochs - start)))%Z = epochs.
Proof. lia. Qed.

Lemma finetune_bookkeeping_returned args mask runs (model : Snapshot)
    (best0 : Q) (e0 : Z) (fs : files Snapshot Mask) (r : FinetuneResult) :
  finetune_bookkeeping args mask runs model best0 e0 fs = Returned r ->
  exists s lt ls,
    finetune_loop args mask runs
      (Z.to_nat (ft_epochs args - ft_start_epoch args)) (ft_start_epoch args)
      (MkFinetuneState fs model best0 e0 None None [] [] [] 0) = Returned s /\
    best_loss s = Some (lt, ls) /\
    r = MkFinetuneResult (best_acc1 s, lt, ls)
          (last_n (ft_last_n_epoch args) (acc1_list s))
          (last_n (ft_last_n_epoch args) (loss_train_list s))
          (last_n (ft_last_n_epoch args) (loss_test_list s))
          (fs_files s).
Proof.
  unfold finetune_bookkeeping.
  destruct (finetune_loop _ _ _ _ _ _) as [s|]; [|done]. cbn [attempt_bind].
  destruct (best_loss s) as [[lt ls]|] eqn:Hl; [|done].
  intros [= <-]. by exists s, lt, ls.
Qed.

Lemma finetune_best_epoch args mask runs (model : Snapshot) (best0 : Q) (e0 : Z)
    (fs : files Snapshot Mask) (r : FinetuneResult) :
  finetune_bookkeeping args mask runs model best0 e0 fs = Returned r ->
  exists e,
    (ft_start_epoch args <= e < ft_epochs args)%Z /\
    (r.(res_best).1.1 == run_acc1 (runs e))%Q /\
    r.(res_best).1.2 = run_loss_train (runs e) /\
    r.(res_best).2 = run_loss_test (runs e) /\
    (best0 < run_acc1 (runs e))%Q /\
    (forall e', (ft_start_epoch args <= e' < e)%Z ->
                (run_acc1 (runs e') < run_acc1 (runs e))%Q) /\
    (forall e', (ft_start_epoch args <= e' < ft_epochs args)%Z ->
                (run_acc1 (runs e') <= run_acc1 (runs e))%Q) /\
    (truthy (ft_method args) = true ->
     saves_checkpoint (ft_multiprocessing_distributed args) (ft_rank args)
       (ft_ngpus_per_node args) = Ok true ->
     mask_ready args mask ->
     r.(res_files) !! pjoin (ft_weights_path args) "checkpoint_best.pth"
     = Some (epoch_state args mask runs e) /\
     r.(res_files) !! pjoin (ft_weights_path args) "checkpoint.pth"
     = Some (epoch_state args mask runs (ft_epochs args - 1))).
Proof.
  intros Hret.
  apply finetune_bookkeeping_returned in Hret as (s & lt & ls & Hloop & Hl & ->).
  destruct (finetune_loop_tracked _ _ _ best0 _ _ _ _ Hloop
              (best_tracked_init args runs model best0 e0 fs)) as [Hbest Hfiles].
  destruct Hbest as (Hk & Hmax & Hb0 & Hlist & Hbest). rewrite Hl in Hbest.
  cbn zeta in Hbest. destruct Hbest as (He & Hlosses & Heq & Hgt & Hfirst).
  injection Hlosses as -> ->.
  assert (Hend : (ft_start_epoch args
                  + Z.of_nat (Z.to_nat (ft_epochs args - ft_start_epoch args)))%Z
                 = ft_epochs args) by lia.
  rewrite Hend in *.
  exists (best_acc1_epoch s). cbn [res_best res_files fst snd].
  split; [done|]. split; [done|]. split; [done|]. split; [done|].
  split; [done|]. split; [done|]. split.
  - intros e' He'. rewrite <- Heq. by apply Hmax.
  - intros Hmethod Hsaver Hready.
    destruct (Hfiles Hmethod Hsaver Hready) as [Hb Hc].
    { split; intros Hne; by cbn in Hne. }
    split.
    + apply Hb. by rewrite Hl.
    + apply Hc.
      (* at least one epoch ran *)
      destruct (Z.to_nat (ft_epochs args - ft_start_epoch args)) as [|todo] eqn:Htodo;
        [lia|].
      cbn [finetune_loop] in Hloop.
      destruct (finetune_epoch _ _ _ _ _) as [s1|] eqn:Hstep; [|done].
      cbn [attempt_bind] in Hloop.
      apply finetune_epoch_returned in Hstep as (fs1 & fs2 & _ & _ & ->).
      clear -Hloop. revert Hloop. generalize (ft_start_epoch args + 1)%Z.
      match goal with |- forall z, finetune_loop _ _ _ _ _ ?s0 = _ -> _ =>
        assert (Hs0 : last_eval s0 <> None) by done; revert Hs0; generalize s0 end.
      induction todo as [|todo IH]; intros s0 Hs0 z; cbn [finetune_loop].
      * by intros [= <-].
      * destruct (finetune_epoch _ _ _ _ s0) as [s2|] eqn:Hstep; [|done].
        cbn [attempt_bind]. apply IH.
        apply finetune_epoch_returned in Hstep as (? & ? & _ & _ & ->). done.
Qed.

Lemma finetune_never_improved args mask runs (model : Snapshot) (best0 : Q)
    (e0 : Z) (fs : files Snapshot Mask) :
  mask_ready args mask ->
  (ft_multiprocessing_distributed args = true -> ft_ngpus_per_node args <> 0%Z) ->
  ((forall e, (ft_start_epoch args <= e < ft_epochs args)%Z ->
              (run_acc1 (runs e) <= best0)%Q) ->
   finetune_bookkeeping args mask runs model best0 e0 fs
   = Raised (UnboundLocalError "best_loss_train")) /\
  ((exists e, (ft_start_epoch args <= e < ft_epochs args)%Z /\
              (best0 < run_acc1 (runs e))%Q) ->
   returns (finetune_bookkeeping args mask runs model best0 e0 fs) = true).
Proof.
  intros Hready Hgpus.
  destruct (finetune_loop_total args mask runs
              (Z.to_nat (ft_epochs args - ft_start_epoch args))
              (ft_start_epoch args)
              (MkFinetuneState fs model best0 e0 None None [] [] [] 0))
    as [s Hloop]; try done.
  destruct (finetune_loop_tracked _ _ _ best0 _ _ _ _ Hloop
              (best_tracked_init args runs model best0 e0 fs)) as [Hbest _].
  destruct Hbest as (Hk & Hmax & Hb0 & Hlist & Hbest).
  unfold finetune_bookkeeping. rewrite Hloop. cbn [attempt_bind].
  destruct (best_loss s) as [[lt ls]|].
  - cbn zeta in Hbest. destruct Hbest as (He & _ & _ & Hgt & _).
    split; [|done]. intros Hnone. exfalso.
    specialize (Hnone (best_acc1_epoch s)). lapply Hnone; [lra|lia].
  - destruct Hbest as [_ Hbest]. split; [done|].
    intros (e & He & Hgt). exfalso.
    specialize (Hbest e). lapply Hbest; [lra|lia].
Qed.

Lemma finetune_windows args mask runs (model : Snapshot) (best0 : Q) (e0 : Z)
    (fs : files Snapshot Mask) (r : FinetuneResult) :
  finetune_bookkeeping args mask runs model best0 e0 fs = Returned r ->
  res_last_acc1 r = last_n (ft_last_n_epoch args) (all_acc1 args runs) /\
  (ft_last_n_epoch args = 0%Z -> res_last_acc1 r = all_acc1 args runs) /\
  ((0 < ft_last_n_epoch args)%Z ->
   res_last_acc1 r
   = drop (length (all_acc1 args runs) - Z.to_nat (ft_last_n_epoch args))
          (all_acc1 args runs)).
Proof.
  intros Hret.
  apply finetune_bookkeeping_returned in Hret as (s & lt & ls & Hloop & Hl & ->).
  destruct (finetune_loop_tracked _ _ _ best0 _ _ _ _ Hloop
              (best_tracked_init args runs model best0 e0 fs)) as [Hbest _].
  destruct Hbest as (Hk & Hmax & Hb0 & Hlist & Hbest). rewrite Hl in Hbest.
  cbn zeta in Hbest. destruct Hbest as (He & _).
  assert (Hall : acc1_list s = all_acc1 args runs).
  { rewrite Hlist. unfold all_acc1. do 2 f_equal. lia. }
  cbn [res_last_acc1]. rewrite Hall.
  split; [done|]. split.
  - intros Hn. rewrite last_n_cases, Hn. done.
  - intros Hn. rewrite last_n_cases.
    assert (Hlt : (0 <? ft_last_n_epoch args)%Z = true) by (by apply Z.ltb_lt).
    by rewrite Hlt.
Qed.

End Bookkeeping.

(** ** [validate] and the training flag *)

Section ValidateModeFacts.
Context {N : ModelNoise}.

Lemma validate_batches_single {B} (val_loader : list B) (model : nat) :
  validate_batches val_loader [model] model = Ok model.
Proof. induction val_loader as [|b rest IH]; [done|]. exact IH. Qed.

Lemma module_train_length (mode : bool) (modules : list nat) (h : list bool) :
  length (module_train mode modules h) = length h.
Proof.
  induction modules as [|m rest IH]; [done|].
  change (module_train mode (m :: rest) h)
    with (<[m := mode]> (module_train mode rest h)).
  by rewrite length_insert.
Qed.

Lemma module_train_lookup (mode : bool) (modules : list nat) (h : list bool)
    (i : nat) :
  i < length h ->
  module_train mode modules h !! i
  = if bool_decide (i ∈ modules) then Some mode else h !! i.
Proof.
  intros Hi. induction modules as [|m rest IH].
  { cbn [module_train foldr]. rewrite bool_decide_eq_false_2; [done|].
    apply not_elem_of_nil. }
  change (module_train mode (m :: rest) h)
    with (<[m := mode]> (module_train mode rest h)).
  destruct (decide (i = m)) as [->|Hne].
  - rewrite list_lookup_insert_eq; [|by rewrite module_train_length].
    rewrite bool_decide_eq_true_2; [done|]. apply list_elem_of_here.
  - rewrite list_lookup_insert_ne by done. rewrite IH.
    destruct (decide (i ∈ rest)) as [Hin|Hnin].
    + rewrite !bool_decide_eq_true_2; [done| |done]. by apply list_elem_of_further.
    + rewrite !bool_decide_eq_false_2; [done| |done].
      intros Hin. apply elem_of_cons in Hin as [?|?]; done.
Qed.

Lemma validate_modules_flags {B} (modules_of : nat -> list nat)
    (val_loader : list B) (h : list bool) (model : nat) (model_noise_num : Z)
    (train_state : bool) :
  h !! model = Some train_state ->
  exists h',
    validate_modules modules_of val_loader h model false model_noise_num
    = (h', Ok tt) /\
    length h' = length h /\
    forall i, i < length h ->
      h' !! i = if bool_decide (i ∈ modules_of model) then Some train_state
                else h !! i.
Proof.
  intros Hm. unfold validate_modules. rewrite validate_batches_single, Hm.
  cbn [default from_option]. destruct train_state.
  - exists (module_train true (modules_of model)
              (module_train false (modules_of model) h)).
    split; [reflexivity|]. split; [by rewrite !module_train_length|].
    intros i Hi. rewrite module_train_lookup by (by rewrite module_train_length).
    rewrite module_train_lookup by done.
    by destruct (bool_decide (i ∈ modules_of model)).
  - exists (module_train false (modules_of model) h).
    split; [reflexivity|]. split; [by rewrite module_train_length|].
    intros i Hi. by rewrite module_train_lookup.
Qed.

Lemma validate_modules_single {B} (val_loader : list B) (h : list bool)
    (model : nat) (noisy_model_ensemble : bool) (model_noise_num : Z) :
  validate_modules (fun m => [m]) val_loader h model noisy_model_ensemble
    model_noise_num
  = validate_mode val_loader h model noisy_model_ensemble model_noise_num.
Proof. reflexivity. Qed.

Lemma noisy_ensemble_fresh (n : nat) (h : list bool) (model : nat) :
  (forall h m, is_Some (h !! m) ->
     (add_noise_to_model h m).2 <> m /\
     (add_noise_to_model h m).1 !! m = h !! m) ->
  is_Some (h !! model) ->
  (noisy_ensemble n h model).1 !! model = h !! model /\
  Forall (fun m => m <> model) (noisy_ensemble n h model).2 /\
  length (noisy_ensemble n h model).2 = n.
Proof.
  intros Hfresh. revert h. induction n as [|n IH]; intros h Hm; [done|].
  cbn [noisy_ensemble].
  destruct (Hfresh h model Hm) as [Hne Hkeep].
  destruct (add_noise_to_model h model) as [h1 noisy_model]. cbn [fst snd] in *.
  destruct (IH h1) as (H1 & H2 & H3); [by rewrite Hkeep|].
  destruct (noisy_ensemble n h1 model) as [h2 ens]. cbn [fst snd] in *.
  split; [by rewrite H1|]. split; [by constructor|]. cbn [length]. by rewrite H3.
Qed.

Lemma validate_batches_last {B} (val_loader : list B) (ens : list nat)
    (model m : nat) :
  val_loader <> [] -> last ens = Some m ->
  validate_batches val_loader ens model = Ok m.
Proof.
  intros Hne Hlast.
  assert (Hstep : forall model0, validate_batch ens model0 = Ok m).
  { intros model0. unfold validate_batch. rewrite Hlast.
    destruct ens; [done|]. done. }
  destruct val_loader as [|b rest]; [done|]. clear Hne.
  revert model. induction rest as [|b' rest IH]; intros model.
  - cbn. by rewrite Hstep.
  - cbn [validate_batches]. rewrite Hstep. cbn [result_bind]. apply IH.
Qed.

Lemma validate_mode_noisy {B} (val_loader : list B) (h : list bool)
    (model : nat) (model_noise_num : Z) :
  (forall h m, is_Some (h !! m) ->
     (add_noise_to_model h m).2 <> m /\
     (add_noise_to_model h m).1 !! m = h !! m) ->
  h !! model = Some true -> val_loader <> [] -> (0 < model_noise_num)%Z ->
  (validate_mode val_loader h model true model_noise_num).2 = Ok tt /\
  (validate_mode val_loader h model true model_noise_num).1 !! model = Some false.
Proof.
  intros Hfresh Hm Hne Hnum. unfold validate_mode. rewrite Hm.
  change (default false (Some true)) with true.
  assert (Hvalid : is_Some (<[model := false]> h !! model)).
  { rewrite list_lookup_insert_eq; [by eexists|]. by eapply lookup_lt_Some. }
  destruct (noisy_ensemble_fresh (Z.to_nat model_noise_num)
              (<[model := false]> h) model Hfresh Hvalid) as (H1 & H2 & H3).
  destruct (noisy_ensemble _ _ _) as [h2 ens]. cbn [fst snd] in *.
  destruct (last ens) as [m|] eqn:Hlast.
  2:{ apply last_None in Hlast. subst ens. simpl in H3. lia. }
  rewrite (validate_batches_last val_loader ens model m) by done.
  cbn [fst snd]. split; [done|].
  assert (Hmne : m <> model).
  { apply last_Some in Hlast as [l' ->]. apply Forall_app in H2 as [_ H2].
    by inversion H2. }
  rewrite list_lookup_insert_ne by done. rewrite H1.
  rewrite list_lookup_insert_eq; [done|]. by eapply lookup_lt_Some.
Qed.

Lemma validate_mode_empty_ensemble {B} (val_loader : list B) (h : list bool)
    (model : nat) (model_noise_num : Z) :
  val_loader <> [] -> (model_noise_num <= 0)%Z ->
  validate_mode val_loader h model true model_noise_num
  = (<[model := false]> h, Err ZeroDivisionError).
Proof.
  intros Hne Hnum. unfold validate_mode.
  replace (Z.to_nat model_noise_num) with 0 by lia. cbn [noisy_ensemble].
  destruct val_loader as [|b rest]; [done|]. reflexivity.
Qed.

End ValidateModeFacts.

(** ** [main_worker]: the global [mask] *)

Section MainWorkerFacts.
Context {F : Type} {W : WeightArith F} {T : Torch F} {U : Utils F}
  {P : MetaPruner F} {K : Worker F}.
Implicit Types (wargs : WorkerArgs F) (fs : files (model F) (mask_dict F))
  (mdl : model F) (mask : binding (option (mask_dict F))).

Lemma truthy_Some (o : option string) :
  truthy o = true -> exists s, o = Some s /\ s <> EmptyString.
Proof.
  destruct o as [s|]; [|done]. simpl. intros Hs. exists s. split; [done|].
  intros ->. done.
Qed.

Lemma resumed_mask_unbound wargs fs mdl (path : string)
    (state : checkpoint (model F) (mask_dict F)) :
  truthy (method (wk_args wargs)) = true ->
  wg (wk_args wargs) = "weight" ->
  resume_path wargs = Some path -> path <> EmptyString ->
  truthy (directly_ft_weights wargs) = false ->
  fs !! path = Some state -> ck_prune_state state = Some "finetune" ->
  main_worker_prune wargs fs mdl Unbound
  = (if truthy (reinit (wk_args wargs))
     then Raised (Builtin AttributeError)
     else Returned (MkWorkerState (ck_snapshot state) Unbound None)) /\
  forall name m rest,
    apply_mask_forward_global Unbound ((name, m) :: rest)
    = Raised (NameError "mask").
Proof.
  intros Hmethod Hwg Hpath Hne Hdirect Hfile Hstate. split; [|done].
  unfold main_worker_prune. rewrite Hmethod.
  assert (Hres : resume_model wargs fs mdl
                 = Returned (ck_snapshot state, "finetune")).
  { unfold resume_model. rewrite Hpath. cbn [truthy default from_option id].
    apply String.eqb_neq in Hne. rewrite Hne. cbn [negb].
    unfold torch_load. rewrite Hfile. cbn [attempt_bind]. by rewrite Hstate. }
  rewrite Hres. cbn [attempt_bind].
  unfold load_directly. rewrite Hdirect. cbn [attempt_bind fst snd].
  change (String.eqb "finetune" "prune") with false. cbn match.
  cbn [attempt_bind]. unfold reinit_after_prune.
  destruct (truthy (reinit (wk_args wargs))); [|done].
  rewrite Hwg. reflexivity.
Qed.

Lemma pruned_mask_bound wargs fs mdl mask (st : WorkerState F) :
  truthy (method (wk_args wargs)) = true ->
  wg (wk_args wargs) = "weight" ->
  truthy (resume_path wargs) = false ->
  truthy (directly_ft_weights wargs) = false ->
  main_worker_prune wargs fs mdl mask = Returned st ->
  exists pruner,
    wk_pruner st = Some pruner /\ wk_mask st = Bound (Some (pr_mask pruner)).
Proof.
  intros Hmethod Hwg Hres Hdirect. unfold main_worker_prune. rewrite Hmethod.
  unfold resume_model. rewrite Hres. cbn [attempt_bind].
  unfold load_directly. rewrite Hdirect. cbn [attempt_bind fst snd].
  change (String.eqb "prune" "prune") with true. cbn match.
  unfold prune_model. rewrite Hwg.
  destruct (new_pruner _ _ _) as [pruner0|]; [|done]. cbn [of_result attempt_bind].
  destruct (outcome (prune pruner0)) as [mdl1|]; [|done].
  cbn [of_result attempt_bind].
  destruct (pruner_after_prune pruner0) as [pruner|]; [|done].
  cbn [of_result attempt_bind].
  destruct (_ || _); [done|]. cbn [attempt_bind].
  change (String.eqb "weight" "weight") with true. cbn match.
  destruct (apply_mask_forward_global _ mdl1) as [mdl2|]; [|done].
  cbn [attempt_bind fst snd].
  destruct (reduction_report _ _ _ _); [|done]. cbn [of_result attempt_bind].
  unfold reinit_after_prune. rewrite Hwg.
  destruct (truthy (reinit (wk_args wargs))).
  - cbn [wk_pruner wk_model attempt_bind].
    change (String.eqb "weight" "weight") with true. cbn match.
    cbn [attempt_bind].
    destruct (reinit_model _ _ _) as [mdl3|]; [|done].
    cbn [of_result attempt_bind]. intros [= <-]. by exists pruner.
  - intros [= <-]. by exists pruner.
Qed.



End MainWorkerFacts.

(** ** The orthogonality regulariser *)

Section OrthRegFacts.
Context {F : Type}.
Implicit Types (mdl : model F) (m : nn_module F).

Lemma cvpr20_term_later (cnt : Z) (name : string) m (w : tensor F) :
  (0 < cnt)%Z -> weight m = Some w -> shape w <> [] ->
  cvpr20_term cnt name m = Ok [cvpr20_distance (name, m)].
Proof.
  intros Hcnt Hw Hs. unfold cvpr20_term, cvpr20_distance. cbn [fst snd].
  rewrite Hw. assert (Hz : (cnt =? 0)%Z = false) by (apply Z.eqb_neq; lia).
  rewrite Hz. cbn [negb].
  destruct (length (shape w) =? 2); [done|]. cbn [orb].
  destruct (last (shape w)) as [d|] eqn:Hlast.
  - destruct (d =? 1) eqn:Hd.
    + apply Nat.eqb_eq in Hd. subst d. by rewrite bool_decide_eq_true_2.
    + apply Nat.eqb_neq in Hd. rewrite bool_decide_eq_false_2; [done|].
      intros [= ->]. done.
  - by apply last_None in Hlast.
Qed.

Lemma orth_reg_terms_cvpr20_later (cnt : Z) mdl :
  (0 <= cnt)%Z ->
  (forall name m, (name, m) ∈ mdl -> is_conv_or_linear m = true ->
                  exists w, weight m = Some w /\ shape w <> []) ->
  orth_reg_terms "CVPR20" cnt mdl
  = Ok (map cvpr20_distance (conv_linear_layers mdl)).
Proof.
  revert cnt. unfold conv_linear_layers.
  induction mdl as [|[name m] rest IH]; intros cnt Hcnt Hw; [done|].
  cbn [orth_reg_terms].
  assert (Hrest : forall name' m', (name', m') ∈ rest -> is_conv_or_linear m' = true ->
                    exists w, weight m' = Some w /\ shape w <> []).
  { intros name' m' Hin. apply (Hw name'). by apply list_elem_of_further. }
  destruct (is_conv_or_linear m) eqn:Hk.
  - rewrite filter_cons_True by done.
    destruct (Hw name m (list_elem_of_here _ _) Hk) as (w & Hwm & Hs).
    change (String.eqb "CVPR20" "CVPR20") with true. cbn match.
    rewrite (cvpr20_term_later _ _ _ w) by (done || lia).
    cbn [result_bind]. rewrite IH by (done || lia). done.
  - rewrite filter_cons_False by (cbn [snd]; congruence).
    by apply IH.
Qed.

Lemma orth_reg_terms_cvpr20 mdl :
  (forall name m, (name, m) ∈ mdl -> is_conv_or_linear m = true ->
                  exists w, weight m = Some w /\ shape w <> []) ->
  orth_reg_terms "CVPR20" (-1) mdl
  = Ok (map cvpr20_distance (tail (conv_linear_layers mdl))).
Proof.
  unfold conv_linear_layers.
  induction mdl as [|[name m] rest IH]; intros Hw; [done|].
  cbn [orth_reg_terms].
  assert (Hrest : forall name' m', (name', m') ∈ rest -> is_conv_or_linear m' = true ->
                    exists w, weight m' = Some w /\ shape w <> []).
  { intros name' m' Hin. apply (Hw name'). by apply list_elem_of_further. }
  destruct (is_conv_or_linear m) eqn:Hk.
  - rewrite filter_cons_True by done. cbn [tail].
    change (String.eqb "CVPR20" "CVPR20") with true. cbn match.
    change (-1 + 1)%Z with 0%Z. unfold cvpr20_term at 1.
    change (negb (0 =? 0)%Z) with false. cbn match. cbn [result_bind].
    rewrite orth_reg_terms_cvpr20_later by (done || lia). done.
  - rewrite filter_cons_False by (cbn [snd]; congruence).
    by apply IH.
Qed.

Lemma orth_reg_terms_cvpr17 (cnt : Z) mdl :
  (forall name m, (name, m) ∈ mdl -> is_conv_or_linear m = true ->
                  is_Some (weight m)) ->
  orth_reg_terms "CVPR17" cnt mdl
  = Ok (map (fun x => OrthDist x.1) (conv_linear_layers mdl)).
Proof.
  revert cnt. unfold conv_linear_layers.
  induction mdl as [|[name m] rest IH]; intros cnt Hw; [done|].
  cbn [orth_reg_terms].
  assert (Hrest : forall name' m', (name', m') ∈ rest -> is_conv_or_linear m' = true ->
                    is_Some (weight m')).
  { intros name' m' Hin. apply (Hw name'). by apply list_elem_of_further. }
  destruct (is_conv_or_linear m) eqn:Hk.
  - rewrite filter_cons_True by done.
    destruct (Hw name m (list_elem_of_here _ _) Hk) as [w Hwm].
    change (String.eqb "CVPR17" "CVPR20") with false.
    change (String.eqb "CVPR17" "CVPR17") with true. cbn match. rewrite Hwm.
    cbn [result_bind]. rewrite IH by done. done.
  - rewrite filter_cons_False by (cbn [snd]; congruence).
    by apply IH.
Qed.

Lemma orth_reg_terms_unknown (method : string) (cnt : Z) mdl :
  method <> "CVPR20" -> method <> "CVPR17" ->
  orth_reg_terms method cnt mdl
  = if existsb (fun '(_, m) => is_conv_or_linear m) mdl
    then Err NotImplementedError else Ok [].
Proof.
  intros H20 H17. apply String.eqb_neq in H20, H17.
  revert cnt. induction mdl as [|[name m] rest IH]; intros cnt; [done|].
  cbn [orth_reg_terms existsb]. destruct (is_conv_or_linear m).
  - by rewrite H20, H17.
  - apply IH.
Qed.

Lemma orth_reg_summands_layers (args : Args F) mdl :
  orth_reg_iter_ft args = true ->
  (forall name m, (name, m) ∈ mdl -> is_conv_or_linear m = true ->
                  exists w, weight m = Some w /\ shape w <> []) ->
  (orth_reg_method args = "CVPR20" ->
   orth_reg_summands args mdl
   = Ok (map cvpr20_distance (tail (conv_linear_layers mdl)))) /\
  (orth_reg_method args = "CVPR17" ->
   orth_reg_summands args mdl
   = Ok (map (fun x => OrthDist x.1) (conv_linear_layers mdl))) /\
  (orth_reg_method args <> "CVPR20" -> orth_reg_method args <> "CVPR17" ->
   orth_reg_summands args mdl
   = if existsb (fun '(_, m) => is_conv_or_linear m) mdl
     then Err NotImplementedError else Ok []).
Proof.
  intros Hft Hw. unfold orth_reg_summands. rewrite Hft. split; [|split].
  - intros ->. by apply orth_reg_terms_cvpr20.
  - intros ->. apply orth_reg_terms_cvpr17. intros name m Hin Hk.
    destruct (Hw name m Hin Hk) as (w & -> & _). by eexists.
  - intros H20 H17. by apply orth_reg_terms_unknown.
Qed.

End OrthRegFacts.

(** ** The plot tool *)

Lemma split_slash_length (s : string) :
  length (split_slash s) = S (count_slash s).
Proof.
  induction s as [|c rest IH]; [done|]. cbn [split_slash count_slash].
  destruct (String.eqb _ "/").
  - cbn [length]. by rewrite IH.
  - destruct (split_slash rest) as [|piece pieces]; [done|].
    cbn [length] in *. lia.
Qed.

Lemma omap_lookup_length {A B} (l : list A) (l' : list B) (k : nat) (js : list nat) :
  length l = length l' ->
  length (omap (fun j => l !! (j * k)) js)
  = length (omap (fun j => l' !! (j * k)) js).
Proof.
  intros Hlen. induction js as [|j js IH]; [done|]. cbn [omap list_omap].
  destruct (l !! (j * k)) as [x|] eqn:Hx.
  - destruct (lookup_lt_is_Some_2 l' (j * k)) as [y Hy].
    { rewrite <- Hlen. by eapply lookup_lt_Some. }
    rewrite Hy. cbn [length]. by rewrite IH.
  - apply lookup_ge_None in Hx. rewrite Hlen in Hx.
    apply lookup_ge_None in Hx. by rewrite Hx.
Qed.

Lemma stride_length {A B} (k : nat) (l : list A) (l' : list B) :
  length l = length l' -> length (stride k l) = length (stride k l').
Proof.
  intros Hlen. unfold stride. rewrite <- Hlen. by apply omap_lookup_length.
Qed.

Lemma slice_step_length {A B} (step : Z) (l : list A) (l' : list B) :
  length l = length l' -> step <> 0%Z ->
  exists xs ys,
    slice_step step l = Returned xs /\ slice_step step l' = Returned ys /\
    length xs = length ys.
Proof.
  intros Hlen Hstep. unfold slice_step.
  assert (Hz : (step =? 0)%Z = false) by (by apply Z.eqb_neq).
  rewrite Hz. destruct (0 <? step)%Z.
  - eexists _, _. split; [done|]. split; [done|]. by apply stride_length.
  - eexists _, _. split; [done|]. split; [done|]. apply stride_length.
    by rewrite !length_reverse.
Qed.

Section PlotFacts.
Context {PU : PlotUtils}.

Lemma scan_line_lengths (lines : list string) (i : nat) (raw : string)
    (c c' : Curves) :
  scan_line lines i raw c = Ok c' ->
  length (jsv c) = length (jsv_epoch c) ->
  length (test_acc c) = length (test_acc_epoch c) ->
  length (jsv c') = length (jsv_epoch c') /\
  length (test_acc c') = length (test_acc_epoch c').
Proof.
  intros Hscan H1 H2. unfold scan_line in Hscan. cbn zeta in Hscan.
  destruct (scan_jsv lines i (strip raw) c) as [c1|] eqn:Hc1; [|done].
  cbn [result_bind] in Hscan.
  assert (length (jsv c1) = length (jsv_epoch c1) /\
          length (test_acc c1) = length (test_acc_epoch c1)) as [G1 G2].
  { unfold scan_jsv in Hc1. destruct (contains "JSV_mean" _); [|by injection Hc1 as <-].
    destruct (parse_value _ "JSV_mean") as [v|]; [|done]. cbn [result_bind] in Hc1.
    match type of Hc1 with result_bind ?r _ = _ => destruct r as [e|] end; [|done].
    cbn [result_bind] in Hc1. injection Hc1 as <-. cbn. rewrite !length_app. cbn. lia. }
  unfold scan_acc in Hscan.
  destruct (contains "Best_Acc1_Epoch" _); [|by injection Hscan as <-].
  destruct (parse_value _ "Acc1") as [a|]; [|done]. cbn [result_bind] in Hscan.
  destruct (parse_value_int _ "Epoch") as [e|]; [|done]. cbn [result_bind] in Hscan.
  injection Hscan as <-. cbn. rewrite !length_app. cbn. lia.
Qed.

Lemma scan_from_lengths (lines todo : list string) (i : nat) (c c' : Curves) :
  scan_from lines todo i c = Ok c' ->
  length (jsv c) = length (jsv_epoch c) ->
  length (test_acc c) = length (test_acc_epoch c) ->
  length (jsv c') = length (jsv_epoch c') /\
  length (test_acc c') = length (test_acc_epoch c').
Proof.
  revert i c. induction todo as [|raw rest IH]; intros i c; cbn [scan_from].
  - by intros [= <-].
  - destruct (scan_line lines i raw c) as [c1|] eqn:Hline; [|done].
    cbn [result_bind]. intros Hrest H1 H2.
    destruct (scan_line_lengths _ _ _ _ _ Hline H1 H2) as [G1 G2].
    by eapply IH.
Qed.

Lemma scan_log_lengths (lines : list string) (c : Curves) :
  scan_log lines = Ok c ->
  length (jsv c) = length (jsv_epoch c) /\
  length (test_acc c) = length (test_acc_epoch c).
Proof. intros Hscan. by eapply scan_from_lengths. Qed.

Lemma one_exp_plot_returns (logs : gmap string (list string))
    (legends : list string) (x_step : Z) (log_file : string) (ix : nat)
    (lines : list string) (c : Curves) :
  logs !! log_file = Some lines -> scan_log lines = Ok c ->
  x_step <> 0%Z -> ix < length legends -> ix < 4 ->
  exists xs ys xs2 ys2 label linestyle rest1 rest2,
    one_exp_plot logs legends x_step log_file ix
    = Returned (Plot Ax1 xs ys label "red" linestyle :: rest1 ++
                Plot Ax2 xs2 ys2 label "blue" linestyle :: rest2) /\
    slice_step x_step (jsv_epoch c) = Returned xs /\
    slice_step x_step (jsv c) = Returned ys /\
    slice_step x_step (test_acc_epoch c) = Returned xs2 /\
    slice_step x_step (test_acc c) = Returned ys2 /\
    length xs = length ys /\ length xs2 = length ys2 /\
    legends !! ix = Some label /\ linestyles !! ix = Some linestyle.
Proof.
  intros Hfile Hscan Hstep Hleg Hix.
  destruct (scan_log_lengths _ _ Hscan) as [L1 L2].
  destruct (slice_step_length x_step (jsv_epoch c) (jsv c)) as (xs & ys & Hxs & Hys & Hl);
    [done|done|].
  destruct (slice_step_length x_step (test_acc_epoch c) (test_acc c))
    as (xs2 & ys2 & Hxs2 & Hys2 & Hl2); [done|done|].
  destruct (lookup_lt_is_Some_2 legends ix Hleg) as [label Hlabel].
  destruct (lookup_lt_is_Some_2 linestyles ix) as [linestyle Hstyle]; [done|].
  exists xs, ys, xs2, ys2, label, linestyle.
  unfold one_exp_plot. rewrite Hfile. cbn [attempt_bind]. rewrite Hscan.
  cbn [of_result attempt_bind]. rewrite Hxs, Hys, Hxs2, Hys2.
  cbn [attempt_bind]. unfold getitem. rewrite Hlabel, Hstyle.
  cbn [attempt_bind colors lookup list_lookup]. unfold ax_plot.
  apply Nat.eqb_eq in Hl, Hl2. rewrite Hl, Hl2. cbn [attempt_bind].
  eexists [_], _. split; [reflexivity|].
  apply Nat.eqb_eq in Hl, Hl2. done.
Qed.

Lemma one_exp_plot_needs (logs : gmap string (list string))
    (legends : list string) (x_step : Z) (log_file : string) (ix : nat)
    (evs : list plot_event) :
  one_exp_plot logs legends x_step log_file ix = Returned evs ->
  x_step <> 0%Z /\ ix < length legends /\ ix < 4.
Proof.
  unfold one_exp_plot. destruct (logs !! log_file) as [lines|]; [|done].
  cbn [attempt_bind]. destruct (scan_log lines) as [c|]; [|done].
  cbn [of_result attempt_bind]. unfold slice_step at 1.
  destruct (x_step =? 0)%Z eqn:Hz; [done|]. apply Z.eqb_neq in Hz.
  match goal with |- attempt_bind ?r _ = _ -> _ => destruct r as [xs|] end; [|done].
  cbn [attempt_bind].
  match goal with |- attempt_bind ?r _ = _ -> _ => destruct r as [ys|] end; [|done].
  cbn [attempt_bind]. unfold getitem at 1.
  destruct (legends !! ix) as [label|] eqn:Hlabel; [|done]. cbn [attempt_bind].
  unfold getitem at 1. cbn [colors lookup list_lookup attempt_bind].
  unfold getitem at 1.
  destruct (linestyles !! ix) as [linestyle|] eqn:Hstyle; [|done].
  intros _. split; [done|]. split.
  - by eapply lookup_lt_Some.
  - apply lookup_lt_Some in Hstyle. exact Hstyle.
Qed.

Lemma plot_experiments_needs (logs : gmap string (list string))
    (legends : list string) (x_step : Z) (log_name : string)
    (exp_ids : list string) (ix : nat) (evs : list plot_event) :
  plot_experiments logs legends x_step log_name exp_ids ix = Returned evs ->
  exp_ids <> [] ->
  x_step <> 0%Z /\ ix + length exp_ids <= length legends /\
  ix + length exp_ids <= 4.
Proof.
  revert ix evs. induction exp_ids as [|exp_id rest IH]; intros ix evs; [done|].
  cbn [plot_experiments]. cbn zeta.
  match goal with |- attempt_bind ?r _ = _ -> _ => destruct r as [evs1|] eqn:Hone end;
    [|done].
  cbn [attempt_bind].
  destruct (plot_experiments logs legends x_step log_name rest (S ix))
    as [more|] eqn:Hmore; [|done].
  intros _ _. apply one_exp_plot_needs in Hone as (Hstep & Hleg & Hix).
  split; [done|]. destruct rest as [|exp_id' rest'].
  - cbn [length]. lia.
  - destruct (IH _ _ Hmore) as (_ & G1 & G2); [done|]. cbn [length] in *. lia.
Qed.

Lemma plot_script_needs (args : PlotArgs) (logs : gmap string (list string))
    (evs : list plot_event) :
  plot_script args logs = Returned evs ->
  plot_x_step args <> 0%Z /\
  count_slash (plot_exp_ids args) <= count_slash (plot_legends args) /\
  count_slash (plot_exp_ids args) <= 3.
Proof.
  unfold plot_script.
  destruct (plot_experiments _ _ _ _ _ _) as [evs1|] eqn:Hplot; [|done].
  intros _. apply plot_experiments_needs in Hplot as (Hstep & Hleg & Hix).
  - rewrite !split_slash_length in *. split; [done|]. lia.
  - intros Hnil. apply (f_equal length) in Hnil.
    by rewrite split_slash_length in Hnil.
Qed.

Lemma scan_from_app (lines pre : list string) (raw : string) (i : nat)
    (c c' : Curves) :
  scan_from lines (pre ++ [raw]) i c = Ok c' ->
  exists c1, scan_line lines (i + length pre) raw c1 = Ok c'.
Proof.
  revert i c. induction pre as [|x pre IH]; intros i c; cbn [app scan_from].
  - destruct (scan_line lines i raw c) as [c1|] eqn:Hline; [|done].
    cbn [result_bind]. intros [= <-]. exists c. cbn [length].
    by rewrite Nat.add_0_r.
  - destruct (scan_line lines i x c) as [c1|]; [|done]. cbn [result_bind].
    intros Hrest. destruct (IH _ _ Hrest) as [c2 Hc2]. exists c2.
    cbn [length]. by replace (i + S (length pre)) with (S i + length pre) by lia.
Qed.

Lemma scan_log_last_line (pre : list string) (raw : string) :
  contains "JSV_mean" (strip raw) = true ->
  contains "Epoch" (strip raw) = false ->
  is_ok (scan_log (pre ++ [raw])) = false.
Proof.
  intros Hjsv Hepoch. unfold scan_log.
  destruct (scan_from _ _ _ _) as [c'|] eqn:Hscan; [|done]. exfalso.
  apply scan_from_app in Hscan as [c1 Hline].
  unfold scan_line, scan_jsv in Hline. cbn zeta in Hline.
  rewrite Hjsv, Hepoch in Hline.
  assert (Hnext : (pre ++ [raw]) !! (0 + length pre + 1) = None).
  { apply lookup_ge_None. rewrite length_app. cbn. lia. }
  rewrite Hnext in Hline.
  destruct (parse_value (strip raw) "JSV_mean"); done.
Qed.

End PlotFacts.

(** ** The reinitialisers: what they leave and what they read *)

(** X2: both isometry routines of l1_pruner.py touch Conv/FC modules only.
    When [approximate_isometry_optimize] or
    [exact_isometry_based_on_existing_weights] returns, the model has as many
    modules as before, and every module that is neither a convolution nor a
    fully-connected layer is at its place with its name and its weight as
    they were. *)
Theorem X2_isometry_leaves_other_modules {F : Type} {W : WeightArith F}
    {T : Torch F} {U : Utils F} (mdl mdl' : model F)
    (mask : option (mask_dict F)) (lr : F) (n_iter : nat) :
  outcome (approximate_isometry_optimize mdl mask lr n_iter) = Ok mdl' \/
  outcome (exact_isometry_based_on_existing_weights mdl) = Ok mdl' ->
  length mdl' = length mdl /\
  forall i name m,
    mdl !! i = Some (name, m) -> is_conv_or_linear m = false ->
    mdl' !! i = Some (name, m).
Proof. apply isometry_frame. Qed.

Lemma X2_isometry_leaves_other_modules_witness :
  outcome (approximate_isometry_optimize bn_fc_model None 1%Z 3)
  = Ok bn_fc_model_reinit /\
  length bn_fc_model_reinit = length bn_fc_model /\
  bn_fc_model_reinit !! 0 = Some ("bn", Mod BatchNorm2d (Some (Tensor [2] [1; 1]%Z))).
Proof.
  assert (Hrun : outcome (approximate_isometry_optimize bn_fc_model None 1%Z 3)
                 = Ok bn_fc_model_reinit) by (vm_compute; reflexivity).
  split; [exact Hrun|].
  destruct (X2_isometry_leaves_other_modules (U := demo_utils) bn_fc_model
              bn_fc_model_reinit None 1%Z 3 (or_introl Hrun)) as [Hlen Hkeep].
  split; [exact Hlen|]. apply Hkeep; reflexivity.
Defined.

(** X3: [exact_isometry_based_on_existing_weights] replaces the weight of
    every Conv/FC layer by [orthogonalize_weights] of that weight and leaves
    everything else, whenever the orthogonalised tensor has the shape of the
    weight (with as many entries as the shape says). *)
Theorem X3_exact_isometry_orthogonalizes {F : Type} {W : WeightArith F}
    {U : Utils F} (mdl : model F) :
  (forall name m,
     (name, m) ∈ mdl -> is_conv_or_linear m = true ->
     exists w, weight m = Some w /\
               shape (orthogonalize_weights w) = shape w /\
               wf_tensor (orthogonalize_weights w)) ->
  outcome (exact_isometry_based_on_existing_weights mdl)
  = Ok (model_apply orthogonalized mdl).
Proof. apply exact_isometry_orthogonalized. Qed.

Lemma X3_exact_isometry_orthogonalizes_witness :
  outcome (exact_isometry_based_on_existing_weights bn_fc_model)
  = Ok (model_apply orthogonalized bn_fc_model).
Proof.
  apply (X3_exact_isometry_orthogonalizes (U := demo_utils) bn_fc_model).
  intros name m Hin Hk.
  apply elem_of_cons in Hin as [Hin|Hin]; [injection Hin as -> ->; discriminate|].
  apply list_elem_of_singleton in Hin. injection Hin as -> ->.
  exists fc_weight. repeat split.
Defined.

(** X4: the mask of the pruner object is read by one strategy in one mode.
    Outside mask mode, or with any [args.reinit] other than
    approximate_isometry, the reinitialisation of [prune] does the same
    (same events, same result or error) whatever the mask holds. *)
Theorem X4_mask_read_only_by_approximate_isometry {F : Type}
    {W : WeightArith F} {T : Torch F} {U : Utils F} {P : MetaPruner F}
    (mdl : model F) (mask1 mask2 : mask_dict F) (args : Args F) :
  wg args <> "weight" \/ reinit args <> Some "approximate_isometry" ->
  prune_reinit (MkPruner mdl mask1 args) = prune_reinit (MkPruner mdl mask2 args).
Proof. apply prune_reinit_mask_irrelevant. Qed.

Lemma X4_mask_read_only_by_approximate_isometry_witness :
  prune_reinit (MkPruner fc_model fc_masks
                  (demo_args (Some "exact_isometry") "weight" (Some "L1")))
  = prune_reinit (MkPruner fc_model ∅
                    (demo_args (Some "exact_isometry") "weight" (Some "L1"))).
Proof.
  apply (X4_mask_read_only_by_approximate_isometry (P := demo_meta_pruner)).
  right. discriminate.
Defined.

(** ** [apply_mask_forward]: what it keeps and when it raises *)

(** X5: what [apply_mask_forward] keeps.  With masks shaped like the
    weights, when it returns, a module with no entry in the mask is as it
    was; a module with an entry keeps its kind and the shape of its weight,
    and every entry of the weight at a position where the mask is 1 keeps
    its value. *)
Theorem X5_mask_keeps_unpruned_entries {F : Type} {W : WeightArith F}
    (mask : mask_dict F) (mdl mdl' : model F) :
  mask_fits mask mdl ->
  outcome (apply_mask_forward mask mdl) = Ok mdl' ->
  forall i name m,
    mdl !! i = Some (name, m) ->
    match mask !! name with
    | None => mdl' !! i = Some (name, m)
    | Some mt =>
        exists w w',
          weight m = Some w /\ mdl' !! i = Some (name, set_weight m w') /\
          shape w' = shape w /\
          forall j x, data mt !! j = Some fone -> data w !! j = Some x ->
                      data w' !! j = Some x
    end.
Proof. apply apply_mask_forward_kept. Qed.

Lemma X5_mask_keeps_unpruned_entries_witness :
  exists w w',
    weight (Mod Linear (Some fc_weight)) = Some w /\
    fc_model_zeroed !! 0 = Some ("fc", set_weight (Mod Linear (Some fc_weight)) w') /\
    shape w' = shape w /\
    forall j x, data fc_mask !! j = Some 1%Z -> data w !! j = Some x ->
                data w' !! j = Some x.
Proof.
  assert (Hrun : outcome (apply_mask_forward fc_masks fc_model) = Ok fc_model_zeroed)
    by (vm_compute; reflexivity).
  exact (X5_mask_keeps_unpruned_entries (F := Z) fc_masks fc_model fc_model_zeroed
           fc_masks_fit Hrun 0 "fc" (Mod Linear (Some fc_weight)) eq_refl).
Defined.


(** ** [train] and [finetune]: the steps of a run *)

(** X7: the weight updates of a finetuning run that returns.  Over
    [epochs - start_epoch] epochs there is one optimiser step per training
    batch of every epoch, and one mask re-application per optimiser step when
    a pruning method is set and [wg] is "weight" -- and none at all
    otherwise. *)
Theorem X7_finetune_step_counts {F : Type} {W : WeightArith F} {Tr : Training F}
    (args : Args F) (mask : mask_dict F) (train_loader val_loader : list Batch)
    (start_epoch epochs : nat) (st : OptState) (mdl : model F)
    (r : OptState * model F) :
  outcome (finetune args mask train_loader val_loader start_epoch epochs st mdl)
  = Ok r ->
  count_events is_optimizer_step
    (trace (finetune args mask train_loader val_loader start_epoch epochs st mdl))
  = (epochs - start_epoch) * length train_loader /\
  count_events is_apply_mask
    (trace (finetune args mask train_loader val_loader start_epoch epochs st mdl))
  = if mask_mode args then (epochs - start_epoch) * length train_loader else 0.
Proof. intros Hout. by destruct (finetune_epochs_counts _ _ _ _ _ _ _ _ Hout) as [_ ?]. Qed.

Lemma X7_finetune_step_counts_witness :
  count_events is_optimizer_step
    (trace (finetune (demo_args None "weight" (Some "L1")) fc_masks [0; 1] [5] 0 2 tt
              fc_model))
  = (2 - 0) * length [0; 1] /\
  count_events is_apply_mask
    (trace (finetune (demo_args None "weight" (Some "L1")) fc_masks [0; 1] [5] 0 2 tt
              fc_model))
  = (2 - 0) * length [0; 1].
Proof.
  assert (Hrun : { r | outcome (finetune (demo_args None "weight" (Some "L1")) fc_masks
                                  [0; 1] [5] 0 2 tt fc_model) = Ok r })
    by (eexists; vm_compute; reflexivity).
  destruct Hrun as [r Hrun].
  exact (X7_finetune_step_counts (Tr := demo_training)
           (demo_args None "weight" (Some "L1")) fc_masks [0; 1] [5] 0 2 tt fc_model
           r Hrun).
Defined.

(** X8: an orthogonality regulariser that [train] does not know stops the
    run before any weight is updated.  With [args.orth_reg_iter_ft] set, a
    method other than CVPR20 and CVPR17 and a model with a Conv/FC layer,
    [train] on a loader that is not empty does not return, and it takes no
    optimiser step and re-applies no mask: the regulariser of the first
    batch raises. *)
Theorem X8_unknown_orth_reg_stops_train {F : Type} {W : WeightArith F}
    {Tr : Training F} (args : Args F) (mask : mask_dict F) (b : Batch)
    (rest : list Batch) (st : OptState) (mdl : model F) :
  orth_reg_iter_ft args = true ->
  orth_reg_method args <> "CVPR20" -> orth_reg_method args <> "CVPR17" ->
  (exists name m, (name, m) ∈ mdl /\ is_conv_or_linear m = true) ->
  is_ok (outcome (train args mask (b :: rest) st mdl)) = false /\
  count_events is_optimizer_step (trace (train args mask (b :: rest) st mdl)) = 0 /\
  count_events is_apply_mask (trace (train args mask (b :: rest) st mdl)) = 0.
Proof.
  intros Hft H20 H17 Hlayer.
  by rewrite (train_unsupported_orth_reg args mask b rest st mdl Hft H20 H17 Hlayer).
Qed.

Lemma X8_unknown_orth_reg_stops_train_witness :
  is_ok (outcome (train (orth_args "SRIP") fc_masks [0; 1] tt fc_model)) = false /\
  count_events is_optimizer_step
    (trace (train (orth_args "SRIP") fc_masks [0; 1] tt fc_model)) = 0 /\
  count_events is_apply_mask
    (trace (train (orth_args "SRIP") fc_masks [0; 1] tt fc_model)) = 0.
Proof.
  apply (X8_unknown_orth_reg_stops_train (Tr := demo_training) (orth_args "SRIP")
           fc_masks 0 [1] tt fc_model); [reflexivity|discriminate|discriminate|].
  exists "fc", (Mod Linear (Some fc_weight)). split; [|reflexivity].
  apply list_elem_of_here.
Defined.

(** ** The reduction report: when it is defined *)

(** X9: the reduction report needs four positive counts.  If the report
    is computed, the parameters and the FLOPs are positive before pruning
    and after it: an empty original, and a model pruned to no parameters or
    to no FLOPs (its reduction ratio is 1), make the report raise
    [ZeroDivisionError]. *)
Theorem X9_report_needs_positive_counts (params_before flops_before params_after
    flops_after : nat) :
  is_ok (reduction_report params_before flops_before params_after flops_after)
  = true ->
  0 < params_before /\ 0 < flops_before /\ 0 < params_after /\ 0 < flops_after.
Proof. apply reduction_report_defined. Qed.

Lemma X9_report_needs_positive_counts_witness :
  0 < 100 /\ 0 < 1000 /\ 0 < 25 /\ 0 < 400.
Proof. apply (X9_report_needs_positive_counts 100 1000 25 400). reflexivity. Defined.

(** X10: for a model that pruning has not made larger, the reported
    reduction ratios lie in [0, 1) and the compression and speedup ratios
    are at least 1. *)
Theorem X10_report_ranges (params_before flops_before params_after
    flops_after : nat) (r : report) :
  reduction_report params_before flops_before params_after flops_after = Ok r ->
  params_after <= params_before -> flops_after <= flops_before ->
  (0 <= ratio_param r)%Q /\ (ratio_param r < 1)%Q /\
  (0 <= ratio_flops r)%Q /\ (ratio_flops r < 1)%Q /\
  (1 <= compression_ratio r)%Q /\ (1 <= speedup_ratio r)%Q.
Proof. apply reduction_report_bounds. Qed.

Lemma X10_report_ranges_witness :
  (0 <= (count 100 - count 25) / count 100)%Q /\
  ((count 100 - count 25) / count 100 < 1)%Q /\
  (0 <= (count 1000 - count 400) / count 1000)%Q /\
  ((count 1000 - count 400) / count 1000 < 1)%Q /\
  (1 <= 1 / (1 - (count 100 - count 25) / count 100))%Q /\
  (1 <= 1 / (1 - (count 1000 - count 400) / count 1000))%Q.
Proof.
  exact (X10_report_ranges 100 1000 25 400
           (MkReport ((count 100 - count 25) / count 100)
                     ((count 1000 - count 400) / count 1000)
                     (1 / (1 - (count 100 - count 25) / count 100))
                     (1 / (1 - (count 1000 - count 400) / count 1000)))
           eq_refl ltac:(lia) ltac:(lia)).
Defined.

(** ** Processes *)

(** X11: the global ranks of multiprocessing.  On [nodes] nodes with
    [ngpus_per_node] processes each, the rank that [main_worker] computes
    lies below the world size that [main] computes, two processes with the
    same rank are the same process, and the process that saves the
    checkpoints of [finetune] is the one of GPU 0 on every node. *)
Theorem X11_global_ranks (nodes ngpus_per_node rank gpu rank' gpu' : Z) :
  (0 <= rank < nodes)%Z -> (0 <= gpu < ngpus_per_node)%Z ->
  (0 <= rank' < nodes)%Z -> (0 <= gpu' < ngpus_per_node)%Z ->
  (0 <= global_rank rank ngpus_per_node gpu
   < main_world_size true ngpus_per_node nodes)%Z /\
  (global_rank rank ngpus_per_node gpu = global_rank rank' ngpus_per_node gpu' ->
   rank = rank' /\ gpu = gpu') /\
  saves_checkpoint true (global_rank rank ngpus_per_node gpu) ngpus_per_node
  = Ok (gpu =? 0)%Z.
Proof.
  intros Hr Hg Hr' Hg'. split; [by apply global_rank_range|]. split.
  - by apply global_rank_inj.
  - by apply global_rank_saves.
Qed.

Lemma X11_global_ranks_witness :
  (0 <= global_rank 1 4 3 < main_world_size true 4 2)%Z /\
  (global_rank 1 4 3 = global_rank 0 4 0 -> 1%Z = 0%Z /\ 3%Z = 0%Z) /\
  saves_checkpoint true (global_rank 1 4 3) 4 = Ok (3 =? 0)%Z.
Proof.
  apply (X11_global_ranks 2 4 1 3 0 0); lia.
Defined.

(** ** The learning-rate schedule *)

(** X13: with linear decay, [adjust_learning_rate_v2] keeps the learning
    rate between 0 and [args.lr] at every iteration of every epoch of the
    run, during warm-up and after it; it writes the value it returns into
    every parameter group; and the first iteration after the warm-up runs at
    [args.lr] exactly. *)
Theorem X13_linear_schedule_range {PM : PyMath} (args : LRArgs) (a : AdvancedLR)
    (param_groups : list Q) (epoch iteration num_iter : Z) :
  advanced_lr args = Some a -> lr_decay a = "linear" ->
  (0 <= args_lr args)%Q ->
  (0 <= epoch < args_epochs args)%Z -> (0 <= iteration < num_iter)%Z ->
  exists lr,
    adjust_learning_rate_v2 args param_groups epoch iteration num_iter
    = Returned (lr, map (fun _ => lr) param_groups) /\
    (0 <= lr)%Q /\ (lr <= args_lr args)%Q /\
    (epoch = warmup_epoch a -> iteration = 0%Z -> (lr == args_lr args)%Q).
Proof. apply learning_rate_range. Qed.

Lemma X13_linear_schedule_range_witness :
  exists lr,
    adjust_learning_rate_v2 (PM := demo_math) (lr_args "linear") [1; 1]%Q 2 0 100
    = Returned (lr, map (fun _ => lr) [1; 1]%Q) /\
    (0 <= lr)%Q /\ (lr <= 1 # 10)%Q /\
    (2%Z = 2%Z -> 0%Z = 0%Z -> (lr == 1 # 10)%Q).
Proof.
  apply (X13_linear_schedule_range (PM := demo_math) (lr_args "linear")
           (MkAdvancedLR 2 "linear" (1 # 10) [3; 6; 9]%Z) [1; 1]%Q 2 0 100);
    [reflexivity | reflexivity | unfold Qle; simpl; lia | simpl; lia | lia].
Defined.

(** X14: in schedule mode the learning rate changes at the milestones
    only.  After the warm-up, with [gamma] between 0 and 1,
    [adjust_learning_rate_v2] returns at every iteration, whatever
    [num_iter]; and at two epochs with no milestone between them it returns
    the same rate, whatever the two iterations. *)
Theorem X14_schedule_constant_between_milestones {PM : PyMath} (args : LRArgs)
    (a : AdvancedLR) (param_groups : list Q)
    (epoch epoch' iteration iteration' num_iter num_iter' : Z) :
  advanced_lr args = Some a -> lr_decay a = "schedule" ->
  (0 <= gamma a)%Q -> (gamma a <= 1)%Q ->
  (warmup_epoch a <= epoch)%Z -> (epoch <= epoch')%Z ->
  (forall s, s ∈ schedule a -> ~ (epoch < s <= epoch')%Z) ->
  exists lr,
    adjust_learning_rate_v2 args param_groups epoch iteration num_iter
    = Returned (lr, map (fun _ => lr) param_groups) /\
    adjust_learning_rate_v2 args param_groups epoch' iteration' num_iter'
    = Returned (lr, map (fun _ => lr) param_groups).
Proof.
  intros Ha Hmode _ _ Hw He Hno.
  rewrite !(adjust_schedule args a) by (done || lia). cbn zeta.
  rewrite (milestones_same _ epoch epoch') by done. by eexists.
Qed.

Lemma schedule_no_milestone (s : Z) : s ∈ [3; 6; 9]%Z -> ~ (4 < s <= 5)%Z.
Proof.
  intros Hs. repeat (apply elem_of_cons in Hs as [->|Hs]; [lia|]).
  by apply elem_of_nil in Hs.
Qed.

Lemma X14_schedule_constant_between_milestones_witness :
  exists lr,
    adjust_learning_rate_v2 (PM := demo_math) (lr_args "schedule") [1]%Q 4 0 100
    = Returned (lr, map (fun _ => lr) [1]%Q) /\
    adjust_learning_rate_v2 (PM := demo_math) (lr_args "schedule") [1]%Q 5 50 100
    = Returned (lr, map (fun _ => lr) [1]%Q).
Proof.
  apply (X14_schedule_constant_between_milestones (PM := demo_math)
           (lr_args "schedule") (MkAdvancedLR 2 "schedule" (1 # 10) [3; 6; 9]%Z)
           [1]%Q 4 5 0 50 100 100);
    [reflexivity | reflexivity | unfold Qle; simpl; lia | unfold Qle; simpl; lia
    | simpl; lia | lia | exact schedule_no_milestone].
Defined.

(** X15: a decay mode that [adjust_learning_rate_v2] does not know goes
    unnoticed during the warm-up, where the mode is not looked at, and raises
    [ValueError] at the first iteration after it. *)
Theorem X15_unknown_decay_mode {PM : PyMath} (args : LRArgs) (a : AdvancedLR)
    (param_groups : list Q) (epoch iteration num_iter : Z) :
  advanced_lr args = Some a -> lr_decay a ∉ lr_decay_modes ->
  (0 <= epoch)%Z -> (0 < num_iter)%Z ->
  if (epoch <? warmup_epoch a)%Z
  then returns (adjust_learning_rate_v2 args param_groups epoch iteration
                  num_iter) = true
  else adjust_learning_rate_v2 args param_groups epoch iteration num_iter
       = Raised (ValueError ("Unknown lr mode " ++ lr_decay a)).
Proof. apply unknown_lr_mode. Qed.

Lemma lr_decay_modes_exp : "exp" ∉ lr_decay_modes.
Proof.
  unfold lr_decay_modes. intros Hin.
  repeat (apply elem_of_cons in Hin as [Hin|Hin]; [discriminate|]).
  by apply elem_of_nil in Hin.
Qed.

Lemma X15_unknown_decay_mode_witness :
  returns (adjust_learning_rate_v2 (PM := demo_math) (lr_args "exp") [1]%Q 1 0 100)
  = true /\
  adjust_learning_rate_v2 (PM := demo_math) (lr_args "exp") [1]%Q 2 0 100
  = Raised (ValueError "Unknown lr mode exp").
Proof.
  split.
  - exact (X15_unknown_decay_mode (PM := demo_math) (lr_args "exp")
             (MkAdvancedLR 2 "exp" (1 # 10) [3; 6; 9]%Z) [1]%Q 1 0 100
             eq_refl lr_decay_modes_exp ltac:(lia) ltac:(lia)).
  - exact (X15_unknown_decay_mode (PM := demo_math) (lr_args "exp")
             (MkAdvancedLR 2 "exp" (1 # 10) [3; 6; 9]%Z) [1]%Q 2 0 100
             eq_refl lr_decay_modes_exp ltac:(lia) ltac:(lia)).
Defined.

(** ** Checkpoints *)

(** X16: the files of [save_model].  After the call, checkpoint.pth holds
    the saved state; so does checkpoint_best.pth when [is_best] is set, and
    the marked file when [mark] is not empty; every file holds the saved
    state or what it held before; and a path other than these is untouched
    (so the best checkpoint survives every save with [is_best] unset, other
    than one marked "best"). *)
Theorem X16_save_model_files {Snapshot Mask : Type} (weights_path : string)
    (state : checkpoint Snapshot Mask) (is_best : bool) (mark : string)
    (fs : files Snapshot Mask) :
  save_model weights_path state is_best mark fs
    !! pjoin weights_path "checkpoint.pth" = Some state /\
  (is_best = true ->
   save_model weights_path state is_best mark fs
     !! pjoin weights_path "checkpoint_best.pth" = Some state) /\
  (mark <> EmptyString ->
   save_model weights_path state is_best mark fs
     !! pjoin weights_path ("checkpoint_" ++ mark ++ ".pth") = Some state) /\
  (forall p,
     save_model weights_path state is_best mark fs !! p = Some state \/
     save_model weights_path state is_best mark fs !! p = fs !! p) /\
  (forall p,
     p <> pjoin weights_path "checkpoint.pth" ->
     (is_best = true -> p <> pjoin weights_path "checkpoint_best.pth") ->
     (mark <> EmptyString ->
      p <> pjoin weights_path ("checkpoint_" ++ mark ++ ".pth")) ->
     save_model weights_path state is_best mark fs !! p = fs !! p).
Proof. exact (save_model_files weights_path state is_best mark fs). Qed.

(** ** The bookkeeping of [finetune] *)

(** X17: what [finetune] returns as best, and where it is saved.  When
    [finetune] returns, the best accuracy comes from an epoch of the run
    that beat the accuracy it was started with and every epoch before it,
    and that no later epoch beat: the first epoch of maximal accuracy; the
    two best losses are those of that epoch.  With a pruning method set, in
    the process that saves, checkpoint_best.pth then holds the state of that
    epoch and checkpoint.pth the state of the last one, each with the mask
    in mask mode. *)
Theorem X17_best_epoch {Snapshot Mask : Type} {Fmt : PyFormat}
    (args : FinetuneArgs) (mask : binding Mask) (runs : Z -> @EpochRun Snapshot)
    (model : Snapshot) (best_acc1_0 : Q) (best_acc1_epoch_0 : Z)
    (fs : files Snapshot Mask) (r : FinetuneResult) :
  finetune_bookkeeping args mask runs model best_acc1_0 best_acc1_epoch_0 fs
  = Returned r ->
  exists e,
    (ft_start_epoch args <= e < ft_epochs args)%Z /\
    (r.(res_best).1.1 == run_acc1 (runs e))%Q /\
    r.(res_best).1.2 = run_loss_train (runs e) /\
    r.(res_best).2 = run_loss_test (runs e) /\
    (best_acc1_0 < run_acc1 (runs e))%Q /\
    (forall e', (ft_start_epoch args <= e' < e)%Z ->
                (run_acc1 (runs e') < run_acc1 (runs e))%Q) /\
    (forall e', (ft_start_epoch args <= e' < ft_epochs args)%Z ->
                (run_acc1 (runs e') <= run_acc1 (runs e))%Q) /\
    (truthy (ft_method args) = true ->
     saves_checkpoint (ft_multiprocessing_distributed args) (ft_rank args)
       (ft_ngpus_per_node args) = Ok true ->
     mask_ready args mask ->
     r.(res_files) !! pjoin (ft_weights_path args) "checkpoint_best.pth"
     = Some (epoch_state args mask runs e) /\
     r.(res_files) !! pjoin (ft_weights_path args) "checkpoint.pth"
     = Some (epoch_state args mask runs (ft_epochs args - 1))).
Proof. apply finetune_best_epoch. Qed.

Lemma demo_mask_ready : mask_ready demo_finetune_args (Bound 7).
Proof. intros _. by exists 7. Qed.

Lemma X17_best_epoch_witness :
  exists r e,
    finetune_bookkeeping demo_finetune_args (Bound 7) demo_runs 0 0%Q 0%Z ∅
    = Returned r /\
    (0 <= e < 3)%Z /\
    (r.(res_best).1.1 == run_acc1 (demo_runs e))%Q /\
    (forall e', (0 <= e' < 3)%Z ->
                (run_acc1 (demo_runs e') <= run_acc1 (demo_runs e))%Q) /\
    r.(res_files) !! pjoin "weights" "checkpoint_best.pth"
    = Some (epoch_state demo_finetune_args (Bound 7) demo_runs e) /\
    r.(res_files) !! pjoin "weights" "checkpoint.pth"
    = Some (epoch_state demo_finetune_args (Bound 7) demo_runs (3 - 1)).
Proof.
  assert (Hrun : { r | finetune_bookkeeping demo_finetune_args (Bound 7)
                         demo_runs 0 0%Q 0%Z ∅ = Returned r })
    by (eexists; vm_compute; reflexivity).
  destruct Hrun as [r Hrun].
  destruct (X17_best_epoch demo_finetune_args (Bound 7) demo_runs 0 0%Q 0%Z ∅ r Hrun)
    as (e & He & Hbest & _ & _ & _ & _ & Hmax & Hfiles).
  destruct (Hfiles eq_refl eq_refl demo_mask_ready) as [Hb Hc].
  exists r, e. split; [exact Hrun|]. split; [exact He|]. split; [exact Hbest|].
  split; [exact Hmax|]. split; [exact Hb|exact Hc].
Defined.

(** X18: [finetune] returns if and only if some epoch improves on the
    accuracy it was started with.  With the global [mask] bound in mask mode
    and a GPU to divide by under multiprocessing, if no epoch of the run has
    an accuracy above the initial [best_acc1] -- for one, if the run has no
    epoch -- [finetune] raises [UnboundLocalError] on [best_loss_train] at its
    last statement, after all the training; if some epoch has, it returns. *)
Theorem X18_no_improvement_no_return {Snapshot Mask : Type} {Fmt : PyFormat}
    (args : FinetuneArgs) (mask : binding Mask) (runs : Z -> @EpochRun Snapshot)
    (model : Snapshot) (best_acc1_0 : Q) (best_acc1_epoch_0 : Z)
    (fs : files Snapshot Mask) :
  mask_ready args mask ->
  (ft_multiprocessing_distributed args = true -> ft_ngpus_per_node args <> 0%Z) ->
  ((forall e, (ft_start_epoch args <= e < ft_epochs args)%Z ->
              (run_acc1 (runs e) <= best_acc1_0)%Q) ->
   finetune_bookkeeping args mask runs model best_acc1_0 best_acc1_epoch_0 fs
   = Raised (UnboundLocalError "best_loss_train")) /\
  ((exists e, (ft_start_epoch args <= e < ft_epochs args)%Z /\
              (best_acc1_0 < run_acc1 (runs e))%Q) ->
   returns (finetune_bookkeeping args mask runs model best_acc1_0
              best_acc1_epoch_0 fs) = true).
Proof. apply finetune_never_improved. Qed.

Lemma demo_runs_below (e : Z) : (run_acc1 (demo_runs e) <= 90)%Q.
Proof.
  unfold demo_runs. cbn [run_acc1].
  destruct (e =? 0)%Z; [|destruct (e =? 1)%Z]; unfold Qle; simpl; lia.
Qed.

Lemma X18_no_improvement_no_return_witness :
  finetune_bookkeeping demo_finetune_args (Bound 7) demo_runs 0 90%Q 0%Z ∅
  = Raised (UnboundLocalError "best_loss_train") /\
  returns (finetune_bookkeeping demo_finetune_args (Bound 7) demo_runs 0 0%Q 0%Z ∅)
  = true.
Proof.
  split.
  - apply (X18_no_improvement_no_return demo_finetune_args (Bound 7) demo_runs
             0 90%Q 0%Z ∅ demo_mask_ready); [discriminate|].
    intros e _. apply demo_runs_below.
  - apply (X18_no_improvement_no_return demo_finetune_args (Bound 7) demo_runs
             0 0%Q 0%Z ∅ demo_mask_ready); [discriminate|].
    exists 1%Z. split; [simpl; lia|]. unfold Qlt. simpl. lia.
Defined.

(** X19: the window of the last epochs.  The accuracies that [finetune]
    averages are [acc1_list[-args.last_n_epoch:]] of the accuracies of all
    epochs of the run: the last [last_n_epoch] of them when that number is
    positive -- and all of them when it is 0. *)
Theorem X19_last_epochs_window {Snapshot Mask : Type} {Fmt : PyFormat}
    (args : FinetuneArgs) (mask : binding Mask) (runs : Z -> @EpochRun Snapshot)
    (model : Snapshot) (best_acc1_0 : Q) (best_acc1_epoch_0 : Z)
    (fs : files Snapshot Mask) (r : FinetuneResult) :
  finetune_bookkeeping args mask runs model best_acc1_0 best_acc1_epoch_0 fs
  = Returned r ->
  res_last_acc1 r = last_n (ft_last_n_epoch args) (all_acc1 args runs) /\
  (ft_last_n_epoch args = 0%Z -> res_last_acc1 r = all_acc1 args runs) /\
  ((0 < ft_last_n_epoch args)%Z ->
   res_last_acc1 r
   = drop (length (all_acc1 args runs) - Z.to_nat (ft_last_n_epoch args))
          (all_acc1 args runs)).
Proof. apply finetune_windows. Qed.

Lemma X19_last_epochs_window_witness :
  exists r,
    finetune_bookkeeping demo_finetune_args (Bound 7) demo_runs 0 0%Q 0%Z ∅
    = Returned r /\
    res_last_acc1 r = all_acc1 demo_finetune_args demo_runs.
Proof.
  assert (Hrun : { r | finetune_bookkeeping demo_finetune_args (Bound 7)
                         demo_runs 0 0%Q 0%Z ∅ = Returned r })
    by (eexists; vm_compute; reflexivity).
  destruct Hrun as [r Hrun]. exists r. split; [exact Hrun|].
  destruct (X19_last_epochs_window demo_finetune_args (Bound 7) demo_runs
              0 0%Q 0%Z ∅ r Hrun) as (_ & Hall & _).
  apply Hall. reflexivity.
Defined.

(** ** [validate] and the training flag *)

(** X20: without the noisy ensemble, [validate] returns and leaves every
    module of the model with the training flag that the model itself had
    before, whatever the batches: [model.eval()] and [model.train()] reach
    every module inside the model, so the flag of the model is restored, and a
    module in evaluation mode inside a training model comes back in training
    mode.  Objects outside the model keep their flag. *)
Theorem X20_validate_sets_module_flags {N : ModelNoise} {B : Type}
    (modules_of : nat -> list nat) (val_loader : list B) (h : list bool)
    (model : nat) (model_noise_num : Z) (train_state : bool) :
  h !! model = Some train_state ->
  exists h',
    validate_modules modules_of val_loader h model false model_noise_num
    = (h', Ok tt) /\
    length h' = length h /\
    forall i, i < length h ->
      h' !! i = if bool_decide (i ∈ modules_of model) then Some train_state
                else h !! i.
Proof. apply validate_modules_flags. Qed.

Lemma X20_validate_sets_module_flags_witness :
  exists h',
    validate_modules (N := copy_noise) (fun m => if m =? 0 then [0; 1] else [m])
      [tt; tt] [true; false; false] 0 false 3 = (h', Ok tt) /\
    h' = [true; true; false].
Proof.
  destruct (X20_validate_sets_module_flags (N := copy_noise)
              (fun m => if m =? 0 then [0; 1] else [m]) [tt; tt]
              [true; false; false] 0 3 true eq_refl) as (h' & Hrun & _ & _).
  exists h'. split; [exact Hrun|]. by injection Hrun as <-.
Defined.

(** X21: with the noisy ensemble, [validate] does not switch the model
    back.  The loop [for model in model_ensemble] rebinds the name [model],
    so the final [model.train()] reaches the last noisy copy: when
    [add_noise_to_model] returns a new object and leaves the flag of the
    original alone, a model that was training is left in evaluation mode
    after a [validate] over at least one batch with at least one copy. *)
Theorem X21_noisy_validate_leaves_eval {N : ModelNoise} {B : Type}
    (val_loader : list B) (h : list bool) (model : nat) (model_noise_num : Z) :
  (forall h m, is_Some (h !! m) ->
     (add_noise_to_model h m).2 <> m /\
     (add_noise_to_model h m).1 !! m = h !! m) ->
  h !! model = Some true -> val_loader <> [] -> (0 < model_noise_num)%Z ->
  (validate_mode val_loader h model true model_noise_num).2 = Ok tt /\
  (validate_mode val_loader h model true model_noise_num).1 !! model = Some false.
Proof. apply validate_mode_noisy. Qed.

Lemma copy_noise_fresh (h : list bool) (m : nat) :
  is_Some (h !! m) ->
  (add_noise_to_model (ModelNoise := copy_noise) h m).2 <> m /\
  (add_noise_to_model (ModelNoise := copy_noise) h m).1 !! m = h !! m.
Proof.
  intros Hm. apply lookup_lt_is_Some_1 in Hm. cbn [add_noise_to_model copy_noise fst snd].
  split; [lia|]. by apply lookup_app_l.
Qed.

Lemma X21_noisy_validate_leaves_eval_witness :
  (validate_mode (N := copy_noise) [tt] [true] 0 true 2).2 = Ok tt /\
  (validate_mode (N := copy_noise) [tt] [true] 0 true 2).1 !! 0 = Some false.
Proof.
  apply (X21_noisy_validate_leaves_eval (N := copy_noise) [tt] [true] 0 2
           copy_noise_fresh); [reflexivity | discriminate | lia].
Defined.

(** X22: a noisy ensemble of no copies.  With [noisy_model_ensemble] set and
    [args.model_noise_num] at most 0 the ensemble is empty, and the first
    batch divides the output 0 by the length 0: [validate] raises
    [ZeroDivisionError], with the model left in evaluation mode. *)
Theorem X22_empty_ensemble_divides_by_zero {N : ModelNoise} {B : Type}
    (val_loader : list B) (h : list bool) (model : nat) (model_noise_num : Z) :
  val_loader <> [] -> (model_noise_num <= 0)%Z ->
  validate_mode val_loader h model true model_noise_num
  = (<[model := false]> h, Err ZeroDivisionError).
Proof. apply validate_mode_empty_ensemble. Qed.

Lemma X22_empty_ensemble_divides_by_zero_witness :
  validate_mode (N := copy_noise) [tt] [true] 0 true 0
  = ([false], Err ZeroDivisionError).
Proof.
  apply (X22_empty_ensemble_divides_by_zero (N := copy_noise) [tt] [true] 0 0);
    [discriminate | lia].
Defined.

(** ** [main_worker] and the global [mask] *)

(** X23: resuming does not restore the mask.  In mask mode, with
    [--resume_path] naming a checkpoint of finetuning and no
    [--directly_ft_weights], [main_worker] binds the global [mask] nowhere,
    even when the checkpoint holds one: with [args.reinit] set it raises
    [AttributeError] on [pruner.mask], the pruner being [None]; otherwise it
    goes on to [finetune] with the model of the checkpoint and [mask]
    unbound, where the first [apply_mask_forward] over a model with a module
    raises [NameError]. *)
Theorem X23_resume_leaves_mask_unbound {F : Type} {W : WeightArith F}
    {T : Torch F} {U : Utils F} {P : MetaPruner F} {K : Worker F}
    (wargs : WorkerArgs F) (fs : files (model F) (mask_dict F)) (mdl : model F)
    (path : string) (state : checkpoint (model F) (mask_dict F)) :
  truthy (method (wk_args wargs)) = true ->
  wg (wk_args wargs) = "weight" ->
  resume_path wargs = Some path -> path <> EmptyString ->
  truthy (directly_ft_weights wargs) = false ->
  fs !! path = Some state -> ck_prune_state state = Some "finetune" ->
  if truthy (reinit (wk_args wargs))
  then main_worker_prune wargs fs mdl Unbound = Raised (Builtin AttributeError)
  else
    exists st,
      main_worker_prune wargs fs mdl Unbound = Returned st /\
      wk_model st = ck_snapshot state /\ wk_mask st = Unbound /\
      (wk_model st <> [] ->
       apply_mask_forward_global (wk_mask st) (wk_model st)
       = Raised (NameError "mask")).
Proof.
  intros Hmethod Hwg Hpath Hne Hdirect Hfile Hstate.
  destruct (resumed_mask_unbound wargs fs mdl path state Hmethod Hwg Hpath Hne
              Hdirect Hfile Hstate) as [Hrun Hname].
  destruct (truthy (reinit (wk_args wargs))); [exact Hrun|].
  eexists. split; [exact Hrun|]. cbn [wk_model wk_mask].
  split; [done|]. split; [done|].
  destruct (ck_snapshot state) as [|[name m] rest]; [done|]. intros _. apply Hname.
Qed.

Lemma X23_resume_leaves_mask_unbound_witness :
  exists st,
    main_worker_prune (P := demo_meta_pruner) (K := demo_worker)
      (worker_args None (Some "checkpoint.pth") None) demo_checkpoints fc_model
      Unbound = Returned st /\
    wk_model st = fc_model_zeroed /\ wk_mask st = Unbound /\
    (wk_model st <> [] ->
     apply_mask_forward_global (wk_mask st) (wk_model st)
     = Raised (NameError "mask")).
Proof.
  apply (X23_resume_leaves_mask_unbound (P := demo_meta_pruner) (K := demo_worker)
           (worker_args None (Some "checkpoint.pth") None) demo_checkpoints
           fc_model "checkpoint.pth" demo_checkpoint);
    [reflexivity | reflexivity | reflexivity | discriminate | reflexivity
    | apply lookup_singleton_eq | reflexivity].
Defined.

(** X24: a fresh pruning binds the mask.  In mask mode, with neither
    [--resume_path] nor [--directly_ft_weights], whenever [main_worker]
    gets as far as [finetune] the pruner object exists and the global
    [mask] is bound to its mask, with [args.reinit] set or not. *)
Theorem X24_prune_binds_mask {F : Type} {W : WeightArith F} {T : Torch F}
    {U : Utils F} {P : MetaPruner F} {K : Worker F}
    (wargs : WorkerArgs F) (fs : files (model F) (mask_dict F)) (mdl : model F)
    (mask : binding (option (mask_dict F))) (st : WorkerState F) :
  truthy (method (wk_args wargs)) = true ->
  wg (wk_args wargs) = "weight" ->
  truthy (resume_path wargs) = false ->
  truthy (directly_ft_weights wargs) = false ->
  main_worker_prune wargs fs mdl mask = Returned st ->
  exists pruner,
    wk_pruner st = Some pruner /\ wk_mask st = Bound (Some (pr_mask pruner)).
Proof. apply pruned_mask_bound. Qed.

Lemma X24_prune_binds_mask_witness :
  exists st pruner,
    main_worker_prune (P := demo_meta_pruner) (K := demo_worker)
      (worker_args None None None) ∅ fc_model Unbound = Returned st /\
    wk_pruner st = Some pruner /\ wk_mask st = Bound (Some (pr_mask pruner)).
Proof.
  assert (Hrun : { st | main_worker_prune (P := demo_meta_pruner) (K := demo_worker)
                          (worker_args None None None) ∅ fc_model Unbound
                        = Returned st })
    by (eexists; vm_compute; reflexivity).
  destruct Hrun as [st Hrun].
  destruct (X24_prune_binds_mask (P := demo_meta_pruner) (K := demo_worker)
              (worker_args None None None) ∅ fc_model Unbound st
              eq_refl eq_refl eq_refl eq_refl Hrun) as [pruner Hpruner].
  exists st, pruner. split; [exact Hrun|exact Hpruner].
Defined.







(** ** The orthogonality regulariser of [train] *)

(** X26: the summands of [loss_orth_reg].  With [args.orth_reg_iter_ft] and
    every Conv/FC layer holding a weight of at least one dimension: CVPR20
    takes one distance for every Conv/FC layer but the first, in order --
    [orth_dist] for a weight of two dimensions or of last dimension 1,
    [deconv_orth_dist] otherwise; CVPR17 takes [orth_dist] of every Conv/FC
    layer, the first included; any other method raises
    [NotImplementedError] exactly when the model has a Conv/FC layer. *)
Theorem X26_orth_reg_summands {F : Type} (args : Args F) (mdl : model F) :
  orth_reg_iter_ft args = true ->
  (forall name m, (name, m) ∈ mdl -> is_conv_or_linear m = true ->
                  exists w, weight m = Some w /\ shape w <> []) ->
  (orth_reg_method args = "CVPR20" ->
   orth_reg_summands args mdl
   = Ok (map cvpr20_distance (tail (conv_linear_layers mdl)))) /\
  (orth_reg_method args = "CVPR17" ->
   orth_reg_summands args mdl
   = Ok (map (fun x => OrthDist x.1) (conv_linear_layers mdl))) /\
  (orth_reg_method args <> "CVPR20" -> orth_reg_method args <> "CVPR17" ->
   orth_reg_summands args mdl
   = if existsb (fun '(_, m) => is_conv_or_linear m) mdl
     then Err NotImplementedError else Ok []).
Proof. apply orth_reg_summands_layers. Qed.

Lemma conv_bn_fc_model_weights (name : string) (m : nn_module Z) :
  (name, m) ∈ conv_bn_fc_model -> is_conv_or_linear m = true ->
  exists w, weight m = Some w /\ shape w <> [].
Proof.
  intros Hin _. unfold conv_bn_fc_model in Hin.
  repeat (apply elem_of_cons in Hin as [Hin|Hin];
          [injection Hin as -> ->; by eexists|]).
  by apply elem_of_nil in Hin.
Qed.

Lemma X26_orth_reg_summands_witness :
  orth_reg_summands (orth_args "CVPR20") conv_bn_fc_model = Ok [OrthDist "fc"] /\
  orth_reg_summands (orth_args "CVPR17") conv_bn_fc_model
  = Ok [OrthDist "conv"; OrthDist "fc"].
Proof.
  split.
  - exact (proj1 (X26_orth_reg_summands (orth_args "CVPR20") conv_bn_fc_model
                    eq_refl conv_bn_fc_model_weights) eq_refl).
  - exact (proj1 (proj2 (X26_orth_reg_summands (orth_args "CVPR17")
                           conv_bn_fc_model eq_refl conv_bn_fc_model_weights))
             eq_refl).
Defined.

(** ** The plot tool *)

(** X27: when [one_exp_plot] draws.  For a log file that is found and whose
    lines parse, a step other than 0, and an index below the number of
    legends and below 4 (the line styles), [one_exp_plot] returns: it draws
    the singular values in red on the first axis and the accuracies in blue
    on the second, both with the legend and the line style of the index,
    each curve over every [x_step]-th entry of its two lists -- which are of
    the same length, so that [plot] never refuses them. *)
Theorem X27_one_exp_plot_draws {PU : PlotUtils} (logs : gmap string (list string))
    (legends : list string) (x_step : Z) (log_file : string) (ix : nat)
    (lines : list string) (c : Curves) :
  logs !! log_file = Some lines -> scan_log lines = Ok c ->
  x_step <> 0%Z -> ix < length legends -> ix < 4 ->
  exists xs ys xs2 ys2 label linestyle rest1 rest2,
    one_exp_plot logs legends x_step log_file ix
    = Returned (Plot Ax1 xs ys label "red" linestyle :: rest1 ++
                Plot Ax2 xs2 ys2 label "blue" linestyle :: rest2) /\
    slice_step x_step (jsv_epoch c) = Returned xs /\
    slice_step x_step (jsv c) = Returned ys /\
    slice_step x_step (test_acc_epoch c) = Returned xs2 /\
    slice_step x_step (test_acc c) = Returned ys2 /\
    length xs = length ys /\ length xs2 = length ys2 /\
    legends !! ix = Some label /\ linestyles !! ix = Some linestyle.
Proof. apply one_exp_plot_returns. Qed.

Lemma X27_one_exp_plot_draws_witness :
  exists xs ys xs2 ys2 label linestyle rest1 rest2,
    one_exp_plot (PU := demo_plot_utils) demo_logs ["first"; "second"] 1
      "Experiments/*b*/log/log.txt" 1
    = Returned (Plot Ax1 xs ys label "red" linestyle :: rest1 ++
                Plot Ax2 xs2 ys2 label "blue" linestyle :: rest2) /\
    length xs = length ys /\ length xs2 = length ys2 /\
    label = "second" /\ linestyle = "-".
Proof.
  assert (Hscan : { c | scan_log (PU := demo_plot_utils) demo_log = Ok c })
    by (eexists; vm_compute; reflexivity).
  destruct Hscan as [c Hscan].
  assert (Hfile : demo_logs !! "Experiments/*b*/log/log.txt" = Some demo_log)
    by (vm_compute; reflexivity).
  destruct (X27_one_exp_plot_draws (PU := demo_plot_utils) demo_logs
              ["first"; "second"] 1 "Experiments/*b*/log/log.txt" 1 demo_log c
              Hfile Hscan ltac:(discriminate) ltac:(simpl; lia) ltac:(lia))
    as (xs & ys & xs2 & ys2 & label & linestyle & rest1 & rest2 & Hrun & _ & _
        & _ & _ & Hl & Hl2 & Hlabel & Hstyle).
  exists xs, ys, xs2, ys2, label, linestyle, rest1, rest2.
  split; [exact Hrun|]. split; [exact Hl|]. split; [exact Hl2|].
  split; [by injection Hlabel|by injection Hstyle].
Defined.

(** X28: a log that ends on a singular value.  When the last line of a log
    holds JSV_mean and no Epoch, [one_exp_plot] looks for the epoch on the
    line after the last: the scan of the log does not return (the index is
    out of range, unless [parse_value] has raised before). *)
Theorem X28_scan_needs_epoch_line {PU : PlotUtils} (pre : list string)
    (raw : string) :
  contains "JSV_mean" (strip raw) = true ->
  contains "Epoch" (strip raw) = false ->
  is_ok (scan_log (pre ++ [raw])) = false.
Proof. apply scan_log_last_line. Qed.

Lemma X28_scan_needs_epoch_line_witness :
  is_ok (scan_log (PU := demo_plot_utils) (demo_log ++ ["JSV_mean 1.5"])) = false.
Proof.
  apply (X28_scan_needs_epoch_line (PU := demo_plot_utils) demo_log "JSV_mean 1.5");
    vm_compute; reflexivity.
Defined.

(** X29: what the script needs to get to its figure.  If the script returns,
    [--x_step] is not 0, [--exp_ids] names at most four experiments (one
    line style each), and [--legends] holds at least as many legends as
    there are experiments, both counted by their separators. *)
Theorem X29_plot_script_needs {PU : PlotUtils} (args : PlotArgs)
    (logs : gmap string (list string)) (evs : list plot_event) :
  plot_script args logs = Returned evs ->
  plot_x_step args <> 0%Z /\
  count_slash (plot_exp_ids args) <= count_slash (plot_legends args) /\
  count_slash (plot_exp_ids args) <= 3.
Proof. apply plot_script_needs. Qed.

Lemma X29_plot_script_needs_witness :
  exists evs,
    plot_script (PU := demo_plot_utils) demo_plot_args demo_logs = Returned evs /\
    plot_x_step demo_plot_args <> 0%Z /\
    count_slash (plot_exp_ids demo_plot_args)
    <= count_slash (plot_legends demo_plot_args) /\
    count_slash (plot_exp_ids demo_plot_args) <= 3.
Proof.
  assert (Hrun : { evs | plot_script (PU := demo_plot_utils) demo_plot_args demo_logs
                         = Returned evs })
    by (eexists; vm_compute; reflexivity).
  destruct Hrun as [evs Hrun]. exists evs. split; [exact Hrun|].
  exact (X29_plot_script_needs (PU := demo_plot_utils) demo_plot_args demo_logs evs
           Hrun).
Defined.
